(** * SMEFlow request gateway (Flowise plugin layer): a shallow embedding

    The JavaScript sources embedded here are
      - flowise/custom-nodes/utils/validation.js        (SMEFlowValidation)
      - flowise/middleware/tenant-isolation.js          (TenantIsolationMiddleware)
      - flowise/custom-nodes/agents/SMEFlowMentor/SMEFlowMentor.js
      - flowise/custom-nodes/agents/SMEFlowAutomator/SMEFlowAutomator.js
      - flowise/custom-nodes/utilities/SMEFlowTenantManager/SMEFlowTenantManager.js
      - flowise/custom-nodes/workflows/SMEFlowWorkflowExecutor/SMEFlowWorkflowExecutor.js
      - flowise/custom-nodes/tools/SMEFlowAfricanIntegrations/SMEFlowAfricanIntegrations.js
      - flowise/custom-nodes/agents/SMEFlowSupervisor/SMEFlowSupervisor.js
      - flowise/custom-nodes/agents/SMEFlowAgent/SMEFlowAgent.js

    JavaScript values are a small inductive type; objects keep their own
    enumerable properties in the order [Object.entries] lists them and carry
    their prototype; exceptions, the outbound HTTP call and the number of
    calls issued are threaded through a state-and-exception monad. *)

From Stdlib Require Import String Ascii List ZArith QArith Bool Lia DecimalString.
From Stdlib Require Import DecimalNat DecimalN DecimalPos.
Import ListNotations.
Open Scope string_scope.
Open Scope bool_scope.

(* ================================================================== *)
(** ** Strings *)

Module Str.

(** Strings are sequences of bytes (UTF-8); every character the sources
    test for is ASCII, and an ASCII byte never occurs inside a multi-byte
    sequence. *)

Fixpoint filter (f : ascii -> bool) (s : string) : string :=
  match s with
  | EmptyString => EmptyString
  | String c r => if f c then String c (filter f r) else filter f r
  end.

Fixpoint map (f : ascii -> ascii) (s : string) : string :=
  match s with
  | EmptyString => EmptyString
  | String c r => String (f c) (map f r)
  end.

Fixpoint forallb (f : ascii -> bool) (s : string) : bool :=
  match s with
  | EmptyString => true
  | String c r => f c && forallb f r
  end.

Definition between (lo hi : nat) (c : ascii) : bool :=
  let n := nat_of_ascii c in (lo <=? n)%nat && (n <=? hi)%nat.

Definition is_upper : ascii -> bool := between 65 90.
Definition is_lower : ascii -> bool := between 97 122.
Definition is_digit : ascii -> bool := between 48 57.

Definition lower_char (c : ascii) : ascii :=
  if is_upper c then ascii_of_nat (nat_of_ascii c + 32) else c.

Definition upper_char (c : ascii) : ascii :=
  if is_lower c then ascii_of_nat (nat_of_ascii c - 32) else c.

(** [String.prototype.toLowerCase] / [toUpperCase] on the ASCII letters: the
    sources apply them to SQL text searched for ASCII keywords, to tenant ids
    that passed the UUID pattern and to the names of workflow types. *)
Definition toLowerCase : string -> string := map lower_char.
Definition toUpperCase : string -> string := map upper_char.

(** [s.startsWith(p)] *)
Fixpoint startsWith (p s : string) : bool :=
  match p, s with
  | EmptyString, _ => true
  | String a p', String b s' => Ascii.eqb a b && startsWith p' s'
  | String _ _, EmptyString => false
  end.

(** [s.indexOf(p)]: position of the first occurrence, [None] for -1. *)
Fixpoint indexOf (p s : string) : option nat :=
  if startsWith p s then Some 0%nat
  else match s with
       | EmptyString => None
       | String _ r => option_map S (indexOf p r)
       end.

(** [s.includes(p)] *)
Definition includes (p s : string) : bool :=
  match indexOf p s with Some _ => true | None => false end.

Fixpoint take (n : nat) (s : string) : string :=
  match n, s with
  | O, _ => EmptyString
  | S n', String c r => String c (take n' r)
  | S _, EmptyString => EmptyString
  end.

Fixpoint drop (n : nat) (s : string) : string :=
  match n, s with
  | O, _ => s
  | S n', String _ r => drop n' r
  | S _, EmptyString => EmptyString
  end.

Definition quote : string := String (ascii_of_nat 39) EmptyString.
Definition dquote : string := String (ascii_of_nat 34) EmptyString.

(** Decimal rendering of a number in a template literal. *)
Definition of_Z (z : Z) : string := NilZero.string_of_int (Z.to_int z).
Definition of_nat (n : nat) : string := NilEmpty.string_of_uint (Nat.to_uint n).

End Str.

(* ================================================================== *)
(** ** JavaScript values *)

Module Js.

Inductive builtin : Type :=
| ObjectPrototypeObject              (* the intrinsic %Object.prototype% *)
| BuiltinFunction (name : string).   (* a built-in function object *)

(** The [[Prototype]] slot of an ordinary object. *)
Inductive proto_of (V : Type) : Type :=
| ObjectPrototype
| NullPrototype
| ProtoObject (v : V).
Arguments ObjectPrototype {V}.
Arguments NullPrototype {V}.
Arguments ProtoObject {V} v.

Unset Elimination Schemes.
Inductive value : Type :=
| VUndefined
| VNull
| VBool (b : bool)
| VNum (q : Q)
| VStr (s : string)
| VBuiltin (b : builtin)
| VArr (elems : list value)
| VObj (proto : proto_of value) (props : list (string * value)).
Set Elimination Schemes.

Definition props_t : Type := list (string * value).
Definition object : Type := (proto_of value * props_t)%type.

Definition of_object (o : object) : value := VObj (fst o) (snd o).

(** ToBoolean *)
Definition truthy (v : value) : bool :=
  match v with
  | VUndefined | VNull => false
  | VBool b => b
  | VNum q => negb (Qeq_bool q 0)
  | VStr s => negb (String.eqb s EmptyString)
  | VBuiltin _ | VArr _ | VObj _ _ => true
  end.

(** [a || b] *)
Definition or (a b : value) : value := if truthy a then a else b.

(** An optional string input: [None] is [undefined]. *)
Definition of_opt (o : option string) : value :=
  match o with Some s => VStr s | None => VUndefined end.

(** [x || 'dflt'] for an optional string input. *)
Definition str_or (o : option string) (dflt : string) : string :=
  match o with
  | Some s => if String.eqb s EmptyString then dflt else s
  | None => dflt
  end.

(** [!!x] for an optional string input. *)
Definition present (o : option string) : bool :=
  match o with
  | Some s => negb (String.eqb s EmptyString)
  | None => false
  end.

(* ---------------------------------------------------------------- *)
(** *** Own properties, in [OrdinaryOwnPropertyKeys] order *)

(** An array index is a canonical numeric string below 2^32 - 1. *)
Definition array_index (k : string) : option N :=
  match NilEmpty.uint_of_string k with
  | Some u =>
      let n := N.of_uint u in
      if String.eqb (NilEmpty.string_of_uint (N.to_uint n)) k
         && (n <? 4294967295)%N
      then Some n else None
  | None => None
  end.

Fixpoint has_key (k : string) (ps : props_t) : bool :=
  match ps with
  | [] => false
  | (k', _) :: r => String.eqb k k' || has_key k r
  end.

Fixpoint lookup (k : string) (ps : props_t) : option value :=
  match ps with
  | [] => None
  | (k', v) :: r => if String.eqb k k' then Some v else lookup k r
  end.

Fixpoint replace_value (k : string) (v : value) (ps : props_t) : props_t :=
  match ps with
  | [] => []
  | (k', v') :: r =>
      if String.eqb k k' then (k', v) :: r else (k', v') :: replace_value k v r
  end.

(** Does a new key [k] list before the existing key [k']?  Array indices
    come first, in ascending numeric order; other strings follow in the
    order they were created. *)
Definition goes_before (k k' : string) : bool :=
  match array_index k with
  | Some n =>
      match array_index k' with
      | Some m => (n <? m)%N
      | None => true
      end
  | None => false
  end.

Fixpoint insert_new (k : string) (v : value) (ps : props_t) : props_t :=
  match ps with
  | [] => [(k, v)]
  | (k', v') :: r =>
      if goes_before k k' then (k, v) :: ps else (k', v') :: insert_new k v r
  end.

(** CreateDataProperty on an ordinary extensible object. *)
Definition define_prop (k : string) (v : value) (ps : props_t) : props_t :=
  if has_key k ps then replace_value k v ps else insert_new k v ps.

(* ---------------------------------------------------------------- *)
(** *** Prototype chain *)

(** The property names %Object.prototype% carries; all are data
    properties holding functions except [__proto__], an accessor. *)
Definition object_prototype_members : list string :=
  [ "constructor"; "__defineGetter__"; "__defineSetter__"; "hasOwnProperty";
    "__lookupGetter__"; "__lookupSetter__"; "isPrototypeOf";
    "propertyIsEnumerable"; "toString"; "valueOf"; "__proto__";
    "toLocaleString" ].

Definition mem_string (k : string) (l : list string) : bool :=
  existsb (String.eqb k) l.

(** Walking up from the prototype [v] of a receiver: is the [__proto__]
    accessor of %Object.prototype% found before any own data property of
    that name? *)
Fixpoint proto_setter_from (v : value) : bool :=
  match v with
  | VObj p ps =>
      if has_key "__proto__" ps then false
      else match p with
           | ObjectPrototype => true
           | NullPrototype => false
           | ProtoObject v' => proto_setter_from v'
           end
  | VArr _ | VBuiltin _ => true
  | _ => false
  end.

Definition proto_setter_reachable (p : proto_of value) : bool :=
  match p with
  | ObjectPrototype => true
  | NullPrototype => false
  | ProtoObject v => proto_setter_from v
  end.

(** [o[k] = v] on an ordinary object: the [[Set]] internal method.  An own
    property is overwritten in place.  Otherwise the chain is searched: the
    only accessor it can hold is [__proto__], whose setter changes the
    prototype when [v] is an object or null and ignores every other [v];
    in all other cases a new own data property is created. *)
Definition set_prop (k : string) (v : value) (o : object) : object :=
  let '(p, ps) := o in
  if has_key k ps then (p, replace_value k v ps)
  else if String.eqb k "__proto__" && proto_setter_reachable p then
    match v with
    | VBuiltin ObjectPrototypeObject => (ObjectPrototype, ps)
    | VObj _ _ | VArr _ | VBuiltin _ => (ProtoObject v, ps)
    | VNull => (NullPrototype, ps)
    | _ => (p, ps)
    end
  else (p, insert_new k v ps).

(** The object an empty literal [{}] creates. *)
Definition empty_object : object := (ObjectPrototype, []).

(** [Object.entries(v)] for the values the sources pass to it. *)
Definition entries (v : value) : props_t :=
  match v with
  | VObj _ ps => ps
  | VArr elems => combine (List.map Str.of_nat (seq 0 (length elems))) elems
  | _ => []
  end.

(* ---------------------------------------------------------------- *)
(** *** Reading properties and building objects *)

Definition proto_value (p : proto_of value) : value :=
  match p with
  | ObjectPrototype => VBuiltin ObjectPrototypeObject
  | NullPrototype => VNull
  | ProtoObject v => v
  end.

(** A data property found on the chain above an object.  The members of
    the array, string, number and function prototypes are left out: no
    embedded source reads one. *)
Fixpoint inherited (v : value) (k : string) : value :=
  match v with
  | VObj p ps =>
      match lookup k ps with
      | Some x => x
      | None =>
          match p with
          | ObjectPrototype =>
              if mem_string k object_prototype_members
              then VBuiltin (BuiltinFunction k) else VUndefined
          | NullPrototype => VUndefined
          | ProtoObject v' => inherited v' k
          end
      end
  | VArr _ | VBuiltin _ =>
      if mem_string k object_prototype_members
      then VBuiltin (BuiltinFunction k) else VUndefined
  | _ => VUndefined
  end.

(** [v.k] / [v[k]] for a receiver that is neither null nor undefined. *)
Definition get (v : value) (k : string) : value :=
  match v with
  | VObj p ps =>
      match lookup k ps with
      | Some x => x
      | None =>
          if String.eqb k "__proto__" && proto_setter_reachable p
          then proto_value p
          else inherited (VObj p []) k
      end
  | VArr elems =>
      match array_index k with
      | Some n => nth (N.to_nat n) elems VUndefined
      | None =>
          if String.eqb k "length"
          then VNum (inject_Z (Z.of_nat (length elems)))
          else inherited v k
      end
  | _ => inherited v k
  end.

(** CopyDataProperties: the own enumerable properties a spread copies. *)
Definition spread_entries (v : value) : props_t :=
  match v with
  | VStr s =>
      combine (List.map Str.of_nat (seq 0 (String.length s)))
              (List.map (fun c => VStr (String c EmptyString))
                        (list_ascii_of_string s))
  | _ => entries v
  end.

(** The members of an object literal, in source order.  (No literal in
    the embedded sources has a member named [__proto__].) *)
Inductive member : Type :=
| Field (k : string) (v : value)
| Spread (v : value).

Definition define_all (es : props_t) (ps : props_t) : props_t :=
  fold_left (fun acc kv => define_prop (fst kv) (snd kv) acc) es ps.

Definition add_member (ps : props_t) (m : member) : props_t :=
  match m with
  | Field k v => define_prop k v ps
  | Spread v => define_all (spread_entries v) ps
  end.

Definition obj (ms : list member) : value :=
  VObj ObjectPrototype (fold_left add_member ms []).

(** [v.k] as a result: [undefined] when the property is missing. *)
Definition field (v : value) (k : string) : option value :=
  match v with
  | VObj _ ps => lookup k ps
  | _ => None
  end.

End Js.

(* ================================================================== *)
(** ** validation.js: SMEFlowValidation.sanitizeInput *)

Module Sanitize.
Import Js.

(** The character class of the regular expression in [sanitizeInput]:
    less-than, greater-than, double quote, single quote, percent,
    semicolon, both parentheses, ampersand and plus. *)
Definition dangerous (c : ascii) : bool :=
  existsb (Nat.eqb (nat_of_ascii c))
    [60; 62; 34; 39; 37; 59; 40; 41; 38; 43]%nat.

(** [input.replace(re, '')] with the global flag: every character of the
    class is deleted. *)
Definition strip (s : string) : string :=
  Str.filter (fun c => negb (dangerous c)) s.

(** The loop [for (const [key, value] of Object.entries(input))
    sanitized[sanitizeInput(key)] = sanitizeInput(value)], started from
    [sanitized = {}]: the entries are assigned in order. *)
Definition assign_all (es : props_t) : object :=
  fold_left (fun acc kv => set_prop (fst kv) (snd kv) acc) es empty_object.

Fixpoint sanitizeInput (input : value) : value :=
  match input with
  | VStr s => VStr (strip s)
  | VObj _ ps =>
      of_object
        (assign_all
           (List.map (fun kv => (strip (fst kv), sanitizeInput (snd kv))) ps))
  | VArr elems =>
      of_object
        (assign_all
           (combine
              (List.map (fun i => strip (Str.of_nat i)) (seq 0 (length elems)))
              (List.map sanitizeInput elems)))
  | VBuiltin ObjectPrototypeObject => of_object empty_object
  | _ => input
  end.

End Sanitize.

(* ================================================================== *)
(** ** The tenant-id pattern *)

Module Uuid.

(** A regular expression made of character classes and literals, each
    repeated a fixed number of times, anchored at both ends and matched
    with the ignore-case flag: the only shape the sources use. *)
Inductive atom : Type :=
| Class (ranges : list (ascii * ascii))
| Lit (c : ascii).

Definition pattern : Type := list (atom * nat).

Definition in_range (r : ascii * ascii) (c : ascii) : bool :=
  Str.between (nat_of_ascii (fst r)) (nat_of_ascii (snd r)) c.

(** Under the [i] flag a character matches when either of its cases
    does. *)
Definition atom_matches (a : atom) (c : ascii) : bool :=
  match a with
  | Class ranges =>
      existsb (fun r => in_range r (Str.lower_char c)
                        || in_range r (Str.upper_char c)) ranges
  | Lit l => Ascii.eqb (Str.lower_char l) (Str.lower_char c)
  end.

Fixpoint match_rep (a : atom) (n : nat) (s : string) : option string :=
  match n with
  | O => Some s
  | S n' =>
      match s with
      | String c r => if atom_matches a c then match_rep a n' r else None
      | EmptyString => None
      end
  end.

Fixpoint match_seq (p : pattern) (s : string) : option string :=
  match p with
  | [] => Some s
  | (a, n) :: p' =>
      match match_rep a n s with
      | Some r => match_seq p' r
      | None => None
      end
  end.

(** [re.test(s)] for an anchored pattern: the whole input is consumed. *)
Definition test (p : pattern) (s : string) : bool :=
  match match_seq p s with
  | Some EmptyString => true
  | _ => false
  end.

Definition hex : atom := Class [("0", "9"); ("a", "f")]%char.
Definition dash : atom := Lit "-"%char.

(** [const uuidRegex =
     /^[0-9a-f]{8}-[0-9a-f]{4}-[1-5][0-9a-f]{3}-[89ab][0-9a-f]{3}-[0-9a-f]{12}$/i],
    as the node wrappers write it inline. *)
Definition uuidRegex : pattern :=
  [ (hex, 8); (dash, 1);
    (hex, 4); (dash, 1);
    (Class [("1", "5")]%char, 1); (hex, 3); (dash, 1);
    (Class [("8", "8"); ("9", "9"); ("a", "a"); ("b", "b")]%char, 1); (hex, 3);
    (dash, 1);
    (hex, 12) ]%nat.

(** Modelled from the spec: [validate], imported from the [uuid] package
    that is not part of the repository.  The spec gives the grammar it
    accepts (groups of 8-4-4-4-12 hexadecimal digits, version nibble 1 to
    5, variant nibble 8, 9, a or b, case-insensitive): the pattern the node
    wrappers inline as [uuidRegex]. *)
Definition uuidValidate (s : string) : bool := test uuidRegex s.

(** The canonical UUID grammar in the words of the spec. *)
Definition is_hex (c : ascii) : bool :=
  Str.is_digit c || Str.between 97 102 c || Str.between 65 70 c.

Definition hex_group (n : nat) (g : string) : Prop :=
  String.length g = n /\ Str.forallb is_hex g = true.

Definition first_in (cs : string) (g : string) : Prop :=
  exists c r, g = String c r /\ Str.includes (String c EmptyString) cs = true.

Definition canonical_uuid (s : string) : Prop :=
  exists g1 g2 g3 g4 g5,
    s = g1 ++ "-" ++ g2 ++ "-" ++ g3 ++ "-" ++ g4 ++ "-" ++ g5
    /\ hex_group 8 g1 /\ hex_group 4 g2 /\ hex_group 4 g3
    /\ hex_group 4 g4 /\ hex_group 12 g5
    /\ first_in "12345" g3        (* version nibble *)
    /\ first_in "89abAB" g4.      (* variant nibble *)

End Uuid.

(* ================================================================== *)
(** ** middleware/tenant-isolation.js *)

Module TenantIsolation.
Import Js.

Record config : Type := {
  tenantHeader : string;
  requireTenantId : bool;
  defaultSchema : string
}.

(** [constructor(config = {})] with no overrides. *)
Definition default_config : config :=
  {| tenantHeader := "X-Tenant-ID";
     requireTenantId := true;
     defaultSchema := "public" |}.

(** [req.tenant] *)
Record tenant : Type := {
  id : option string;
  schema : string;
  isolated : bool
}.

(** What the middleware does with the request: hands it on with a tenant
    context attached, or answers it. *)
Inductive reply : Type :=
| Next (t : tenant)
| Json (status : Z) (error message : string).

(** [s.replace(/-/g, '_')] *)
Definition dashes_to_underscores (s : string) : string :=
  Str.map (fun c => if Ascii.eqb c "-" then "_"%char else c) s.

(** The function [middleware()] returns, applied to the value of the
    tenant header ([None] when the header is missing). *)
Definition middleware (cfg : config) (tenantId : option string) : reply :=
  if negb (present tenantId) && requireTenantId cfg then
    Json 400 "Tenant ID required"
      ("Header " ++ tenantHeader cfg ++ " is required for multi-tenant access")
  else if present tenantId && negb (Uuid.uuidValidate (str_or tenantId EmptyString)) then
    Json 400 "Invalid tenant ID format" "Tenant ID must be a valid UUID"
  else
    Next {| id := tenantId;
            schema := if present tenantId
                      then "tenant_" ++ dashes_to_underscores (str_or tenantId EmptyString)
                      else defaultSchema cfg;
            isolated := present tenantId |}.

(** GetSubstitution for a pattern without capture groups: in the
    replacement text, [$$] is a dollar sign, [$&] the matched text, [$`]
    the text before it and [$'] the text after it. *)
Fixpoint substitution (matched before after repl : string) : string :=
  match repl with
  | EmptyString => EmptyString
  | String c r =>
      if Ascii.eqb c "$" then
        match r with
        | String d r' =>
            if Ascii.eqb d "$" then "$" ++ substitution matched before after r'
            else if Ascii.eqb d "&" then matched ++ substitution matched before after r'
            else if Ascii.eqb d "`" then before ++ substitution matched before after r'
            else if Ascii.eqb d "'" then after ++ substitution matched before after r'
            else String c (substitution matched before after r)
        | EmptyString => String c EmptyString
        end
      else String c (substitution matched before after r)
  end.

(** [sql.replace(/where/i, repl)]: the first match only. *)
Definition replace_where (sql repl : string) : string :=
  match Str.indexOf "where" (Str.toLowerCase sql) with
  | Some i =>
      let before := Str.take i sql in
      let matched := Str.take 5 (Str.drop i sql) in
      let after := Str.drop (i + 5) sql in
      before ++ substitution matched before after repl ++ after
  | None => sql
  end.

Definition addTenantFilter (sql : string) (tenantId : option string) : string :=
  if negb (present tenantId) then sql
  else
    let tid := str_or tenantId EmptyString in
    let lowerSql := Str.toLowerCase sql in
    if Str.includes "where" lowerSql then
      replace_where sql ("WHERE tenant_id = '" ++ tid ++ "' AND")
    else if Str.includes "select" lowerSql then
      match Str.indexOf "from" lowerSql with
      | Some fromIndex =>
          Str.take fromIndex sql ++ Str.drop fromIndex sql
          ++ " WHERE tenant_id = '" ++ tid ++ "'"
      | None => sql
      end
    else sql.

End TenantIsolation.

(* ================================================================== *)
(** ** Exceptions, the outbound call and the clock *)

Module Run.
Import Js.

Record http_response : Type := { status : Z; data : value }.

(** A thrown [Error]; [response] is set on the errors axios raises for a
    reply it received. *)
Record js_error : Type := {
  name : string;
  message : string;
  response : option http_response
}.

Definition error (n msg : string) : js_error :=
  {| name := n; message := msg; response := None |}.

Inductive outcome (A : Type) : Type :=
| Return (a : A)
| Throw (e : js_error).
Arguments Return {A} a.
Arguments Throw {A} e.

Record request : Type := {
  url : string;
  body : value;
  headers : value;
  timeout : option Z
}.

Inductive http_result : Type :=
| Responded (r : http_response)
| NoResponse (reason : string).     (* DNS, connection, timeout *)

(** What the code takes from its host: the JSON parser ([inl] carries the
    message of the SyntaxError), the [URL] constructor, the backend (the
    outcome of the n-th outbound call, given the request) and the clock. *)
Record runtime : Type := {
  JSON_parse : string -> string + value;
  URL_valid : string -> bool;
  backend : nat -> request -> http_result;
  now_iso : string;
  now_ms : Z
}.

(** Computations that may throw; the state counts the outbound calls
    issued so far. *)
Definition M (A : Type) : Type := nat -> outcome A * nat.

Definition ret {A} (a : A) : M A := fun n => (Return a, n).
Definition throw {A} (e : js_error) : M A := fun n => (Throw e, n).

Definition bind {A B} (m : M A) (k : A -> M B) : M B :=
  fun n => match m n with
           | (Return a, n') => k a n'
           | (Throw e, n') => (Throw e, n')
           end.

(** [try { body } catch (error) { handler }] *)
Definition try_catch {A} (body : M A) (handler : js_error -> M A) : M A :=
  fun n => match body n with
           | (Return a, n') => (Return a, n')
           | (Throw e, n') => handler e n'
           end.

Declare Scope js_scope.
Delimit Scope js_scope with js.
Notation "x <- m ;; k" := (bind m (fun x => k))
  (at level 61, m at next level, right associativity) : js_scope.

Section WithRuntime.
Variable rt : runtime.

(** [JSON.parse(text)] *)
Definition json_parse (text : string) : M value :=
  match JSON_parse rt text with
  | inr v => ret v
  | inl msg => throw (error "SyntaxError" msg)
  end.

(** Modelled from the axios contract (the library is not part of the
    repository): [axios.post] issues one request; it resolves with the
    response for a 2xx status, rejects with an error carrying the
    response for any other status, and rejects with an error without a
    response when none arrived. *)
Definition axios_post (req : request) : M http_response :=
  fun n =>
    match backend rt n req with
    | Responded r =>
        if (200 <=? status r)%Z && (status r <? 300)%Z
        then (Return r, S n)
        else (Throw {| name := "AxiosError";
                       message := "Request failed with status code "
                                  ++ Str.of_Z (status r);
                       response := Some r |}, S n)
    | NoResponse reason => (Throw (error "AxiosError" reason), S n)
    end.
End WithRuntime.

(** [v.k] where [v] may be null or undefined. *)
Definition member_of (v : value) (k : string) : M value :=
  match v with
  | VUndefined =>
      throw (error "TypeError"
               ("Cannot read properties of undefined (reading '" ++ k ++ "')"))
  | VNull =>
      throw (error "TypeError"
               ("Cannot read properties of null (reading '" ++ k ++ "')"))
  | _ => ret (get v k)
  end.

(** Evaluating an identifier that no enclosing scope binds. *)
Definition unbound {A : Type} (x : string) : M A :=
  throw (error "ReferenceError" (x ++ " is not defined")).

(** [error.response?.status || 'UNKNOWN'] *)
Definition error_code (e : js_error) : value :=
  or (match response e with
      | Some r => VNum (inject_Z (status r))
      | None => VUndefined
      end)
     (VStr "UNKNOWN").

(** The headers every node builds: [headers['Authorization']] is set only
    for a non-empty key. *)
Definition with_authorization (apiKey : option string) (headers : value) : value :=
  if present apiKey then
    match headers with
    | VObj p ps =>
        of_object (set_prop "Authorization"
                     (VStr ("Bearer " ++ str_or apiKey EmptyString)) (p, ps))
    | _ => headers
    end
  else headers.

End Run.

(* ================================================================== *)
(** ** agents/SMEFlowMentor/SMEFlowMentor.js *)

Module Mentor.
Import Js Run.
Local Open Scope js_scope.

(** [nodeData.inputs], with the types the node declares for its inputs
    ([None] is a missing input), and [nodeData.instance?.id]. *)
Record node_data : Type := {
  guidanceType : option string;
  industrySector : option string;
  tenantId : option string;
  businessContext : option string;
  question : option string;
  marketConfig : option string;
  apiUrl : option string;
  apiKey : option string;
  instance_id : value
}.

Definition defaultMarketConfig : value :=
  obj [ Field "region" (VStr "africa-west");
        Field "currency" (VStr "NGN");
        Field "timezone" (VStr "Africa/Lagos");
        Field "languages" (VArr [VStr "en"; VStr "ha"; VStr "yo"; VStr "ig"]);
        Field "market_focus" (VStr "urban");
        Field "business_environment"
          (obj [ Field "infrastructure" (VStr "developing");
                 Field "digital_adoption" (VStr "growing");
                 Field "regulatory_complexity" (VStr "moderate") ]);
        Field "cultural_context"
          (obj [ Field "business_relationships" (VStr "relationship_focused");
                 Field "decision_making" (VStr "consensus_driven");
                 Field "communication_style" (VStr "respectful") ]) ].

Section WithRuntime.
Variable rt : runtime.

(** The call [axios.post(url, mentorRequest, { headers, timeout })]. *)
Definition outbound (nodeData : node_data) (context africanMarketConfig : value)
  : request :=
  let guidanceType := str_or (guidanceType nodeData) "business_strategy" in
  let industrySector := str_or (industrySector nodeData) "retail" in
  let apiUrl := str_or (apiUrl nodeData) "http://smeflow:8000" in
  let finalMarketConfig :=
    obj [ Spread defaultMarketConfig; Spread africanMarketConfig ] in
  let headers :=
    with_authorization (apiKey nodeData)
      (obj [ Field "Content-Type" (VStr "application/json");
             Field "X-Tenant-ID" (of_opt (tenantId nodeData)) ]) in
  let mentorRequest :=
    obj [ Field "guidance_type" (VStr guidanceType);
          Field "industry_sector" (VStr industrySector);
          Field "tenant_id" (of_opt (tenantId nodeData));
          Field "business_context"
            (obj [ Spread context;
                   Spread finalMarketConfig;
                   Field "source" (VStr "flowise");
                   Field "workflow_id" (instance_id nodeData);
                   Field "created_at" (VStr (now_iso rt)) ]);
          Field "question" (of_opt (question nodeData));
          Field "preferences"
            (obj [ Field "response_style" (VStr "practical");
                   Field "detail_level" (VStr "comprehensive");
                   Field "include_examples" (VBool true);
                   Field "african_context" (VBool true) ]) ] in
  {| url := apiUrl ++ "/api/v1/mentor/guidance";
     body := mentorRequest;
     headers := headers;
     timeout := Some 120000%Z |}.

(** The object the [catch] block returns. *)
Definition failure (nodeData : node_data) (error : js_error) : value :=
  obj [ Field "success" (VBool false);
        Field "guidance_type"
          (VStr (str_or (guidanceType nodeData) "business_strategy"));
        Field "industry_sector" (VStr (str_or (industrySector nodeData) "retail"));
        Field "error" (VStr (message error));
        Field "error_code" (error_code error);
        Field "tenant_id" (of_opt (tenantId nodeData));
        Field "timestamp" (VStr (now_iso rt)) ].

Definition init (nodeData : node_data) : M value :=
  let guidanceType := str_or (guidanceType nodeData) "business_strategy" in
  let industrySector := str_or (industrySector nodeData) "retail" in
  let tenantId := tenantId nodeData in
  let businessContext := businessContext nodeData in
  let question := question nodeData in
  let marketConfig := marketConfig nodeData in
  if negb (present tenantId) then
    throw (error "Error" "Tenant ID is required for multi-tenant isolation")
  else if negb (present question) then
    throw (error "Error" "Question/Challenge is required for mentor guidance")
  else if negb (Uuid.test Uuid.uuidRegex (str_or tenantId EmptyString)) then
    throw (error "Error" "Tenant ID must be a valid UUID format")
  else
    try_catch
      (context <- json_parse rt (str_or businessContext "{}") ;;
       africanMarketConfig <- json_parse rt (str_or marketConfig "{}") ;;
       let finalMarketConfig :=
         obj [ Spread defaultMarketConfig; Spread africanMarketConfig ] in
       response <- axios_post rt (outbound nodeData context africanMarketConfig) ;;
       mentor_id <- member_of (data response) "mentor_id" ;;
       session_id <- member_of (data response) "session_id" ;;
       guidance <- member_of (data response) "guidance" ;;
       recommendations <- member_of (data response) "recommendations" ;;
       action_items <- member_of (data response) "action_items" ;;
       resources <- member_of (data response) "resources" ;;
       follow_up_questions <- member_of (data response) "follow_up_questions" ;;
       confidence_score <- member_of (data response) "confidence_score" ;;
       cost_usd <- member_of (data response) "cost_usd" ;;
       tokens_used <- member_of (data response) "tokens_used" ;;
       execution_time <- member_of (data response) "execution_time" ;;
       ret (obj [ Field "success" (VBool true);
                  Field "guidance_type" (VStr guidanceType);
                  Field "industry_sector" (VStr industrySector);
                  Field "mentor_id" mentor_id;
                  Field "session_id" session_id;
                  Field "guidance" guidance;
                  Field "recommendations" recommendations;
                  Field "action_items" action_items;
                  Field "resources" resources;
                  Field "follow_up_questions" follow_up_questions;
                  Field "confidence_score" confidence_score;
                  Field "cost_usd" cost_usd;
                  Field "tokens_used" tokens_used;
                  Field "execution_time" execution_time;
                  Field "tenant_id" (of_opt tenantId);
                  Field "market_config" finalMarketConfig;
                  Field "timestamp" (VStr (now_iso rt)) ]))
      (fun error => ret (failure nodeData error)).

End WithRuntime.
End Mentor.

(* ================================================================== *)
(** ** agents/SMEFlowAutomator/SMEFlowAutomator.js *)

Module Automator.
Import Js Run.
Local Open Scope js_scope.

(** [tenantManager] is the output of a connected node, any value; [input]
    is the second argument of [init]. *)
Record node_data : Type := {
  tenantManager : value;
  taskType : option string;
  tenantId : option string;
  taskConfig : option string;
  inputData : option string;
  marketConfig : option string;
  apiUrl : option string;
  apiKey : option string;
  instance_id : value
}.

Definition defaultMarketConfig : value :=
  obj [ Field "region" (VStr "africa-west");
        Field "currency" (VStr "NGN");
        Field "timezone" (VStr "Africa/Lagos");
        Field "languages" (VArr [VStr "en"; VStr "ha"; VStr "yo"; VStr "ig"]);
        Field "phone_format" (VStr "+234");
        Field "business_hours"
          (obj [ Field "start" (VStr "08:00");
                 Field "end" (VStr "18:00");
                 Field "timezone" (VStr "Africa/Lagos") ]) ].

(** [const finalMarketConfig = { ...defaultMarketConfig, ...africanMarketConfig }] *)
Definition finalMarketConfig (africanMarketConfig : value) : value :=
  obj [ Spread defaultMarketConfig; Spread africanMarketConfig ].

(** The tenant id after the connected-node overrides. *)
Definition resolve_tenant (tenantManager input tenantId : value) : value :=
  if truthy tenantManager && truthy (get tenantManager "tenant_id") then
    get tenantManager "tenant_id"
  else if truthy input && truthy (get input "tenant_id") then
    get input "tenant_id"
  else tenantId.

Section WithRuntime.
Variable rt : runtime.

(** The object the [catch] block returns. *)
Definition failure (taskType : string) (tenantId : value) (error : js_error)
  : value :=
  obj [ Field "success" (VBool false);
        Field "error" (VStr (message error));
        Field "tenant_id" tenantId;
        Field "task_type" (VStr taskType);
        Field "timestamp" (VStr (now_iso rt)) ].

(** [const automationRequest = { ... }]: the request the node builds. *)
Definition automationRequest (nodeData : node_data)
                             (tenantId config data finalMarketConfig : value) : value :=
  obj [ Field "task_type" (VStr (str_or (taskType nodeData) "api_integration"));
        Field "tenant_id" tenantId;
        Field "config"
          (obj [ Spread config;
                 Spread finalMarketConfig;
                 Field "source" (VStr "flowise");
                 Field "workflow_id" (instance_id nodeData);
                 Field "created_at" (VStr (now_iso rt)) ]);
        Field "input_data" data;
        Field "execution_options"
          (obj [ Field "async" (VBool false);
                 Field "timeout" (VNum 120);
                 Field "retry_on_failure" (VBool true);
                 Field "max_retries" (VNum 3) ]) ].

Definition init (nodeData : node_data) (input : value) : M value :=
  let tenantManager := or (tenantManager nodeData) input in
  let taskType := str_or (taskType nodeData) "api_integration" in
  let tenantId := resolve_tenant tenantManager input (of_opt (tenantId nodeData)) in
  let taskConfig := taskConfig nodeData in
  let inputData := inputData nodeData in
  let marketConfig := marketConfig nodeData in
  let apiUrl := str_or (apiUrl nodeData) "http://smeflow:8000" in
  let apiKey := apiKey nodeData in
  if negb (truthy tenantId) then
    throw (error "Error" "Tenant ID is required for multi-tenant isolation")
  else
    try_catch
      (config <- json_parse rt (str_or taskConfig "{}") ;;
       data <- json_parse rt (str_or inputData "{}") ;;
       africanMarketConfig <- json_parse rt (str_or marketConfig "{}") ;;
       let finalMarketConfig := finalMarketConfig africanMarketConfig in
       let headers :=
         with_authorization apiKey
           (obj [ Field "Content-Type" (VStr "application/json");
                  Field "X-Tenant-ID" tenantId ]) in
       let automationRequest :=
         automationRequest nodeData tenantId config data finalMarketConfig in
       (* the request is built and never sent: mock data is returned *)
       ret (obj [ Field "success" (VBool true);
                  Field "task_id" (VStr ("task_" ++ Str.of_Z (now_ms rt)));
                  Field "execution_id" (VStr ("exec_" ++ Str.of_Z (now_ms rt)));
                  Field "status" (VStr "completed");
                  Field "result"
                    (obj [ Field "message"
                             (VStr ("Successfully executed " ++ taskType ++ " task"));
                           Field "processed_data" data;
                           Field "tenant_context" tenantId ]);
                  Field "cost_usd" (VNum 0.05);
                  Field "execution_time" (VNum 1.2);
                  Field "tenant_id" tenantId;
                  Field "task_type" (VStr taskType);
                  Field "market_config" finalMarketConfig ]))
      (fun error => ret (failure taskType tenantId error)).

End WithRuntime.
End Automator.

(* ================================================================== *)
(** ** utilities/SMEFlowTenantManager/SMEFlowTenantManager.js *)

Module TenantManager.
Import Js Run.
Local Open Scope js_scope.

Record node_data : Type := {
  operation : option string;
  tenantId : option string;
  tenantName : option string;
  tenantConfig : option string;
  marketSettings : option string;
  apiUrl : option string;
  apiKey : option string;
  instance_id : value
}.

(** The literal is the one of SMEFlowAutomator.js, key for key. *)
Definition defaultMarketConfig : value := Automator.defaultMarketConfig.

Section WithRuntime.
Variable rt : runtime.

(** The object the [catch] block returns. *)
Definition failure (nodeData : node_data) (error : js_error) : value :=
  obj [ Field "success" (VBool false);
        Field "operation" (VStr (str_or (operation nodeData) "validate"));
        Field "tenant_id" (of_opt (tenantId nodeData));
        Field "error" (VStr (message error));
        Field "error_code" (error_code error);
        Field "timestamp" (VStr (now_iso rt)) ].

(** The body reads [marketConfig]; the function binds [marketSettings]
    and nothing binds [marketConfig], neither in the function nor in the
    module. *)
Definition init (nodeData : node_data) : M value :=
  let operation := str_or (operation nodeData) "validate" in
  let tenantId := tenantId nodeData in
  let tenantName := tenantName nodeData in
  let tenantConfig := tenantConfig nodeData in
  if negb (present tenantId) then
    throw (error "Error" "Tenant ID is required for all tenant operations")
  else if negb (Uuid.test Uuid.uuidRegex (str_or tenantId EmptyString)) then
    throw (error "Error" "Tenant ID must be a valid UUID format")
  else
    try_catch
      (config <- json_parse rt (str_or tenantConfig "{}") ;;
       marketConfig <- unbound "marketConfig" ;;
       africanMarketConfig <- json_parse rt (str_or marketConfig "{}") ;;
       let finalMarketConfig :=
         obj [ Spread defaultMarketConfig; Spread africanMarketConfig ] in
       ret (obj [ Field "success" (VBool true);
                  Field "operation" (VStr operation);
                  Field "tenant_id" (of_opt tenantId);
                  Field "tenant_name" (VStr (str_or tenantName "Test Company Ltd"));
                  Field "tenant_status" (VStr "active");
                  Field "tenant_config"
                    (obj [ Spread config;
                           Spread finalMarketConfig;
                           Field "source" (VStr "flowise");
                           Field "workflow_id" (instance_id nodeData);
                           Field "created_at" (VStr (now_iso rt)) ]);
                  Field "market_config" finalMarketConfig;
                  Field "permissions" (VArr [VStr "read"; VStr "write"; VStr "execute"]);
                  Field "created_at" (VStr (now_iso rt));
                  Field "updated_at" (VStr (now_iso rt));
                  Field "_flowiseData"
                    (obj [ Field "type" (VStr "SMEFlowTenantManager");
                           Field "tenantId" (of_opt tenantId);
                           Field "config" finalMarketConfig ]) ]))
      (fun error => ret (failure nodeData error)).

End WithRuntime.
End TenantManager.

(* ================================================================== *)
(** ** workflows/SMEFlowWorkflowExecutor/SMEFlowWorkflowExecutor.js *)

Module WorkflowExecutor.
Import Js Run.
Local Open Scope js_scope.

Record node_data : Type := {
  tenantManager : value;
  workflowType : option string;
  tenantId : option string;
  inputData : option string;
  workflowContext : option string;
  marketConfig : option string;
  businessRules : option string;
  apiUrl : option string;
  apiKey : option string;
  useCache : value;
  instance_id : value
}.

(** The literal is the one of SMEFlowAutomator.js, key for key. *)
Definition defaultMarketConfig : value := Automator.defaultMarketConfig.

Definition endpointMap : value :=
  obj [ Field "consulting" (VStr "/langgraph/templates/consulting");
        Field "salon_spa" (VStr "/langgraph/templates/salon-spa");
        Field "healthcare" (VStr "/langgraph/templates/healthcare");
        Field "manufacturing" (VStr "/langgraph/templates/manufacturing");
        Field "marketing_campaigns" (VStr "/langgraph/templates/marketing-campaigns");
        Field "product_recommender" (VStr "/langgraph/templates/product-recommender");
        Field "compliance_workflows" (VStr "/langgraph/templates/compliance-workflows");
        Field "erp_integration" (VStr "/langgraph/templates/erp-integration") ].

(** How a built-in prints inside a template literal. *)
Definition builtin_text (b : builtin) : string :=
  match b with
  | ObjectPrototypeObject => "[object Object]"
  | BuiltinFunction k =>
      "function " ++ (if String.eqb k "constructor" then "Object" else k)
      ++ "() { [native code] }"
  end.

(** [endpointMap[workflowType] || '/langgraph/workflows'], as text. *)
Definition endpoint_path (workflowType : string) : string :=
  match or (get endpointMap workflowType) (VStr "/langgraph/workflows") with
  | VStr path => path
  | VBuiltin b => builtin_text b
  | _ => "/langgraph/workflows"
  end.

(** [x !== false] *)
Definition not_false (v : value) : bool :=
  match v with VBool false => false | _ => true end.

(** [s.replace('_', ' ')]: the first underscore only. *)
Fixpoint replace_first_underscore (s : string) : string :=
  match s with
  | EmptyString => EmptyString
  | String c r =>
      if Ascii.eqb c "_" then String " " r
      else String c (replace_first_underscore r)
  end.

Section WithRuntime.
Variable rt : runtime.

(** The result returned when the outbound call, or reading its reply,
    throws.  Every reading of the clock is the one reading of the runtime,
    and the name is put in upper case letter by letter for the ASCII
    letters: what is proved of this object says of the two ids only that
    they carry their prefixes, and gives the name for a workflow type written
    in ASCII. *)
Definition fallback (workflowType : string) (tenantId parsedInputData
                     finalMarketConfig parsedBusinessRules : value)
                    (apiError : js_error) : value :=
  obj [ Field "success" (VBool true);
        Field "workflow_id" (VStr ("workflow_" ++ Str.of_Z (now_ms rt)));
        Field "execution_id" (VStr ("exec_" ++ Str.of_Z (now_ms rt)));
        Field "status" (VStr "completed");
        Field "workflow_type" (VStr workflowType);
        Field "result"
          (obj [ Field "name"
                   (VStr (Str.toUpperCase (replace_first_underscore workflowType)
                          ++ " Workflow"));
                 Field "description"
                   (VStr ("Simulated " ++ workflowType ++ " workflow execution"));
                 Field "template_type" (VStr ("industry_" ++ workflowType));
                 Field "output_data"
                   (obj [ Spread parsedInputData;
                          Field "workflow_result"
                            (VStr ("Successfully processed " ++ workflowType
                                   ++ " workflow"));
                          Field "processed_at" (VStr (now_iso rt));
                          Field "fallback_mode" (VBool true) ]);
                 Field "execution_summary"
                   (obj [ Field "started_at" (VStr (now_iso rt));
                          Field "completed_at" (VStr (now_iso rt));
                          Field "duration_ms" (VNum 2500);
                          Field "total_cost_usd" (VNum 0.10);
                          Field "tokens_used" (VNum 150) ]) ]);
        Field "tenant_id" tenantId;
        Field "market_config" finalMarketConfig;
        Field "business_rules" parsedBusinessRules;
        Field "fallback_mode" (VBool true);
        Field "fallback_reason" (VStr (message apiError));
        Field "cache_used" (VBool false) ].

(** The call [axios.post(apiEndpoint, workflowRequest, { headers })]. *)
Definition outbound (nodeData : node_data)
                    (tenantId parsedInputData parsedContext finalMarketConfig
                     parsedBusinessRules : value) : request :=
  let workflowType := str_or (workflowType nodeData) "consulting" in
  let apiUrl := str_or (apiUrl nodeData) "http://smeflow:8000" in
  let useCache := not_false (useCache nodeData) in
  let headers :=
    with_authorization (apiKey nodeData)
      (obj [ Field "Content-Type" (VStr "application/json");
             Field "X-Tenant-ID" tenantId ]) in
  let workflowRequest :=
    obj [ Field "workflow_type" (VStr workflowType);
          Field "tenant_id" tenantId;
          Field "input_data" parsedInputData;
          Field "context"
            (obj [ Spread parsedContext;
                   Field "source" (VStr "flowise");
                   Field "workflow_id" (instance_id nodeData);
                   Field "market_config" finalMarketConfig;
                   Field "business_rules" parsedBusinessRules;
                   Field "created_at" (VStr (now_iso rt)) ]);
          Field "use_cache" (VBool useCache);
          Field "execution_options"
            (obj [ Field "async" (VBool false);
                   Field "timeout" (VNum 300);
                   Field "retry_on_failure" (VBool true);
                   Field "max_retries" (VNum 2);
                   Field "african_market_optimizations" (VBool true) ]) ] in
  let apiEndpoint :=
    if String.eqb workflowType "custom"
    then apiUrl ++ "/flowise/execute"
    else apiUrl ++ endpoint_path workflowType in
  {| url := apiEndpoint;
     body := workflowRequest;
     headers := headers;
     timeout := None |}.

(** The tenant id is taken from the connected node or from [input] by the
    same two tests as in SMEFlowAutomator.js. *)
Definition init (nodeData : node_data) (input : value) : M value :=
  let tenantManager := or (tenantManager nodeData) input in
  let workflowType := str_or (workflowType nodeData) "consulting" in
  let tenantId :=
    Automator.resolve_tenant tenantManager input (of_opt (tenantId nodeData)) in
  let useCache := not_false (useCache nodeData) in
  if negb (truthy tenantId) then
    throw (error "Error" "Tenant ID is required for multi-tenant workflow execution")
  else
    try_catch
      (parsedInputData <- json_parse rt (str_or (inputData nodeData) "{}") ;;
       parsedContext <- json_parse rt (str_or (workflowContext nodeData) "{}") ;;
       parsedMarketConfig <- json_parse rt (str_or (marketConfig nodeData) "{}") ;;
       parsedBusinessRules <- json_parse rt (str_or (businessRules nodeData) "{}") ;;
       let finalMarketConfig :=
         obj [ Spread defaultMarketConfig; Spread parsedMarketConfig ] in
       try_catch
         (response <- axios_post rt
                        (outbound nodeData tenantId parsedInputData parsedContext
                           finalMarketConfig parsedBusinessRules) ;;
          let d := data response in
          status_ <- member_of d "status" ;;
          success_ <- member_of d "success" ;;
          id_ <- member_of d "id" ;;
          workflow_id_ <- member_of d "workflow_id" ;;
          execution_id_ <- member_of d "execution_id" ;;
          name_ <- member_of d "name" ;;
          description_ <- member_of d "description" ;;
          template_type_ <- member_of d "template_type" ;;
          output_data_ <- member_of d "output_data" ;;
          created_at_ <- member_of d "created_at" ;;
          updated_at_ <- member_of d "updated_at" ;;
          duration_ms_ <- member_of d "duration_ms" ;;
          total_cost_usd_ <- member_of d "total_cost_usd" ;;
          tokens_used_ <- member_of d "tokens_used" ;;
          ret (obj [ Field "success" (VBool (not_false success_));
                     Field "workflow_id" (or id_ workflow_id_);
                     Field "execution_id" execution_id_;
                     Field "status" (or status_ (VStr "completed"));
                     Field "workflow_type" (VStr workflowType);
                     Field "result"
                       (obj [ Field "name" name_;
                              Field "description" description_;
                              Field "template_type" template_type_;
                              Field "output_data" (or output_data_ parsedInputData);
                              Field "execution_summary"
                                (obj [ Field "started_at"
                                         (or created_at_ (VStr (now_iso rt)));
                                       Field "completed_at" updated_at_;
                                       Field "duration_ms" duration_ms_;
                                       Field "total_cost_usd"
                                         (or total_cost_usd_ (VNum 0.10));
                                       Field "tokens_used"
                                         (or tokens_used_ (VNum 0)) ]) ]);
                     Field "tenant_id" tenantId;
                     Field "market_config" finalMarketConfig;
                     Field "business_rules" parsedBusinessRules;
                     Field "api_response" d;
                     Field "cache_used" (VBool useCache) ]))
         (fun apiError =>
            ret (fallback workflowType tenantId parsedInputData
                   finalMarketConfig parsedBusinessRules apiError)))
      (fun error =>
         (* [apiEndpoint] is declared with [let] inside the [try] block
            and is out of scope here *)
         apiEndpoint <- unbound "apiEndpoint" ;;
         ret (obj [ Field "success" (VBool false);
                    Field "error" (VStr (message error));
                    Field "tenant_id" tenantId;
                    Field "workflow_type" (VStr workflowType);
                    Field "timestamp" (VStr (now_iso rt));
                    Field "troubleshooting"
                      (obj [ Field "common_issues"
                               (VArr [ VStr "Check if SMEFlow API is running and accessible";
                                       VStr "Verify tenant ID format (should be UUID)";
                                       VStr "Ensure input data is valid JSON";
                                       VStr "Check API key if authentication is required" ]);
                             Field "api_endpoint"
                               (or apiEndpoint (VStr "undefined")) ]) ])).

End WithRuntime.
End WorkflowExecutor.

(* ================================================================== *)
(** ** tools/SMEFlowAfricanIntegrations/SMEFlowAfricanIntegrations.js *)

Module AfricanIntegrations.
Import Js Run.
Local Open Scope js_scope.

(** The output of a connected node, as far as [init] reads it. *)
Record connected : Type := {
  c_success : value;
  c_tenant_id : option string
}.

Record node_data : Type := {
  smeflowAgent : option connected;
  tenantManager : option connected;
  integrationType : option string;
  country : option string;
  tenantId : option string;
  integrationConfig : option string;
  requestData : option string;
  marketLocalization : option string;
  complianceSettings : option string;
  apiUrl : option string;
  apiKey : option string;
  instance_id : value
}.

Definition localization (currency language timezone phone_format : string)
                        (payment_methods : list string) : value :=
  obj [ Field "currency" (VStr currency);
        Field "language" (VStr language);
        Field "timezone" (VStr timezone);
        Field "phone_format" (VStr phone_format);
        Field "payment_methods" (VArr (List.map VStr payment_methods)) ].

Definition countryDefaults : value :=
  obj [ Field "nigeria"
          (localization "NGN" "en" "Africa/Lagos" "+234"
             ["paystack"; "flutterwave"; "bank_transfer"]);
        Field "kenya"
          (localization "KES" "sw" "Africa/Nairobi" "+254"
             ["mpesa"; "paystack"; "bank_transfer"]);
        Field "south_africa"
          (localization "ZAR" "en" "Africa/Johannesburg" "+27"
             ["paystack"; "ozow"; "bank_transfer"]);
        Field "ghana"
          (localization "GHS" "en" "Africa/Accra" "+233"
             ["paystack"; "flutterwave"; "mtn_mobile_money"]) ].

(** [countryDefaults[country] || countryDefaults.nigeria] *)
Definition defaultLocalization (country : string) : value :=
  or (get countryDefaults country) (get countryDefaults "nigeria").

(** [{ ...defaultLocalization, ...localization }] *)
Definition finalLocalization (country : string) (localization : value) : value :=
  obj [ Spread (defaultLocalization country); Spread localization ].

Definition defaultCompliance : value :=
  obj [ Field "data_residency" (VStr "local");
        Field "audit_logging" (VBool true);
        Field "encryption" (VStr "aes256");
        Field "gdpr_compliant" (VBool true);
        Field "local_regulations" (VBool true) ].

Definition connected_ok (c : option connected) : bool :=
  match c with
  | Some n => truthy (c_success n)
  | None => false
  end.

Definition connected_tenant (c : option connected) : option string :=
  match c with
  | Some n => c_tenant_id n
  | None => None
  end.

(** The tenant id after the connected-node overrides. *)
Definition resolve_tenant (nodeData : node_data) : option string :=
  let t1 := if connected_ok (tenantManager nodeData)
            then connected_tenant (tenantManager nodeData)
            else tenantId nodeData in
  if connected_ok (smeflowAgent nodeData)
  then (if present t1 then t1 else connected_tenant (smeflowAgent nodeData))
  else t1.

Section WithRuntime.
Variable rt : runtime.

(** The call [axios.post(url, integrationRequest, { headers, timeout })]. *)
Definition outbound (nodeData : node_data)
                    (config data_ localization compliance : value) : request :=
  let integrationType := str_or (integrationType nodeData) "mpesa_payment" in
  let country := str_or (country nodeData) "nigeria" in
  let tenantId := resolve_tenant nodeData in
  let apiUrl := str_or (apiUrl nodeData) "http://smeflow:8000" in
  let apiKey := apiKey nodeData in
  let finalLocalization := finalLocalization country localization in
  let finalCompliance := obj [ Spread defaultCompliance; Spread compliance ] in
  let headers :=
    with_authorization apiKey
      (obj [ Field "Content-Type" (VStr "application/json");
             Field "X-Tenant-ID" (of_opt tenantId);
             Field "X-Country" (VStr country);
             Field "X-Integration-Type" (VStr integrationType) ]) in
  let integrationRequest :=
    obj [ Field "integration_type" (VStr integrationType);
          Field "country" (VStr country);
          Field "tenant_id" (of_opt tenantId);
          Field "config"
            (obj [ Spread config;
                   Spread finalLocalization;
                   Field "source" (VStr "flowise");
                   Field "workflow_id" (instance_id nodeData);
                   Field "created_at" (VStr (now_iso rt)) ]);
          Field "request_data" data_;
          Field "compliance_settings" finalCompliance;
          Field "execution_options"
            (obj [ Field "async" (VBool false);
                   Field "timeout" (VNum 120);
                   Field "retry_on_failure" (VBool true);
                   Field "max_retries" (VNum 3) ]) ] in
  {| url := apiUrl ++ "/api/v1/integrations/african-markets/execute";
     body := integrationRequest;
     headers := headers;
     timeout := Some 120000%Z |}.

Definition init (nodeData : node_data) : M value :=
  let integrationType := str_or (integrationType nodeData) "mpesa_payment" in
  let country := str_or (country nodeData) "nigeria" in
  let tenantId := resolve_tenant nodeData in
  let apiUrl := str_or (apiUrl nodeData) "http://smeflow:8000" in
  let apiKey := apiKey nodeData in
  if negb (present tenantId) then
    throw (error "Error" "Tenant ID is required for multi-tenant isolation")
  else if negb (present (integrationConfig nodeData)) then
    throw (error "Error" "Integration Configuration is required")
  else if negb (present (requestData nodeData)) then
    throw (error "Error" "Transaction/Request Data is required")
  else if negb (Uuid.test Uuid.uuidRegex (str_or tenantId EmptyString)) then
    throw (error "Error" "Tenant ID must be a valid UUID format")
  else
    try_catch
      (config <- json_parse rt (str_or (integrationConfig nodeData) "{}") ;;
       data_ <- json_parse rt (str_or (requestData nodeData) "{}") ;;
       localization <- json_parse rt (str_or (marketLocalization nodeData) "{}") ;;
       compliance <- json_parse rt (str_or (complianceSettings nodeData) "{}") ;;
       let finalLocalization := finalLocalization country localization in
       response <- axios_post rt
                     (outbound nodeData config data_ localization compliance) ;;
       let d := data response in
       integration_id <- member_of d "integration_id" ;;
       transaction_id <- member_of d "transaction_id" ;;
       status_ <- member_of d "status" ;;
       result <- member_of d "result" ;;
       provider_response <- member_of d "provider_response" ;;
       fees <- member_of d "fees" ;;
       exchange_rate <- member_of d "exchange_rate" ;;
       local_amount <- member_of d "local_amount" ;;
       confirmation_code <- member_of d "confirmation_code" ;;
       cost_usd <- member_of d "cost_usd" ;;
       execution_time <- member_of d "execution_time" ;;
       compliance_status <- member_of d "compliance_status" ;;
       ret (obj [ Field "success" (VBool true);
                  Field "integration_type" (VStr integrationType);
                  Field "country" (VStr country);
                  Field "integration_id" integration_id;
                  Field "transaction_id" transaction_id;
                  Field "status" status_;
                  Field "result" result;
                  Field "provider_response" provider_response;
                  Field "fees" fees;
                  Field "exchange_rate" exchange_rate;
                  Field "local_amount" local_amount;
                  Field "confirmation_code" confirmation_code;
                  Field "cost_usd" cost_usd;
                  Field "execution_time" execution_time;
                  Field "tenant_id" (of_opt tenantId);
                  Field "market_config" finalLocalization;
                  Field "compliance_status" compliance_status;
                  Field "timestamp" (VStr (now_iso rt)) ]))
      (fun error =>
         ret (obj [ Field "success" (VBool false);
                    Field "integration_type" (VStr integrationType);
                    Field "country" (VStr country);
                    Field "error" (VStr (message error));
                    Field "error_code" (error_code error);
                    Field "provider_error"
                      (match response error with
                       | Some r =>
                           match data r with
                           | VUndefined | VNull => VUndefined
                           | d => get d "provider_error"
                           end
                       | None => VUndefined
                       end);
                    Field "tenant_id" (of_opt tenantId);
                    Field "timestamp" (VStr (now_iso rt)) ])).

End WithRuntime.
End AfricanIntegrations.

(* ================================================================== *)
(** ** utils/validation.js: the validators *)

Module Validation.
Import Js Run.

(** What [validateTenantId] returns: [{ valid, error }] or
    [{ valid, tenantId }]. *)
Record tenant_result : Type := {
  t_valid : bool;
  t_error : option string;
  t_tenantId : option string
}.

Definition validateTenantId (tenantId : value) : tenant_result :=
  if negb (truthy tenantId) then
    {| t_valid := false;
       t_error := Some "Tenant ID is required for multi-tenant isolation";
       t_tenantId := None |}
  else
    match tenantId with
    | VStr s =>
        if negb (Uuid.uuidValidate s) then
          {| t_valid := false;
             t_error := Some "Tenant ID must be a valid UUID format";
             t_tenantId := None |}
        else
          {| t_valid := true;
             t_error := None;
             t_tenantId := Some (Str.toLowerCase s) |}
    | _ =>
        {| t_valid := false;
           t_error := Some "Tenant ID must be a string";
           t_tenantId := None |}
    end.

(** [s.trim() === ''], for the ASCII white space. *)
Definition is_space (c : ascii) : bool :=
  let n := nat_of_ascii c in
  (n =? 32)%nat || ((9 <=? n)%nat && (n <=? 13)%nat).

Definition blank (s : string) : bool := Str.forallb is_space s.

Record json_result : Type := {
  j_valid : bool;
  j_error : option string;
  j_data : option value
}.

(** The accumulator [validationResults]. *)
Record results : Type := {
  valid : bool;
  errors : list string;
  warnings : list string;
  sanitized_tenantId : option string    (* sanitizedInputs.tenantId *)
}.

Definition fail (msgs : list string) (r : results) : results :=
  {| valid := false;
     errors := errors r ++ msgs;
     warnings := warnings r;
     sanitized_tenantId := sanitized_tenantId r |}.

(** [inputs], as far as the validators read it. *)
Record node_inputs : Type := {
  tenantId : value;
  apiUrl : option string;
  apiKey : option string;
  taskConfig : option string;
  inputData : option string;
  question : option string;
  businessContext : option string;
  workflowConfig : value;
  agentCoordination : value;
  integrationConfig : option string
}.

Section WithRuntime.
Variable rt : runtime.

Definition validateJsonConfig (jsonString : option string) (fieldName : string)
                              (required : bool) : json_result :=
  if negb (present jsonString) || blank (str_or jsonString EmptyString) then
    if required then
      {| j_valid := false;
         j_error := Some (fieldName ++ " is required");
         j_data := None |}
    else
      {| j_valid := true; j_error := None; j_data := Some (obj []) |}
  else
    match JSON_parse rt (str_or jsonString EmptyString) with
    | inr parsed =>
        {| j_valid := true; j_error := None; j_data := Some parsed |}
    | inl msg =>
        {| j_valid := false;
           j_error := Some ("Invalid JSON format in " ++ fieldName ++ ": " ++ msg);
           j_data := None |}
    end.

(** [errors] of [validateApiConfig({ apiUrl, apiKey })]; [valid] is
    [errors.length === 0].  The length of the key is counted in bytes, which
    is its length in JavaScript for an ASCII key. *)
Definition validateApiConfig (apiUrl apiKey : option string) : list string :=
  (if negb (present apiUrl) then ["API URL is required"]
   else if URL_valid rt (str_or apiUrl EmptyString) then []
   else ["Invalid API URL format"])
  ++
  (if present apiKey && (String.length (str_or apiKey EmptyString) <? 10)%nat
   then ["API key appears to be too short (minimum 10 characters)"]
   else []).

Definition check_json (jsonString : option string) (fieldName : string)
                      (required : bool) (r : results) : results :=
  let v := validateJsonConfig jsonString fieldName required in
  if negb (j_valid v)
  then fail (match j_error v with Some e => [e] | None => [] end) r
  else r.

Definition validateAutomatorInputs (inputs : node_inputs) (r : results) : results :=
  check_json (inputData inputs) "Input Data" false
    (check_json (taskConfig inputs) "Task Configuration" true r).

Definition validateMentorInputs (inputs : node_inputs) (r : results) : results :=
  let r1 :=
    if negb (present (question inputs)) || blank (str_or (question inputs) EmptyString)
    then fail ["Question or challenge is required for mentor guidance"] r
    else r in
  check_json (businessContext inputs) "Business Context" false r1.

Definition validateSupervisorInputs (inputs : node_inputs) (r : results) : results :=
  if negb (truthy (workflowConfig inputs)) && negb (truthy (agentCoordination inputs))
  then fail ["Either workflow configuration or agent coordination is required"] r
  else r.

Definition validateAfricanIntegrationsInputs (inputs : node_inputs) (r : results)
  : results :=
  check_json (integrationConfig inputs) "Integration Configuration" true r.

Definition validateNodeInputs (inputs : node_inputs) (nodeType : string) : results :=
  let r0 := {| valid := true; errors := []; warnings := [];
               sanitized_tenantId := None |} in
  let tenantValidation := validateTenantId (tenantId inputs) in
  let r1 :=
    if negb (t_valid tenantValidation)
    then fail (match t_error tenantValidation with Some e => [e] | None => [] end) r0
    else {| valid := valid r0; errors := errors r0; warnings := warnings r0;
            sanitized_tenantId := t_tenantId tenantValidation |} in
  let apiErrors := validateApiConfig (apiUrl inputs) (apiKey inputs) in
  let r2 := match apiErrors with [] => r1 | _ => fail apiErrors r1 end in
  if String.eqb nodeType "automator" then validateAutomatorInputs inputs r2
  else if String.eqb nodeType "mentor" then validateMentorInputs inputs r2
  else if String.eqb nodeType "supervisor" then validateSupervisorInputs inputs r2
  else if String.eqb nodeType "african_integrations"
       then validateAfricanIntegrationsInputs inputs r2
  else r2.

End WithRuntime.
End Validation.

(* ================================================================== *)
(** ** agents/SMEFlowSupervisor/SMEFlowSupervisor.js *)

Module Supervisor.
Import Js Run.
Local Open Scope js_scope.

Record node_data : Type := {
  supervisionType : option string;
  tenantId : option string;
  workflowConfig : option string;
  supervisionContext : option string;
  qualityThresholds : option string;
  escalationRules : option string;
  marketConfig : option string;
  apiUrl : option string;
  apiKey : option string;
  instance_id : value
}.

Definition defaultMarketConfig : value :=
  obj [ Field "region" (VStr "africa-west");
        Field "currency" (VStr "NGN");
        Field "timezone" (VStr "Africa/Lagos");
        Field "languages" (VArr [VStr "en"; VStr "ha"; VStr "yo"; VStr "ig"]);
        Field "business_hours"
          (obj [ Field "start" (VStr "08:00");
                 Field "end" (VStr "18:00");
                 Field "timezone" (VStr "Africa/Lagos") ]);
        Field "escalation_preferences"
          (obj [ Field "human_review_hours" (VStr "08:00-17:00");
                 Field "auto_escalate_after_hours" (VBool true);
                 Field "cultural_sensitivity" (VStr "high") ]) ].

Definition defaultThresholds : value :=
  obj [ Field "accuracy" (VNum 0.95);
        Field "response_time" (VNum 30);
        Field "customer_satisfaction" (VNum 0.9);
        Field "cost_efficiency" (VNum 0.8) ].

Definition defaultEscalation : value :=
  obj [ Field "auto_escalate" (VBool true);
        Field "escalation_threshold" (VNum 0.8);
        Field "human_review_required" (VBool false);
        Field "max_auto_retries" (VNum 3) ].

Section WithRuntime.
Variable rt : runtime.

(** The call [axios.post(url, supervisionRequest, { headers, timeout })]. *)
Definition outbound (nodeData : node_data)
                    (config context thresholds escalation africanMarketConfig : value)
  : request :=
  let supervisionType := str_or (supervisionType nodeData) "workflow_orchestration" in
  let apiUrl := str_or (apiUrl nodeData) "http://smeflow:8000" in
  let finalMarketConfig :=
    obj [ Spread defaultMarketConfig; Spread africanMarketConfig ] in
  let finalThresholds := obj [ Spread defaultThresholds; Spread thresholds ] in
  let finalEscalation := obj [ Spread defaultEscalation; Spread escalation ] in
  let headers :=
    with_authorization (apiKey nodeData)
      (obj [ Field "Content-Type" (VStr "application/json");
             Field "X-Tenant-ID" (of_opt (tenantId nodeData)) ]) in
  let supervisionRequest :=
    obj [ Field "supervision_type" (VStr supervisionType);
          Field "tenant_id" (of_opt (tenantId nodeData));
          Field "workflow_config"
            (obj [ Spread config;
                   Spread finalMarketConfig;
                   Field "source" (VStr "flowise");
                   Field "workflow_id" (instance_id nodeData);
                   Field "created_at" (VStr (now_iso rt)) ]);
          Field "supervision_context"
            (obj [ Spread context;
                   Field "source" (VStr "flowise");
                   Field "timestamp" (VStr (now_iso rt)) ]);
          Field "quality_thresholds" finalThresholds;
          Field "escalation_rules" finalEscalation;
          Field "execution_options"
            (obj [ Field "async" (VBool false);
                   Field "timeout" (VNum 300);
                   Field "retry_on_failure" (VBool true);
                   Field "max_retries" (VNum 3) ]) ] in
  {| url := apiUrl ++ "/api/v1/supervisor/execute";
     body := supervisionRequest;
     headers := headers;
     timeout := Some 300000%Z |}.

(** The object the [catch] block returns. *)
Definition failure (nodeData : node_data) (error : js_error) : value :=
  obj [ Field "success" (VBool false);
        Field "supervision_type"
          (VStr (str_or (supervisionType nodeData) "workflow_orchestration"));
        Field "error" (VStr (message error));
        Field "error_code" (error_code error);
        Field "tenant_id" (of_opt (tenantId nodeData));
        Field "escalation_required" (VBool true);
        Field "timestamp" (VStr (now_iso rt)) ].

Definition init (nodeData : node_data) : M value :=
  let supervisionType := str_or (supervisionType nodeData) "workflow_orchestration" in
  let tenantId := tenantId nodeData in
  let workflowConfig := workflowConfig nodeData in
  if negb (present tenantId) then
    throw (error "Error" "Tenant ID is required for multi-tenant isolation")
  else if negb (present workflowConfig) then
    throw (error "Error" "Workflow Configuration is required for supervision")
  else if negb (Uuid.test Uuid.uuidRegex (str_or tenantId EmptyString)) then
    throw (error "Error" "Tenant ID must be a valid UUID format")
  else
    try_catch
      (config <- json_parse rt (str_or workflowConfig "{}") ;;
       context <- json_parse rt (str_or (supervisionContext nodeData) "{}") ;;
       thresholds <- json_parse rt (str_or (qualityThresholds nodeData) "{}") ;;
       escalation <- json_parse rt (str_or (escalationRules nodeData) "{}") ;;
       africanMarketConfig <- json_parse rt (str_or (marketConfig nodeData) "{}") ;;
       let finalMarketConfig :=
         obj [ Spread defaultMarketConfig; Spread africanMarketConfig ] in
       response <- axios_post rt
                     (outbound nodeData config context thresholds escalation
                        africanMarketConfig) ;;
       let d := data response in
       supervisor_id <- member_of d "supervisor_id" ;;
       session_id <- member_of d "session_id" ;;
       result <- member_of d "result" ;;
       quality_score <- member_of d "quality_score" ;;
       escalation_triggered <- member_of d "escalation_triggered" ;;
       recommendations <- member_of d "recommendations" ;;
       next_actions <- member_of d "next_actions" ;;
       performance_metrics <- member_of d "performance_metrics" ;;
       cost_usd <- member_of d "cost_usd" ;;
       execution_time <- member_of d "execution_time" ;;
       ret (obj [ Field "success" (VBool true);
                  Field "supervision_type" (VStr supervisionType);
                  Field "supervisor_id" supervisor_id;
                  Field "session_id" session_id;
                  Field "supervision_result" result;
                  Field "quality_score" quality_score;
                  Field "escalation_triggered" escalation_triggered;
                  Field "recommendations" recommendations;
                  Field "next_actions" next_actions;
                  Field "performance_metrics" performance_metrics;
                  Field "cost_usd" cost_usd;
                  Field "execution_time" execution_time;
                  Field "tenant_id" (of_opt tenantId);
                  Field "market_config" finalMarketConfig;
                  Field "timestamp" (VStr (now_iso rt)) ]))
      (fun error => ret (failure nodeData error)).

End WithRuntime.
End Supervisor.

(* ================================================================== *)
(** ** agents/SMEFlowAgent/SMEFlowAgent.js *)

Module Agent.
Import Js Run.
Local Open Scope js_scope.

Record node_data : Type := {
  agentType : option string;
  tenantId : option string;
  agentConfig : option string;
  inputMessage : option string;
  apiUrl : option string;
  apiKey : option string;
  instance_id : value
}.

Section WithRuntime.
Variable rt : runtime.

(** The call [axios.post(url, agentRequest, { headers, timeout })];
    [region], [currency], [timezone] and [languages] are what [config.region]
    and the like evaluated to. *)
Definition outbound (nodeData : node_data) (config region currency timezone
                     languages : value) : request :=
  let agentType := str_or (agentType nodeData) "automator" in
  let apiUrl := str_or (apiUrl nodeData) "http://smeflow:8000" in
  let headers :=
    with_authorization (apiKey nodeData)
      (obj [ Field "Content-Type" (VStr "application/json");
             Field "X-Tenant-ID" (of_opt (tenantId nodeData)) ]) in
  let agentRequest :=
    obj [ Field "type" (VStr agentType);
          Field "config"
            (obj [ Spread config;
                   Field "tenant_id" (of_opt (tenantId nodeData));
                   Field "region" (or region (VStr "africa-west"));
                   Field "currency" (or currency (VStr "NGN"));
                   Field "timezone" (or timezone (VStr "Africa/Lagos"));
                   Field "languages"
                     (or languages
                        (VArr [VStr "en"; VStr "ha"; VStr "yo"; VStr "ig"])) ]);
          Field "input" (of_opt (inputMessage nodeData));
          Field "context"
            (obj [ Field "source" (VStr "flowise");
                   Field "timestamp" (VStr (now_iso rt));
                   Field "workflow_id" (instance_id nodeData) ]) ] in
  {| url := apiUrl ++ "/api/v1/agents/execute";
     body := agentRequest;
     headers := headers;
     timeout := Some 30000%Z |}.

(** The object the [catch] block returns. *)
Definition failure (nodeData : node_data) (error : js_error) : value :=
  obj [ Field "success" (VBool false);
        Field "error" (VStr (message error));
        Field "tenant_id" (of_opt (tenantId nodeData));
        Field "timestamp" (VStr (now_iso rt)) ].

Definition init (nodeData : node_data) : M value :=
  let tenantId := tenantId nodeData in
  if negb (present tenantId) then
    throw (error "Error" "Tenant ID is required for multi-tenant isolation")
  else
    try_catch
      (config <- json_parse rt (str_or (agentConfig nodeData) "{}") ;;
       region <- member_of config "region" ;;
       currency <- member_of config "currency" ;;
       timezone <- member_of config "timezone" ;;
       languages <- member_of config "languages" ;;
       response <- axios_post rt
                     (outbound nodeData config region currency timezone languages) ;;
       let d := data response in
       agent_id <- member_of d "agent_id" ;;
       execution_id <- member_of d "execution_id" ;;
       result <- member_of d "result" ;;
       cost_usd <- member_of d "cost_usd" ;;
       tokens_used <- member_of d "tokens_used" ;;
       execution_time <- member_of d "execution_time" ;;
       ret (obj [ Field "success" (VBool true);
                  Field "agent_id" agent_id;
                  Field "execution_id" execution_id;
                  Field "result" result;
                  Field "cost_usd" cost_usd;
                  Field "tokens_used" tokens_used;
                  Field "execution_time" execution_time;
                  Field "tenant_id" (of_opt tenantId) ]))
      (fun error => ret (failure nodeData error)).

End WithRuntime.
End Agent.

(* ================================================================== *)
(** ** middleware/tenant-isolation.js: connections and tenant lookups *)

Module TenantConnection.
Import Js Run TenantIsolation.

(** [executeQuery(sql, params)]: the placeholder that reports the query it
    was given. *)
Definition executeQuery (sql : string) (params : value) : value :=
  obj [ Field "success" (VBool true);
        Field "query" (VStr sql);
        Field "params" params ].

(** [createTenantConnection(tenant).query(sql, params)], which is also
    [req.getTenantDb().query(sql, params)]. *)
Definition query (t : tenant) (sql : string) (params : value) : value :=
  let tenantAwareQuery := addTenantFilter sql (id t) in
  executeQuery tenantAwareQuery params.

(** Modelled from the fetch contract (a built-in of the host): [fetch]
    rejects when no response arrives and otherwise resolves with a response
    whose [ok] is true for a 2xx status; [response.json()] yields the parsed
    body or rejects with the message of the parse error. *)
Inductive fetched : Type :=
| Unreachable (reason : string)
| Response (status : Z) (statusText : string) (json : string + value).

Definition ok (status : Z) : bool := (200 <=? status)%Z && (status <? 300)%Z.

Record fetch_request : Type := {
  f_url : string;
  f_method : string;
  f_headers : value;
  f_body : value       (* the object given to JSON.stringify, or undefined *)
}.

Section WithFetch.
Variable fetch : fetch_request -> fetched.

(** [validateTenantAccess(tenantId, resource, action = 'read')] *)
Definition validateTenantAccess (tenantId : string) (resource action : value) : bool :=
  let action := match action with VUndefined => VStr "read" | a => a end in
  match fetch {| f_url := "http://smeflow:8000/api/v1/tenants/" ++ tenantId ++ "/validate";
                 f_method := "POST";
                 f_headers := obj [ Field "Content-Type" (VStr "application/json");
                                    Field "X-Tenant-ID" (VStr tenantId) ];
                 f_body := obj [ Field "resource" resource; Field "action" action ] |}
  with
  | Unreachable _ => false                         (* caught *)
  | Response status _ json =>
      if negb (ok status) then false               (* thrown and caught *)
      else match json with
           | inl _ => false                        (* caught *)
           | inr VUndefined | inr VNull => false   (* TypeError, caught *)
           | inr result =>
               match get result "valid" with
               | VBool true => true                (* result.valid === true *)
               | _ => false
               end
           end
  end.

Definition default_limits : value :=
  obj [ Field "workflows_per_month" (VNum 100);
        Field "agents_per_tenant" (VNum 10);
        Field "api_calls_per_day" (VNum 1000) ].

(** [getTenantConfig(tenantId)]; [VNull] is the [null] of the [catch]
    block. *)
Definition getTenantConfig (tenantId : string) : value :=
  match fetch {| f_url := "http://smeflow:8000/api/v1/tenants/" ++ tenantId;
                 f_method := "GET";
                 f_headers := obj [ Field "X-Tenant-ID" (VStr tenantId) ];
                 f_body := VUndefined |}
  with
  | Unreachable _ => VNull
  | Response status _ json =>
      if negb (ok status) then VNull
      else match json with
           | inl _ => VNull
           | inr VUndefined | inr VNull => VNull
           | inr tenant =>
               obj [ Field "id" (get tenant "id");
                     Field "name" (get tenant "name");
                     Field "region" (or (get tenant "region") (VStr "africa-west"));
                     Field "currency" (or (get tenant "currency") (VStr "NGN"));
                     Field "timezone" (or (get tenant "timezone") (VStr "Africa/Lagos"));
                     Field "languages"
                       (or (get tenant "languages") (VArr [VStr "en"; VStr "ha"]));
                     Field "subscription_tier"
                       (or (get tenant "subscription_tier") (VStr "free"));
                     Field "limits" (or (get tenant "limits") default_limits) ]
           end
  end.

End WithFetch.
End TenantConnection.

(* ================================================================== *)
(** * A concrete host, to run the definitions on *)

Module Sample.
Import Js Run.

Definition uuid : string := "550e8400-e29b-41d4-a716-446655440000".

(** The text [{"business_hours": {"start": "10:00"}}]. *)
Definition hours_text : string :=
  "{" ++ Str.dquote ++ "business_hours" ++ Str.dquote ++ ": {"
  ++ Str.dquote ++ "start" ++ Str.dquote ++ ": "
  ++ Str.dquote ++ "10:00" ++ Str.dquote ++ "}}".

Definition hours_override : value :=
  obj [ Field "business_hours" (obj [ Field "start" (VStr "10:00") ]) ].

(** A parser that knows the two texts the examples use and rejects the
    rest. *)
Definition parse (text : string) : string + value :=
  if String.eqb text "{}" then inr (obj [])
  else if String.eqb text hours_text then inr hours_override
  else inl ("Unexpected token in JSON: " ++ text).

(** A backend that is unreachable on the first call and answers 200 with
    an empty object afterwards. *)
Definition flaky (n : nat) (_ : request) : http_result :=
  match n with
  | O => NoResponse "connect ECONNREFUSED"
  | S _ => Responded {| status := 200; data := obj [] |}
  end.

(** A backend that answers 503 on the first call and 200 afterwards. *)
Definition recovering (n : nat) (_ : request) : http_result :=
  match n with
  | O => Responded {| status := 503; data := obj [] |}
  | S _ => Responded {| status := 200; data := obj [] |}
  end.

Definition host (b : nat -> request -> http_result) : runtime :=
  {| JSON_parse := parse;
     URL_valid := Str.startsWith "http";
     backend := b;
     now_iso := "2025-01-15T08:00:00.000Z";
     now_ms := 1736928000000 |}.

Definition mentor : Mentor.node_data :=
  {| Mentor.guidanceType := None;
     Mentor.industrySector := None;
     Mentor.tenantId := Some uuid;
     Mentor.businessContext := None;
     Mentor.question := Some "How do I price my services?";
     Mentor.marketConfig := None;
     Mentor.apiUrl := None;
     Mentor.apiKey := None;
     Mentor.instance_id := VUndefined |}.

Definition automator : Automator.node_data :=
  {| Automator.tenantManager := VUndefined;
     Automator.taskType := None;
     Automator.tenantId := Some uuid;
     Automator.taskConfig := None;
     Automator.inputData := None;
     Automator.marketConfig := Some hours_text;
     Automator.apiUrl := None;
     Automator.apiKey := None;
     Automator.instance_id := VUndefined |}.

Definition tenant_manager : TenantManager.node_data :=
  {| TenantManager.operation := None;
     TenantManager.tenantId := Some uuid;
     TenantManager.tenantName := None;
     TenantManager.tenantConfig := None;
     TenantManager.marketSettings := None;
     TenantManager.apiUrl := None;
     TenantManager.apiKey := None;
     TenantManager.instance_id := VUndefined |}.

Definition executor : WorkflowExecutor.node_data :=
  {| WorkflowExecutor.tenantManager := VUndefined;
     WorkflowExecutor.workflowType := Some "salon_spa";
     WorkflowExecutor.tenantId := Some uuid;
     WorkflowExecutor.inputData := None;
     WorkflowExecutor.workflowContext := None;
     WorkflowExecutor.marketConfig := None;
     WorkflowExecutor.businessRules := None;
     WorkflowExecutor.apiUrl := None;
     WorkflowExecutor.apiKey := None;
     WorkflowExecutor.useCache := VUndefined;
     WorkflowExecutor.instance_id := VUndefined |}.

Definition supervisor_inputs : Validation.node_inputs :=
  {| Validation.tenantId := VStr uuid;
     Validation.apiUrl := Some "http://smeflow:8000";
     Validation.apiKey := None;
     Validation.taskConfig := None;
     Validation.inputData := None;
     Validation.question := None;
     Validation.businessContext := None;
     Validation.workflowConfig := VUndefined;
     Validation.agentCoordination := VStr EmptyString;
     Validation.integrationConfig := None |}.

End Sample.

(* ================================================================== *)
(** * The vocabulary of the properties *)

Import Js Run Sanitize.

(** ** Outcomes of an invocation *)

(** The reply carries a body whose properties can be read. *)
Definition usable (v : value) : bool :=
  match v with
  | VNull | VUndefined => false
  | _ => true
  end.

Definition is_2xx (r : http_response) : bool :=
  (200 <=? status r)%Z && (status r <? 300)%Z.

(** The outbound call did not go through. *)
Definition dispatch_failed (x : http_result) : bool :=
  match x with
  | NoResponse _ => true
  | Responded r => negb (is_2xx r)
  end.

(** The retry-eligible outcomes of the spec: no response, a status of 500 or
    above, or 429. *)
Definition retry_eligible (x : http_result) : bool :=
  match x with
  | NoResponse _ => true
  | Responded r => (500 <=? status r)%Z || (status r =? 429)%Z
  end.

Section Outcomes.
Variable rt : runtime.

(** The guards in front of the [try] block. *)
Definition mentor_guards (nd : Mentor.node_data) : bool :=
  present (Mentor.tenantId nd) && present (Mentor.question nd)
  && Uuid.test Uuid.uuidRegex (str_or (Mentor.tenantId nd) EmptyString).

Definition mentor_path (nd : Mentor.node_data) (n : nat) : Prop :=
  match JSON_parse rt (str_or (Mentor.businessContext nd) "{}") with
  | inl msg =>
      Mentor.init rt nd n
      = (Return (Mentor.failure rt nd (error "SyntaxError" msg)), n)
  | inr ctx =>
      match JSON_parse rt (str_or (Mentor.marketConfig nd) "{}") with
      | inl msg =>
          Mentor.init rt nd n
          = (Return (Mentor.failure rt nd (error "SyntaxError" msg)), n)
      | inr cfg =>
          match backend rt n (Mentor.outbound rt nd ctx cfg) with
          | NoResponse reason =>
              Mentor.init rt nd n
              = (Return (Mentor.failure rt nd (error "AxiosError" reason)), S n)
          | Responded r =>
              if is_2xx r then
                if usable (data r) then
                  exists env, Mentor.init rt nd n = (Return env, S n)
                              /\ field env "success" = Some (VBool true)
                else
                  exists e, Mentor.init rt nd n
                            = (Return (Mentor.failure rt nd e), S n)
                            /\ response e = None
              else
                exists e, Mentor.init rt nd n
                          = (Return (Mentor.failure rt nd e), S n)
                          /\ response e = Some r
          end
      end
  end.

(** The call went through: both inputs parsed and the backend answered
    2xx with a body. *)
Definition mentor_succeeds (nd : Mentor.node_data) (n : nat) : bool :=
  match JSON_parse rt (str_or (Mentor.businessContext nd) "{}"),
        JSON_parse rt (str_or (Mentor.marketConfig nd) "{}") with
  | inr ctx, inr cfg =>
      match backend rt n (Mentor.outbound rt nd ctx cfg) with
      | Responded r => is_2xx r && usable (data r)
      | NoResponse _ => false
      end
  | _, _ => false
  end.

Definition automator_tenant (nd : Automator.node_data) (input : value) : value :=
  Automator.resolve_tenant (or (Automator.tenantManager nd) input) input
    (of_opt (Automator.tenantId nd)).

Definition automator_parses (nd : Automator.node_data) : bool :=
  match JSON_parse rt (str_or (Automator.taskConfig nd) "{}"),
        JSON_parse rt (str_or (Automator.inputData nd) "{}"),
        JSON_parse rt (str_or (Automator.marketConfig nd) "{}") with
  | inr _, inr _, inr _ => true
  | _, _, _ => false
  end.

End Outcomes.

(** The claim, in the words of the spec: after a retry-eligible outcome of
    the first call the dispatcher calls again. *)
Definition reattempts (rt : runtime) (nd : Mentor.node_data) (n : nat) : Prop :=
  forall ctx cfg,
    JSON_parse rt (str_or (Mentor.businessContext nd) "{}") = inr ctx ->
    JSON_parse rt (str_or (Mentor.marketConfig nd) "{}") = inr cfg ->
    retry_eligible (backend rt n (Mentor.outbound rt nd ctx cfg)) = true ->
    (S n < snd (Mentor.init rt nd n))%nat.

Definition executor_tenant (nd : WorkflowExecutor.node_data) (input : value) : value :=
  Automator.resolve_tenant (or (WorkflowExecutor.tenantManager nd) input) input
    (of_opt (WorkflowExecutor.tenantId nd)).


Definition integrations_guards (nd : AfricanIntegrations.node_data) : bool :=
  present (AfricanIntegrations.resolve_tenant nd)
  && present (AfricanIntegrations.integrationConfig nd)
  && present (AfricanIntegrations.requestData nd)
  && Uuid.test Uuid.uuidRegex (str_or (AfricanIntegrations.resolve_tenant nd) EmptyString).

Definition sample_integration : AfricanIntegrations.node_data :=
  {| AfricanIntegrations.smeflowAgent := None;
     AfricanIntegrations.tenantManager := None;
     AfricanIntegrations.integrationType := None;
     AfricanIntegrations.country := Some "uganda";
     AfricanIntegrations.tenantId := Some Sample.uuid;
     AfricanIntegrations.integrationConfig := Some "{}";
     AfricanIntegrations.requestData := Some "{}";
     AfricanIntegrations.marketLocalization := None;
     AfricanIntegrations.complianceSettings := None;
     AfricanIntegrations.apiUrl := None;
     AfricanIntegrations.apiKey := None;
     AfricanIntegrations.instance_id := VUndefined |}.

Definition not_dollar (c : ascii) : bool := negb (Ascii.eqb c "$").

(** ** Values and their keys *)

Section ValueInduction.
Variable P : value -> Prop.
Hypothesis P_undefined : P VUndefined.
Hypothesis P_null : P VNull.
Hypothesis P_bool : forall b, P (VBool b).
Hypothesis P_num : forall q, P (VNum q).
Hypothesis P_str : forall s, P (VStr s).
Hypothesis P_builtin : forall b, P (VBuiltin b).
Hypothesis P_arr : forall elems, Forall P elems -> P (VArr elems).
Hypothesis P_obj :
  forall proto props, Forall (fun kv => P (snd kv)) props -> P (VObj proto props).

(** Induction over a value, with the hypothesis for every element of an
    array and every property value of an object. *)
Fixpoint value_induction (v : value) : P v :=
  match v with
  | VUndefined => P_undefined
  | VNull => P_null
  | VBool b => P_bool b
  | VNum q => P_num q
  | VStr s => P_str s
  | VBuiltin b => P_builtin b
  | VArr elems =>
      P_arr elems
        ((fix all (l : list value) : Forall P l :=
            match l with
            | [] => Forall_nil P
            | x :: r => Forall_cons x (value_induction x) (all r)
            end) elems)
  | VObj proto props =>
      P_obj proto props
        ((fix all (l : list (string * value)) : Forall (fun kv => P (snd kv)) l :=
            match l with
            | [] => Forall_nil _
            | kv :: r => Forall_cons kv (value_induction (snd kv)) (all r)
            end) props)
  end.
End ValueInduction.

(** The keys of an object no later assignment reorders: every key differs
    from the keys before it and does not list before any of them. *)
Fixpoint settled (ks : list string) : Prop :=
  match ks with
  | [] => True
  | k' :: r =>
      Forall (fun k => k <> k' /\ goes_before k k' = false) r /\ settled r
  end.

(** No key within the value, at any depth, becomes [__proto__] once the
    blacklisted characters are deleted. *)
Fixpoint proto_free (v : value) : bool :=
  match v with
  | VObj _ ps =>
      forallb (fun kv => negb (String.eqb (strip (fst kv)) "__proto__")
                         && proto_free (snd kv)) ps
  | VArr elems => forallb proto_free elems
  | _ => true
  end.

(** What [sanitizeInput] returns for such values: nothing left to delete,
    and objects that are plain and settled. *)
Unset Elimination Schemes.
Inductive clean : value -> Prop :=
| clean_undefined : clean VUndefined
| clean_null : clean VNull
| clean_bool b : clean (VBool b)
| clean_num q : clean (VNum q)
| clean_str s : strip s = s -> clean (VStr s)
| clean_function name : clean (VBuiltin (BuiltinFunction name))
| clean_obj ps :
    settled (List.map fst ps) ->
    Forall (fun kv => strip (fst kv) = fst kv
                      /\ fst kv <> "__proto__"
                      /\ clean (snd kv)) ps ->
    clean (VObj ObjectPrototype ps).
Set Elimination Schemes.

(** The object [{"__proto__": null, "__proto__<": 1}], as JSON.parse builds
    it: two own properties. *)
Definition proto_twice : value :=
  VObj ObjectPrototype [ ("__proto__", VNull); ("__proto__<", VNum 1) ].

Definition nested_sample : value :=
  VArr [ VStr "a<b";
         VObj ObjectPrototype
           [ ("1", VNull); ("b", VNum 1); ("<3", VStr "x;"); ("b;", VBool true) ] ].

(** ** The accumulator of the validators *)

Section Accumulator.
Import Validation.
Variable rt : runtime.

(** The accumulator is coherent: [valid] is true exactly when no error has
    been recorded. *)
Definition coherent (r : results) : Prop := valid r = true <-> errors r = [].

(** The accumulator after the tenant and the API checks. *)
Definition after_common (inputs : node_inputs) : results :=
  let r0 := {| valid := true; errors := []; warnings := [];
               sanitized_tenantId := None |} in
  let tenantValidation := validateTenantId (tenantId inputs) in
  let r1 :=
    if negb (t_valid tenantValidation)
    then fail (match t_error tenantValidation with Some e => [e] | None => [] end) r0
    else {| valid := valid r0; errors := errors r0; warnings := warnings r0;
            sanitized_tenantId := t_tenantId tenantValidation |} in
  match validateApiConfig rt (apiUrl inputs) (apiKey inputs) with
  | [] => r1
  | apiErrors => fail apiErrors r1
  end.

(** The node-specific checks only add to what the common checks found. *)
Definition extends (r r' : results) : Prop :=
  (forall e, In e (errors r) -> In e (errors r'))
  /\ sanitized_tenantId r' = sanitized_tenantId r
  /\ (coherent r -> coherent r').

End Accumulator.

(** ** Tenant ids and namespaces *)

(** The characters of an accepted tenant id: hexadecimal digits and the
    dash. *)
Definition id_char (c : ascii) : bool := Uuid.is_hex c || Ascii.eqb c "-".

(** The layout of a UUID: five groups of 8, 4, 4, 4 and 12 hexadecimal
    digits joined by dashes, whatever the version and variant digits. *)
Definition uuid_layout : Uuid.pattern :=
  [ (Uuid.hex, 8); (Uuid.dash, 1); (Uuid.hex, 4); (Uuid.dash, 1);
    (Uuid.hex, 4); (Uuid.dash, 1); (Uuid.hex, 4); (Uuid.dash, 1);
    (Uuid.hex, 12) ]%nat.

Definition laid_out (s : string) : bool := Uuid.test uuid_layout s.

(** The characters of a plain SQL identifier. *)
Definition identifier_char (c : ascii) : bool :=
  Str.is_digit c || Str.is_lower c || Str.is_upper c || Ascii.eqb c "_".

(** A tenant context the middleware attaches for a request without a tenant
    header, when the header is optional. *)
Definition optional_tenant_config : TenantIsolation.config :=
  {| TenantIsolation.tenantHeader := "X-Tenant-ID";
     TenantIsolation.requireTenantId := false;
     TenantIsolation.defaultSchema := "public" |}.

Definition sample_tenant : TenantIsolation.tenant :=
  {| TenantIsolation.id := Some Sample.uuid;
     TenantIsolation.schema :=
       "tenant_" ++ TenantIsolation.dashes_to_underscores Sample.uuid;
     TenantIsolation.isolated := true |}.

(** ** The tenant service *)

(** The request [validateTenantAccess] sends. *)
Definition access_request (tenantId : string) (resource action : value)
  : TenantConnection.fetch_request :=
  {| TenantConnection.f_url :=
       "http://smeflow:8000/api/v1/tenants/" ++ tenantId ++ "/validate";
     TenantConnection.f_method := "POST";
     TenantConnection.f_headers :=
       obj [ Field "Content-Type" (VStr "application/json");
             Field "X-Tenant-ID" (VStr tenantId) ];
     TenantConnection.f_body :=
       obj [ Field "resource" resource;
             Field "action" (match action with VUndefined => VStr "read" | a => a end) ] |}.

(** The request [getTenantConfig] sends. *)
Definition config_request (tenantId : string) : TenantConnection.fetch_request :=
  {| TenantConnection.f_url := "http://smeflow:8000/api/v1/tenants/" ++ tenantId;
     TenantConnection.f_method := "GET";
     TenantConnection.f_headers := obj [ Field "X-Tenant-ID" (VStr tenantId) ];
     TenantConnection.f_body := VUndefined |}.

(** The settings [getTenantConfig] fills in when the service leaves them
    out. *)
Definition config_defaults : list (string * value) :=
  [ ("region", VStr "africa-west");
    ("currency", VStr "NGN");
    ("timezone", VStr "Africa/Lagos");
    ("languages", VArr [VStr "en"; VStr "ha"]);
    ("subscription_tier", VStr "free");
    ("limits", TenantConnection.default_limits) ].

(** A tenant service that knows one tenant, with a currency and nothing
    else, and grants nothing. *)
Definition kenyan_service (r : TenantConnection.fetch_request)
  : TenantConnection.fetched :=
  TenantConnection.Response 200 "OK"
    (inr (obj [ Field "id" (VStr Sample.uuid);
                Field "currency" (VStr "KES");
                Field "region" (VStr EmptyString);
                Field "valid" (VStr "true") ])).

(** ** What sanitizeInput leaves behind *)

(** No character of the blacklist occurs in the value: not in a string, not
    in a property name, at any depth, and not in an object it inherits
    from. *)
Fixpoint harmless (v : value) : bool :=
  match v with
  | VStr s => Str.forallb (fun c => negb (dangerous c)) s
  | VArr elems => forallb harmless elems
  | VObj p ps =>
      match p with
      | ProtoObject v' => harmless v'
      | _ => true
      end
      && forallb (fun kv => Str.forallb (fun c => negb (dangerous c)) (fst kv)
                            && harmless (snd kv)) ps
  | _ => true
  end.

Definition markup_sample : value :=
  VArr [ VStr "<script>alert('x')</script>";
         VObj ObjectPrototype [ ("on(load)", VStr "a&b"); ("__proto__%", VArr [VStr "50%"]) ] ].

(** ** The supervisor node *)

Section SupervisorOutcomes.
Variable rt : runtime.

(** The guards in front of the [try] block of SMEFlowSupervisor.init. *)
Definition supervisor_guards (nd : Supervisor.node_data) : bool :=
  present (Supervisor.tenantId nd) && present (Supervisor.workflowConfig nd)
  && Uuid.test Uuid.uuidRegex (str_or (Supervisor.tenantId nd) EmptyString).

(** The call went through: the five inputs parsed and the backend answered
    2xx with a body. *)
Definition supervisor_succeeds (nd : Supervisor.node_data) (n : nat) : bool :=
  match JSON_parse rt (str_or (Supervisor.workflowConfig nd) "{}"),
        JSON_parse rt (str_or (Supervisor.supervisionContext nd) "{}"),
        JSON_parse rt (str_or (Supervisor.qualityThresholds nd) "{}"),
        JSON_parse rt (str_or (Supervisor.escalationRules nd) "{}"),
        JSON_parse rt (str_or (Supervisor.marketConfig nd) "{}") with
  | inr config, inr context, inr thresholds, inr escalation, inr cfg =>
      match backend rt n
              (Supervisor.outbound rt nd config context thresholds escalation cfg) with
      | Responded r => is_2xx r && usable (data r)
      | NoResponse _ => false
      end
  | _, _, _, _, _ => false
  end.

End SupervisorOutcomes.

Definition sample_supervisor : Supervisor.node_data :=
  {| Supervisor.supervisionType := None;
     Supervisor.tenantId := Some Sample.uuid;
     Supervisor.workflowConfig := Some "{}";
     Supervisor.supervisionContext := None;
     Supervisor.qualityThresholds := None;
     Supervisor.escalationRules := None;
     Supervisor.marketConfig := None;
     Supervisor.apiUrl := None;
     Supervisor.apiKey := None;
     Supervisor.instance_id := VUndefined |}.

(** Supervisor inputs that name the agents to coordinate and give no
    workflow configuration, as the validator and as the node read them. *)
Definition coordination_inputs (tenantId apiUrl : string) (agentCoordination : value)
  : Validation.node_inputs :=
  {| Validation.tenantId := VStr tenantId;
     Validation.apiUrl := Some apiUrl;
     Validation.apiKey := None;
     Validation.taskConfig := None;
     Validation.inputData := None;
     Validation.question := None;
     Validation.businessContext := None;
     Validation.workflowConfig := VUndefined;
     Validation.agentCoordination := agentCoordination;
     Validation.integrationConfig := None |}.

Definition coordination_node (tenantId apiUrl : string) : Supervisor.node_data :=
  {| Supervisor.supervisionType := Some "agent_coordination";
     Supervisor.tenantId := Some tenantId;
     Supervisor.workflowConfig := None;
     Supervisor.supervisionContext := None;
     Supervisor.qualityThresholds := None;
     Supervisor.escalationRules := None;
     Supervisor.marketConfig := None;
     Supervisor.apiUrl := Some apiUrl;
     Supervisor.apiKey := None;
     Supervisor.instance_id := VUndefined |}.

(** ** The workflow executor *)

(** The workflow types [endpointMap] has a template for, with its path. *)
Definition known_endpoints : list (string * string) :=
  [ ("consulting", "/langgraph/templates/consulting");
    ("salon_spa", "/langgraph/templates/salon-spa");
    ("healthcare", "/langgraph/templates/healthcare");
    ("manufacturing", "/langgraph/templates/manufacturing");
    ("marketing_campaigns", "/langgraph/templates/marketing-campaigns");
    ("product_recommender", "/langgraph/templates/product-recommender");
    ("compliance_workflows", "/langgraph/templates/compliance-workflows");
    ("erp_integration", "/langgraph/templates/erp-integration") ].


Definition with_workflow_type (t : string) : WorkflowExecutor.node_data :=
  {| WorkflowExecutor.tenantManager := VUndefined;
     WorkflowExecutor.workflowType := Some t;
     WorkflowExecutor.tenantId := Some Sample.uuid;
     WorkflowExecutor.inputData := None;
     WorkflowExecutor.workflowContext := None;
     WorkflowExecutor.marketConfig := None;
     WorkflowExecutor.businessRules := None;
     WorkflowExecutor.apiUrl := None;
     WorkflowExecutor.apiKey := None;
     WorkflowExecutor.useCache := VUndefined;
     WorkflowExecutor.instance_id := VUndefined |}.

(** ** Chained nodes *)

(** An automator wired to the output of a tenant manager, with no tenant id
    of its own. *)
Definition chained_automator (managerOutput : value) : Automator.node_data :=
  {| Automator.tenantManager := managerOutput;
     Automator.taskType := None;
     Automator.tenantId := None;
     Automator.taskConfig := None;
     Automator.inputData := None;
     Automator.marketConfig := None;
     Automator.apiUrl := None;
     Automator.apiKey := None;
     Automator.instance_id := VUndefined |}.

(** ** The request of the mentor node *)


(** ** The integrations node *)

(** The request SMEFlowAfricanIntegrations.init sends once its four JSON
    inputs are parsed. *)
Definition integrations_request (rt : runtime) (nd : AfricanIntegrations.node_data)
                                (config data_ localization compliance : value)
  : request :=
  AfricanIntegrations.outbound rt nd config data_ localization compliance.

(** A payment provider that declines: status 402 with its own error. *)
Definition declining (n : nat) (_ : request) : http_result :=
  Responded {| status := 402;
               data := obj [ Field "provider_error" (VStr "insufficient funds") ] |}.

(** An integrations node wired to a tenant manager that reports success
    without a tenant id. *)
Definition wired_without_tenant : AfricanIntegrations.node_data :=
  {| AfricanIntegrations.smeflowAgent := None;
     AfricanIntegrations.tenantManager :=
       Some {| AfricanIntegrations.c_success := VBool true;
               AfricanIntegrations.c_tenant_id := None |};
     AfricanIntegrations.integrationType := None;
     AfricanIntegrations.country := None;
     AfricanIntegrations.tenantId := Some Sample.uuid;
     AfricanIntegrations.integrationConfig := Some "{}";
     AfricanIntegrations.requestData := Some "{}";
     AfricanIntegrations.marketLocalization := None;
     AfricanIntegrations.complianceSettings := None;
     AfricanIntegrations.apiUrl := None;
     AfricanIntegrations.apiKey := None;
     AfricanIntegrations.instance_id := VUndefined |}.

(** ** Inputs of the validators *)

Definition blank_question_inputs : Validation.node_inputs :=
  {| Validation.tenantId := VStr Sample.uuid;
     Validation.apiUrl := Some "http://smeflow:8000";
     Validation.apiKey := None;
     Validation.taskConfig := None;
     Validation.inputData := None;
     Validation.question := Some "   ";
     Validation.businessContext := None;
     Validation.workflowConfig := VUndefined;
     Validation.agentCoordination := VUndefined;
     Validation.integrationConfig := None |}.

Definition automator_inputs (text : string) : Validation.node_inputs :=
  {| Validation.tenantId := VStr Sample.uuid;
     Validation.apiUrl := Some "http://smeflow:8000";
     Validation.apiKey := None;
     Validation.taskConfig := Some text;
     Validation.inputData := None;
     Validation.question := None;
     Validation.businessContext := None;
     Validation.workflowConfig := VUndefined;
     Validation.agentCoordination := VUndefined;
     Validation.integrationConfig := None |}.

(** ** The generic agent node *)

(** The request SMEFlowAgent.init sends for a parsed configuration. *)
Definition agent_request (rt : runtime) (nd : Agent.node_data) (config : value)
  : request :=
  Agent.outbound rt nd config (get config "region") (get config "currency")
    (get config "timezone") (get config "languages").

(** The settings SMEFlowAgent.init fills in when the configuration leaves
    them out. *)
Definition agent_defaults : list (string * value) :=
  [ ("region", VStr "africa-west");
    ("currency", VStr "NGN");
    ("timezone", VStr "Africa/Lagos");
    ("languages", VArr [VStr "en"; VStr "ha"; VStr "yo"; VStr "ig"]) ].

(** A configuration that tries to name another tenant. *)
Definition foreign_config : value :=
  obj [ Field "tenant_id" (VStr "another-tenant"); Field "currency" (VStr "KES") ].

Definition sample_agent : Agent.node_data :=
  {| Agent.agentType := None;
     Agent.tenantId := Some "acme";
     Agent.agentConfig := None;
     Agent.inputMessage := Some "hello";
     Agent.apiUrl := None;
     Agent.apiKey := None;
     Agent.instance_id := VUndefined |}.

(** A parser for which every text is the JSON text [null]. *)
Definition null_host : runtime :=
  {| JSON_parse := fun _ => inr VNull;
     URL_valid := Str.startsWith "http";
     backend := Sample.flaky;
     now_iso := "2025-01-15T08:00:00.000Z";
     now_ms := 1736928000000 |}.

(** A tenant service that grants every request. *)
Definition granting_service (r : TenantConnection.fetch_request)
  : TenantConnection.fetched :=
  TenantConnection.Response 200 "OK" (inr (obj [ Field "valid" (VBool true) ])).

(** ** Texts *)

Definition is_ascii (c : ascii) : bool := (nat_of_ascii c <? 128)%nat.

(** Every character is ASCII, so that the length in bytes is the length
    JavaScript reports. *)
Definition ascii_text (s : string) : bool := Str.forallb is_ascii s.

(** The text holds an ASCII character that is not white space: trimming it,
    under any reading of the other bytes, leaves something. *)
Definition visible (s : string) : bool :=
  negb (Str.forallb (fun c => Validation.is_space c || negb (is_ascii c)) s).

(** ** Retry policies *)

(** The retry policy a request body carries: [retry_on_failure] and
    [max_retries] of its [execution_options], when it has them. *)
Definition retry_policy (requestBody : value) : option (value * value) :=
  match field requestBody "execution_options" with
  | Some options =>
      match field options "retry_on_failure", field options "max_retries" with
      | Some retry, Some max => Some (retry, max)
      | _, _ => None
      end
  | None => None
  end.

(** ** The simulated result of the workflow executor *)





(* ================================================================== *)
(** * Properties *)

(** ** Own-property lists *)

Section Props.
Import Js.

Lemma has_key_in (k : string) (ps : props_t) :
  has_key k ps = true <-> In k (List.map fst ps).
Proof.
  induction ps as [|[k' v'] r IH]; simpl.
  - split; [discriminate | tauto].
  - rewrite orb_true_iff, IH, String.eqb_eq. intuition congruence.
Qed.

Lemma lookup_replace_value (k k' : string) (v : value) (ps : props_t) :
  has_key k' ps = true ->
  lookup k (replace_value k' v ps) = if String.eqb k k' then Some v else lookup k ps.
Proof.
  induction ps as [|[k0 v0] r IH]; simpl; [discriminate|].
  intros H. destruct (String.eqb k' k0) eqn:E0.
  - apply String.eqb_eq in E0; subst k0. simpl.
    destruct (String.eqb k k'); reflexivity.
  - simpl in H. simpl. destruct (String.eqb k k0) eqn:E1.
    + apply String.eqb_eq in E1; subst k0.
      rewrite String.eqb_sym, E0. reflexivity.
    + apply IH, H.
Qed.

Lemma lookup_insert_new (k k' : string) (v : value) (ps : props_t) :
  has_key k' ps = false ->
  lookup k (insert_new k' v ps) = if String.eqb k k' then Some v else lookup k ps.
Proof.
  induction ps as [|[k0 v0] r IH]; simpl; intros H.
  - reflexivity.
  - apply orb_false_iff in H as [H0 H1].
    destruct (goes_before k' k0); simpl.
    + reflexivity.
    + destruct (String.eqb k k0) eqn:E1.
      * apply String.eqb_eq in E1; subst k0.
        rewrite String.eqb_sym, H0. reflexivity.
      * apply IH, H1.
Qed.

Lemma lookup_define_prop (k k' : string) (v : value) (ps : props_t) :
  lookup k (define_prop k' v ps) = if String.eqb k k' then Some v else lookup k ps.
Proof.
  unfold define_prop. destruct (has_key k' ps) eqn:H.
  - apply lookup_replace_value, H.
  - apply lookup_insert_new, H.
Qed.



End Props.

(** ** The nodes *)

Section Nodes.
Import Js Run.
Variable rt : runtime.

(** Every outbound call is counted once, whatever comes back. *)
Lemma axios_post_counts (req : request) (n : nat) :
  snd (axios_post rt req n) = S n.
Proof.
  unfold axios_post. destruct (backend rt n req) as [r|reason]; [|reflexivity].
  destruct ((200 <=? status r)%Z && (status r <? 300)%Z); reflexivity.
Qed.

(** *** What a failure object holds *)

Lemma error_code_truthy (e : js_error) : truthy (error_code e) = true.
Proof.
  unfold error_code, or. destruct (response e) as [r|]; [|reflexivity].
  destruct (truthy (VNum (inject_Z (status r)))) eqn:E; [exact E | reflexivity].
Qed.

Lemma error_code_of_status (e : js_error) (r : http_response) :
  response e = Some r -> status r <> 0%Z ->
  error_code e = VNum (inject_Z (status r)).
Proof.
  unfold error_code, or. intros -> H. simpl.
  destruct (Qeq_bool (inject_Z (status r)) 0) eqn:E; [|reflexivity].
  apply Qeq_bool_eq in E. unfold Qeq in E. simpl in E. lia.
Qed.


Lemma automator_failure_fields (taskType : string) (tenantId : value) (e : js_error) :
  field (Automator.failure rt taskType tenantId e) "success" = Some (VBool false)
  /\ field (Automator.failure rt taskType tenantId e) "error" = Some (VStr (message e))
  /\ field (Automator.failure rt taskType tenantId e) "error_code" = None.
Proof. repeat split. Qed.

Lemma tenant_manager_failure_fields (nd : TenantManager.node_data) (e : js_error) :
  field (TenantManager.failure rt nd e) "success" = Some (VBool false)
  /\ field (TenantManager.failure rt nd e) "error" = Some (VStr (message e))
  /\ field (TenantManager.failure rt nd e) "error_code" = Some (error_code e).
Proof. repeat split. Qed.

(** *** SMEFlowMentor.init, path by path *)

Lemma mentor_init_paths (nd : Mentor.node_data) (n : nat) :
  mentor_guards nd = true -> mentor_path rt nd n.
Proof.
  unfold mentor_guards, mentor_path. intros G.
  apply andb_true_iff in G as [G G3]. apply andb_true_iff in G as [G1 G2].
  unfold Mentor.init. rewrite G1, G2, G3.
  cbv beta iota zeta delta [negb try_catch bind json_parse ret throw axios_post].
  unfold is_2xx.
  destruct (JSON_parse rt (str_or (Mentor.businessContext nd) "{}")) as [msg|ctx];
    [reflexivity|].
  destruct (JSON_parse rt (str_or (Mentor.marketConfig nd) "{}")) as [msg|cfg];
    [reflexivity|].
  destruct (backend rt n (Mentor.outbound rt nd ctx cfg)) as [r|reason];
    [|reflexivity].
  destruct ((200 <=? status r)%Z && (status r <? 300)%Z).
  - destruct (data r) eqn:D; simpl; eexists; split; reflexivity.
  - eexists; split; reflexivity.
Qed.

(** A failed guard is raised, not returned. *)
Lemma mentor_guard_failure_is_thrown (nd : Mentor.node_data) (n : nat) :
  mentor_guards nd = false ->
  exists e, Mentor.init rt nd n = (Throw e, n)
            /\ name e = "Error" /\ response e = None.
Proof.
  unfold mentor_guards, Mentor.init. intros G.
  destruct (present (Mentor.tenantId nd)); [|eexists; repeat split].
  destruct (present (Mentor.question nd)); [|eexists; repeat split].
  simpl in G. rewrite G. eexists; repeat split.
Qed.

Lemma mentor_init_returns (nd : Mentor.node_data) (n : nat) :
  mentor_guards nd = true ->
  exists env n',
    Mentor.init rt nd n = (Return env, n') /\ (n' <= S n)%nat
    /\ field env "success" = Some (VBool (mentor_succeeds rt nd n))
    /\ (mentor_succeeds rt nd n = false ->
        exists e, env = Mentor.failure rt nd e).
Proof.
  intros G. pose proof (mentor_init_paths nd n G) as P.
  unfold mentor_path in P. unfold mentor_succeeds.
  destruct (JSON_parse rt (str_or (Mentor.businessContext nd) "{}")) as [msg|ctx].
  { do 2 eexists. split; [exact P|]. repeat split; eauto. }
  destruct (JSON_parse rt (str_or (Mentor.marketConfig nd) "{}")) as [msg|cfg].
  { do 2 eexists. split; [exact P|]. repeat split; eauto. }
  destruct (backend rt n (Mentor.outbound rt nd ctx cfg)) as [r|reason].
  2:{ do 2 eexists. split; [exact P|]. repeat split; eauto. }
  destruct (is_2xx r); [destruct (usable (data r))|].
  - destruct P as (env & E & F). exists env, (S n).
    repeat split; auto. discriminate.
  - destruct P as (e & E & F). do 2 eexists. split; [exact E|].
    repeat split; eauto.
  - destruct P as (e & E & F). do 2 eexists. split; [exact E|].
    repeat split; eauto.
Qed.

(** *** SMEFlowAutomator.init, path by path *)

Lemma automator_init_returns (nd : Automator.node_data) (input : value) (n : nat) :
  truthy (automator_tenant nd input) = true ->
  exists env,
    Automator.init rt nd input n = (Return env, n)
    /\ field env "success" = Some (VBool (automator_parses rt nd))
    /\ (automator_parses rt nd = false ->
        exists e, env = Automator.failure rt
                          (str_or (Automator.taskType nd) "api_integration")
                          (automator_tenant nd input) e)
    /\ (forall cfg,
          automator_parses rt nd = true ->
          JSON_parse rt (str_or (Automator.marketConfig nd) "{}") = inr cfg ->
          field env "market_config" = Some (Automator.finalMarketConfig cfg)).
Proof.
  unfold automator_tenant, automator_parses. intros G.
  unfold Automator.init. rewrite G.
  cbv beta iota zeta delta [negb try_catch bind json_parse ret throw].
  destruct (JSON_parse rt (str_or (Automator.taskConfig nd) "{}")) as [msg|config].
  { eexists. split; [reflexivity|]. repeat split; eauto; discriminate. }
  destruct (JSON_parse rt (str_or (Automator.inputData nd) "{}")) as [msg|data_].
  { eexists. split; [reflexivity|]. repeat split; eauto; discriminate. }
  destruct (JSON_parse rt (str_or (Automator.marketConfig nd) "{}")) as [msg|cfg].
  { eexists. split; [reflexivity|]. repeat split; eauto; discriminate. }
  eexists. split; [reflexivity|]. repeat split.
  - discriminate.
  - intros cfg' _ E. injection E as <-. reflexivity.
Qed.

(** *** Calls made by the supervisor and the workflow executor *)

Lemma supervisor_calls_once (nd : Supervisor.node_data) (n : nat) :
  (snd (Supervisor.init rt nd n) <= S n)%nat.
Proof.
  unfold Supervisor.init.
  destruct (negb (present (Supervisor.tenantId nd))); [simpl; lia|].
  destruct (negb (present (Supervisor.workflowConfig nd))); [simpl; lia|].
  destruct (negb (Uuid.test Uuid.uuidRegex _)); [simpl; lia|].
  cbv beta iota zeta delta [try_catch bind json_parse ret throw axios_post].
  destruct (JSON_parse rt (str_or (Supervisor.workflowConfig nd) "{}"));
    [simpl; lia|].
  destruct (JSON_parse rt (str_or (Supervisor.supervisionContext nd) "{}"));
    [simpl; lia|].
  destruct (JSON_parse rt (str_or (Supervisor.qualityThresholds nd) "{}"));
    [simpl; lia|].
  destruct (JSON_parse rt (str_or (Supervisor.escalationRules nd) "{}"));
    [simpl; lia|].
  destruct (JSON_parse rt (str_or (Supervisor.marketConfig nd) "{}"));
    [simpl; lia|].
  destruct (backend rt n _) as [r|reason]; [|simpl; lia].
  destruct ((200 <=? status r)%Z && (status r <? 300)%Z); [|simpl; lia].
  destruct (data r); simpl; lia.
Qed.

Lemma executor_calls_once (nd : WorkflowExecutor.node_data) (input : value) (n : nat) :
  (snd (WorkflowExecutor.init rt nd input n) <= S n)%nat.
Proof.
  unfold WorkflowExecutor.init.
  destruct (negb (truthy _)); [simpl; lia|].
  cbv beta iota zeta delta [try_catch bind json_parse ret throw axios_post unbound].
  destruct (JSON_parse rt (str_or (WorkflowExecutor.inputData nd) "{}"));
    [simpl; lia|].
  destruct (JSON_parse rt (str_or (WorkflowExecutor.workflowContext nd) "{}"));
    [simpl; lia|].
  destruct (JSON_parse rt (str_or (WorkflowExecutor.marketConfig nd) "{}"));
    [simpl; lia|].
  destruct (JSON_parse rt (str_or (WorkflowExecutor.businessRules nd) "{}"));
    [simpl; lia|].
  destruct (backend rt n _) as [r|reason]; [|simpl; lia].
  destruct ((200 <=? status r)%Z && (status r <? 300)%Z); [|simpl; lia].
  destruct (data r); simpl; lia.
Qed.

Lemma integrations_calls_once (nd : AfricanIntegrations.node_data) (n : nat) :
  (snd (AfricanIntegrations.init rt nd n) <= S n)%nat.
Proof.
  unfold AfricanIntegrations.init.
  destruct (negb (present (AfricanIntegrations.resolve_tenant nd))); [simpl; lia|].
  destruct (negb (present (AfricanIntegrations.integrationConfig nd))); [simpl; lia|].
  destruct (negb (present (AfricanIntegrations.requestData nd))); [simpl; lia|].
  destruct (negb (Uuid.test Uuid.uuidRegex _)); [simpl; lia|].
  cbv beta iota zeta delta [try_catch bind json_parse ret throw axios_post].
  destruct (JSON_parse rt (str_or (AfricanIntegrations.integrationConfig nd) "{}"));
    [simpl; lia|].
  destruct (JSON_parse rt (str_or (AfricanIntegrations.requestData nd) "{}"));
    [simpl; lia|].
  destruct (JSON_parse rt (str_or (AfricanIntegrations.marketLocalization nd) "{}"));
    [simpl; lia|].
  destruct (JSON_parse rt (str_or (AfricanIntegrations.complianceSettings nd) "{}"));
    [simpl; lia|].
  destruct (backend rt n _) as [r|reason]; [|simpl; lia].
  destruct ((200 <=? status r)%Z && (status r <? 300)%Z); [|simpl; lia].
  destruct (data r); simpl; lia.
Qed.

End Nodes.

(** ** C1: the response envelope *)




(** ** C6: retries *)

(** C6, as stated, fails: against a backend that answers 503 once and 200
    from then on, SMEFlowMentor.init makes one call and returns the failure
    object; the second call, which would succeed, is never made. *)
Lemma C6_no_second_attempt :
  ~ reattempts (Sample.host Sample.recovering) Sample.mentor 0%nat
  /\ exists env,
       Mentor.init (Sample.host Sample.recovering) Sample.mentor 0%nat
       = (Return env, 1%nat)
       /\ field env "success" = Some (VBool false)
       /\ field env "error_code" = Some (VNum 503).
Proof.
  split.
  - intros H. specialize (H (obj []) (obj []) eq_refl eq_refl eq_refl).
    vm_compute in H. lia.
  - eexists. split; [reflexivity|]. split; reflexivity.
Qed.

(** C6, amended: no dispatch is re-attempted.  SMEFlowMentor.init makes at
    most one outbound call: a transport error or a status outside 2xx,
    retry-eligible or not, ends the invocation after that one call with the
    failure object; nothing is re-attempted and no backoff is taken, so the
    node cannot retry indefinitely, and its request carries no retry policy.
    Where a retry policy appears it is data in a request body:
    SMEFlowAutomator.init writes [retry_on_failure: true] and
    [max_retries: 3] into the [execution_options] of the request it builds
    and makes no call at all; the requests of SMEFlowSupervisor,
    SMEFlowAfricanIntegrations and SMEFlowWorkflowExecutor carry
    [retry_on_failure: true] with [max_retries] 3, 3 and 2, and each of the
    three nodes makes at most one call. *)
Theorem C6_single_attempt
    (rt : runtime) (nd : Mentor.node_data) (a : Automator.node_data)
    (input : value) (n : nat) :
  (snd (Mentor.init rt nd n) <= S n)%nat
  /\ (forall ctx cfg,
        mentor_guards nd = true ->
        JSON_parse rt (str_or (Mentor.businessContext nd) "{}") = inr ctx ->
        JSON_parse rt (str_or (Mentor.marketConfig nd) "{}") = inr cfg ->
        dispatch_failed (backend rt n (Mentor.outbound rt nd ctx cfg)) = true ->
        exists env,
          Mentor.init rt nd n = (Return env, S n)
          /\ field env "success" = Some (VBool false))
  /\ snd (Automator.init rt a input n) = n
  /\ (forall ctx cfg, retry_policy (body (Mentor.outbound rt nd ctx cfg)) = None)
  /\ (forall tenantId config data_ finalMarketConfig,
        retry_policy
          (Automator.automationRequest rt a tenantId config data_ finalMarketConfig)
        = Some (VBool true, VNum 3))
  /\ (forall (s : Supervisor.node_data) config context thresholds escalation cfg,
        retry_policy
          (body (Supervisor.outbound rt s config context thresholds escalation cfg))
        = Some (VBool true, VNum 3)
        /\ (snd (Supervisor.init rt s n) <= S n)%nat)
  /\ (forall (x : WorkflowExecutor.node_data) xinput tenantId pin pctx fcfg prules,
        retry_policy
          (body (WorkflowExecutor.outbound rt x tenantId pin pctx fcfg prules))
        = Some (VBool true, VNum 2)
        /\ (snd (WorkflowExecutor.init rt x xinput n) <= S n)%nat)
  /\ (forall (i : AfricanIntegrations.node_data) config data_ localization compliance,
        retry_policy
          (body (AfricanIntegrations.outbound rt i config data_ localization compliance))
        = Some (VBool true, VNum 3)
        /\ (snd (AfricanIntegrations.init rt i n) <= S n)%nat).
Proof.
  split; [|split; [|split; [|split; [|split; [|split; [|split]]]]]].
  4: intros ctx cfg; reflexivity.
  4: intros tenantId config data_ finalMarketConfig; reflexivity.
  4: intros s config context thresholds escalation cfg;
     split; [reflexivity | apply supervisor_calls_once].
  4: intros x xinput tenantId pin pctx fcfg prules;
     split; [reflexivity | apply executor_calls_once].
  4: intros i config data_ localization compliance;
     split; [reflexivity | apply integrations_calls_once].
  - destruct (mentor_guards nd) eqn:G.
    + destruct (mentor_init_returns rt nd n G) as (env & n' & E & L & _).
      rewrite E. exact L.
    + destruct (mentor_guard_failure_is_thrown rt nd n G) as (e & E & _).
      rewrite E. simpl. lia.
  - intros ctx cfg G P1 P2 F.
    pose proof (mentor_init_paths rt nd n G) as P. unfold mentor_path in P.
    rewrite P1, P2 in P.
    destruct (backend rt n (Mentor.outbound rt nd ctx cfg)) as [r|reason].
    + simpl in F. apply negb_true_iff in F. rewrite F in P.
      destruct P as (e & E & _). eexists. split; [exact E | reflexivity].
    + eexists. split; [exact P | reflexivity].
  - unfold Automator.init.
    destruct (negb (truthy _)); [reflexivity|].
    cbv beta iota zeta delta [try_catch bind json_parse ret throw].
    destruct (JSON_parse rt (str_or (Automator.taskConfig a) "{}")); [reflexivity|].
    destruct (JSON_parse rt (str_or (Automator.inputData a) "{}")); [reflexivity|].
    destruct (JSON_parse rt (str_or (Automator.marketConfig a) "{}")); reflexivity.
Qed.

Lemma C6_single_attempt_witness :
  (exists env,
      Mentor.init (Sample.host Sample.flaky) Sample.mentor 0%nat = (Return env, 1%nat)
      /\ field env "success" = Some (VBool false))
  /\ snd (Automator.init (Sample.host Sample.flaky) Sample.automator VUndefined 0%nat)
     = 0%nat
  /\ retry_policy
       (Automator.automationRequest (Sample.host Sample.flaky) Sample.automator
          (VStr Sample.uuid) (obj []) (obj []) (obj []))
     = Some (VBool true, VNum 3).
Proof.
  destruct (C6_single_attempt (Sample.host Sample.flaky) Sample.mentor
              Sample.automator VUndefined 0%nat)
    as (_ & A & B & _ & C & _).
  split; [exact (A (obj []) (obj []) eq_refl eq_refl eq_refl eq_refl)|].
  split; [exact B|]. apply C.
Defined.

(** ** C8: the tenant manager *)

(** C8: whenever the tenant id passes the pattern, SMEFlowTenantManager.init
    returns an object with [success: false]; it never returns a success
    result.  The [try] block either fails to parse [tenantConfig] or reaches
    the unbound identifier [marketConfig]; the [catch] block turns either
    error into the failure object, with [error_code] UNKNOWN. *)
Theorem C8_tenant_manager_never_succeeds
    (rt : runtime) (nd : TenantManager.node_data) (n : nat) :
  present (TenantManager.tenantId nd) = true ->
  Uuid.test Uuid.uuidRegex (str_or (TenantManager.tenantId nd) EmptyString) = true ->
  exists env msg,
    TenantManager.init rt nd n = (Return env, n)
    /\ field env "success" = Some (VBool false)
    /\ field env "error" = Some (VStr msg)
    /\ field env "error_code" = Some (VStr "UNKNOWN")
    /\ (forall cfg,
          JSON_parse rt (str_or (TenantManager.tenantConfig nd) "{}") = inr cfg ->
          msg = "marketConfig is not defined").
Proof.
  intros G1 G2. unfold TenantManager.init. rewrite G1, G2.
  cbv beta iota zeta delta [negb try_catch bind json_parse ret throw unbound].
  destruct (JSON_parse rt (str_or (TenantManager.tenantConfig nd) "{}")) as [m|cfg].
  - exists (TenantManager.failure rt nd (error "SyntaxError" m)), m.
    repeat split. discriminate.
  - eexists _, _. split; [reflexivity|]. repeat split.
Qed.

Lemma C8_tenant_manager_never_succeeds_witness :
  exists env msg,
    TenantManager.init (Sample.host Sample.flaky) Sample.tenant_manager 0%nat
    = (Return env, 0%nat)
    /\ field env "success" = Some (VBool false)
    /\ field env "error" = Some (VStr msg)
    /\ field env "error_code" = Some (VStr "UNKNOWN")
    /\ (forall cfg,
          JSON_parse (Sample.host Sample.flaky)
            (str_or (TenantManager.tenantConfig Sample.tenant_manager) "{}") = inr cfg ->
          msg = "marketConfig is not defined").
Proof.
  exact (C8_tenant_manager_never_succeeds (Sample.host Sample.flaky)
           Sample.tenant_manager 0%nat eq_refl eq_refl).
Defined.

(** ** C9: the workflow executor's fallback *)

(** Why C9 asks for inputs that parse: the outer [catch] block reads
    [apiEndpoint], which is declared inside the [try] block, so a JSON input
    that does not parse ends in a ReferenceError raised to the caller. *)
Lemma executor_parse_failure_is_thrown
    (rt : runtime) (nd : WorkflowExecutor.node_data) (input : value) (n : nat)
    (msg : string) :
  truthy (executor_tenant nd input) = true ->
  JSON_parse rt (str_or (WorkflowExecutor.inputData nd) "{}") = inl msg ->
  WorkflowExecutor.init rt nd input n
  = (Throw (error "ReferenceError" "apiEndpoint is not defined"), n).
Proof.
  unfold executor_tenant. intros G P.
  unfold WorkflowExecutor.init. rewrite G.
  cbv beta iota zeta delta [negb try_catch bind json_parse ret throw unbound].
  rewrite P. reflexivity.
Qed.




(** ** C7: the supervisor rule *)

(** C7: when neither [workflowConfig] nor [agentCoordination] is present,
    validating a supervisor node yields [valid: false] and the errors include
    the message that one of the two is required. *)
Theorem C7_supervisor_needs_config_or_coordination
    (rt : runtime) (inputs : Validation.node_inputs) :
  truthy (Validation.workflowConfig inputs) = false ->
  truthy (Validation.agentCoordination inputs) = false ->
  Validation.valid (Validation.validateNodeInputs rt inputs "supervisor") = false
  /\ In "Either workflow configuration or agent coordination is required"
        (Validation.errors (Validation.validateNodeInputs rt inputs "supervisor")).
Proof.
  intros H1 H2. unfold Validation.validateNodeInputs. simpl String.eqb. cbv iota.
  unfold Validation.validateSupervisorInputs. rewrite H1, H2. simpl.
  split; [reflexivity|]. apply in_or_app. right. left. reflexivity.
Qed.

Lemma C7_supervisor_needs_config_or_coordination_witness :
  Validation.valid
    (Validation.validateNodeInputs (Sample.host Sample.flaky)
       Sample.supervisor_inputs "supervisor") = false
  /\ In "Either workflow configuration or agent coordination is required"
        (Validation.errors
           (Validation.validateNodeInputs (Sample.host Sample.flaky)
              Sample.supervisor_inputs "supervisor")).
Proof.
  exact (C7_supervisor_needs_config_or_coordination (Sample.host Sample.flaky)
           Sample.supervisor_inputs eq_refl eq_refl).
Defined.

(** ** C5: the configuration merge *)



(** ** C4: unsupported countries *)






(** ** Strings: prefixes, positions, replacement text *)

Section Strings.

Lemma append_assoc (s t u : string) : (s ++ t) ++ u = s ++ (t ++ u).
Proof. induction s as [|c r IH]; simpl; [reflexivity | rewrite IH; reflexivity]. Qed.

Lemma take_drop (i : nat) (s : string) : Str.take i s ++ Str.drop i s = s.
Proof.
  revert s. induction i as [|i IH]; intros [|c r]; simpl; try reflexivity.
  rewrite IH. reflexivity.
Qed.

Lemma drop_drop (i j : nat) (s : string) :
  Str.drop j (Str.drop i s) = Str.drop (i + j) s.
Proof.
  revert s. induction i as [|i IH]; intros s; simpl.
  - reflexivity.
  - destruct s as [|c r]; [destruct j; reflexivity | apply IH].
Qed.

Lemma map_take (f : ascii -> ascii) (i : nat) (s : string) :
  Str.map f (Str.take i s) = Str.take i (Str.map f s).
Proof.
  revert s. induction i as [|i IH]; intros [|c r]; simpl; try reflexivity.
  rewrite IH. reflexivity.
Qed.

Lemma map_drop (f : ascii -> ascii) (i : nat) (s : string) :
  Str.map f (Str.drop i s) = Str.drop i (Str.map f s).
Proof.
  revert s. induction i as [|i IH]; intros [|c r]; simpl; try reflexivity.
  apply IH.
Qed.

Lemma startsWith_take (p s : string) :
  Str.startsWith p s = true -> Str.take (String.length p) s = p.
Proof.
  revert s. induction p as [|a p IH]; intros s H; simpl.
  - reflexivity.
  - destruct s as [|b r]; simpl in H; [discriminate|].
    apply andb_true_iff in H as [E H]. apply Ascii.eqb_eq in E. subst b.
    rewrite (IH r H). reflexivity.
Qed.

Lemma indexOf_startsWith (p s : string) (i : nat) :
  Str.indexOf p s = Some i -> Str.startsWith p (Str.drop i s) = true.
Proof.
  revert i. induction s as [|c r IH]; intros i; simpl.
  - destruct (Str.startsWith p EmptyString) eqn:E; [|discriminate].
    intros [= <-]. exact E.
  - destruct (Str.startsWith p (String c r)) eqn:E.
    + intros [= <-]. exact E.
    + destruct (Str.indexOf p r) as [j|]; simpl; [|discriminate].
      intros [= <-]. simpl. apply IH. reflexivity.
Qed.

Lemma forallb_app (f : ascii -> bool) (s t : string) :
  Str.forallb f (s ++ t) = Str.forallb f s && Str.forallb f t.
Proof.
  induction s as [|c r IH]; simpl; [reflexivity|].
  rewrite IH, andb_assoc. reflexivity.
Qed.

(** A replacement text without a dollar sign is inserted as it is. *)
Lemma substitution_plain (matched before after repl : string) :
  Str.forallb not_dollar repl = true ->
  TenantIsolation.substitution matched before after repl = repl.
Proof.
  induction repl as [|c r IH]; simpl; intros H; [reflexivity|].
  apply andb_true_iff in H as [Hc Hr]. unfold not_dollar in Hc.
  apply negb_true_iff in Hc. rewrite Hc, (IH Hr). reflexivity.
Qed.

Lemma includes_indexOf (p s : string) :
  Str.includes p s = true <-> exists i, Str.indexOf p s = Some i.
Proof.
  unfold Str.includes. destruct (Str.indexOf p s) as [i|].
  - split; eauto.
  - split; [discriminate | intros [i H]; discriminate].
Qed.

End Strings.

(** ** C3: the query rewriter *)

(** C3, as stated, fails: a query with a FROM clause and no WHERE clause
    that is not a SELECT is returned unchanged; no WHERE clause is appended. *)
Lemma C3_from_without_select_unchanged :
  Str.includes "where" (Str.toLowerCase "DELETE FROM orders") = false
  /\ Str.includes "from" (Str.toLowerCase "DELETE FROM orders") = true
  /\ TenantIsolation.addTenantFilter "DELETE FROM orders" (Some Sample.uuid)
     = "DELETE FROM orders".
Proof. repeat split. Qed.

(** C3, amended: without a tenant id the query comes back unchanged.  With a
    tenant id that holds no dollar sign (every id that passed the UUID check):
    if the query contains [where] in any letter case, its first occurrence is
    replaced by [WHERE tenant_id = '<id>' AND], the text before and after it
    kept as it is; if it contains no [where] but contains both [select] and
    [from], the clause [ WHERE tenant_id = '<id>'] is appended at the end of
    the query; any other query comes back unchanged. *)
Theorem C3_tenant_filter_placement (sql tid : string) :
  tid <> EmptyString ->
  Str.forallb not_dollar tid = true ->
  TenantIsolation.addTenantFilter sql None = sql
  /\ TenantIsolation.addTenantFilter sql (Some EmptyString) = sql
  /\ (Str.includes "where" (Str.toLowerCase sql) = true ->
      exists i,
        Str.indexOf "where" (Str.toLowerCase sql) = Some i
        /\ sql = Str.take i sql ++ Str.take 5 (Str.drop i sql) ++ Str.drop (i + 5) sql
        /\ Str.toLowerCase (Str.take 5 (Str.drop i sql)) = "where"
        /\ TenantIsolation.addTenantFilter sql (Some tid)
           = Str.take i sql ++ "WHERE tenant_id = '" ++ tid ++ "' AND"
             ++ Str.drop (i + 5) sql)
  /\ (Str.includes "where" (Str.toLowerCase sql) = false ->
      Str.includes "select" (Str.toLowerCase sql) = true ->
      Str.includes "from" (Str.toLowerCase sql) = true ->
      TenantIsolation.addTenantFilter sql (Some tid)
      = sql ++ " WHERE tenant_id = '" ++ tid ++ "'")
  /\ (Str.includes "where" (Str.toLowerCase sql) = false ->
      Str.includes "select" (Str.toLowerCase sql)
      && Str.includes "from" (Str.toLowerCase sql) = false ->
      TenantIsolation.addTenantFilter sql (Some tid) = sql).
Proof.
  intros Hne Hd.
  assert (P : present (Some tid) = true).
  { simpl. destruct (String.eqb tid EmptyString) eqn:E; [|reflexivity].
    apply String.eqb_eq in E. contradiction. }
  assert (T : str_or (Some tid) EmptyString = tid).
  { simpl. destruct (String.eqb tid EmptyString) eqn:E; [|reflexivity].
    apply String.eqb_eq in E. contradiction. }
  split; [reflexivity|]. split; [reflexivity|].
  unfold TenantIsolation.addTenantFilter. rewrite P, T. simpl negb. cbv iota.
  split; [|split].
  - intros W. rewrite W.
    destruct (proj1 (includes_indexOf _ _) W) as [i I].
    exists i. split; [exact I|].
    pose proof (indexOf_startsWith _ _ _ I) as SW.
    split; [|split].
    + rewrite <- (drop_drop i 5 sql), take_drop, take_drop. reflexivity.
    + unfold Str.toLowerCase in *. rewrite map_take, map_drop.
      exact (startsWith_take "where" _ SW).
    + unfold TenantIsolation.replace_where. rewrite I.
      rewrite substitution_plain.
      * rewrite !append_assoc. reflexivity.
      * rewrite !forallb_app, Hd. reflexivity.
  - intros W S F. rewrite W, S.
    destruct (proj1 (includes_indexOf _ _) F) as [i I]. rewrite I.
    rewrite <- append_assoc, take_drop. reflexivity.
  - intros W SF. rewrite W.
    destruct (Str.includes "select" (Str.toLowerCase sql)); [|reflexivity].
    simpl in SF. unfold Str.includes in SF.
    destruct (Str.indexOf "from" (Str.toLowerCase sql)); [discriminate|reflexivity].
Qed.

Lemma C3_tenant_filter_placement_witness :
  TenantIsolation.addTenantFilter "SELECT * FROM orders WHERE status = 'open'"
    (Some Sample.uuid)
  = "SELECT * FROM orders WHERE tenant_id = '550e8400-e29b-41d4-a716-446655440000' AND status = 'open'"
  /\ TenantIsolation.addTenantFilter "SELECT * FROM orders" (Some Sample.uuid)
     = "SELECT * FROM orders WHERE tenant_id = '550e8400-e29b-41d4-a716-446655440000'".
Proof.
  destruct (C3_tenant_filter_placement "SELECT * FROM orders WHERE status = 'open'"
              Sample.uuid ltac:(discriminate) eq_refl) as (_ & _ & W & _).
  destruct (C3_tenant_filter_placement "SELECT * FROM orders"
              Sample.uuid ltac:(discriminate) eq_refl) as (_ & _ & _ & A & _).
  split.
  - destruct (W eq_refl) as (i & I & _ & _ & R). rewrite R.
    injection I as <-. reflexivity.
  - exact (A eq_refl eq_refl eq_refl).
Defined.

(** ** The tenant-id pattern and the grammar of the spec *)

Section UuidGrammar.
Import Uuid.

Ltac by_cases_on_char c :=
  destruct c as [[] [] [] [] [] [] [] []]; vm_compute; try reflexivity;
  try discriminate; try tauto.

Lemma hex_class (c : ascii) : atom_matches hex c = is_hex c.
Proof. by_cases_on_char c. Qed.

Lemma dash_class (c : ascii) : atom_matches dash c = Ascii.eqb c "-".
Proof. by_cases_on_char c. Qed.

Lemma version_class (c : ascii) :
  atom_matches (Class [("1", "5")]%char) c
  = Str.includes (String c EmptyString) "12345".
Proof. by_cases_on_char c. Qed.

Lemma variant_class (c : ascii) :
  atom_matches (Class [("8", "8"); ("9", "9"); ("a", "a"); ("b", "b")]%char) c
  = Str.includes (String c EmptyString) "89abAB".
Proof. by_cases_on_char c. Qed.

Lemma version_is_hex (c : ascii) :
  Str.includes (String c EmptyString) "12345" = true -> is_hex c = true.
Proof. by_cases_on_char c. Qed.

Lemma variant_is_hex (c : ascii) :
  Str.includes (String c EmptyString) "89abAB" = true -> is_hex c = true.
Proof. by_cases_on_char c. Qed.

(** A repetition consumes exactly a group of matching characters. *)
Lemma match_rep_spec (a : atom) (n : nat) (s r : string) :
  match_rep a n s = Some r
  <-> exists g, s = g ++ r /\ String.length g = n
                /\ Str.forallb (atom_matches a) g = true.
Proof.
  revert s. induction n as [|n IH]; intros s; simpl.
  - split.
    + intros [= ->]. exists EmptyString. repeat split.
    + intros (g & -> & L & _). destruct g; [reflexivity | discriminate].
  - destruct s as [|c s'].
    + split; [discriminate|].
      intros (g & E & L & _). destruct g; discriminate.
    + destruct (atom_matches a c) eqn:M.
      * rewrite IH. split.
        -- intros (g & -> & L & F). exists (String c g). simpl.
           rewrite M, F, L. repeat split.
        -- intros (g & E & L & F). destruct g as [|c' g']; [discriminate|].
           simpl in E, L, F. injection E as <- ->. injection L as L.
           apply andb_true_iff in F as [_ F]. exists g'. repeat split; assumption.
      * split; [discriminate|].
        intros (g & E & L & F). destruct g as [|c' g']; [discriminate|].
        simpl in E, F. injection E as <- _. rewrite M in F. discriminate.
Qed.

Lemma match_rep_app (a : atom) (g r : string) :
  Str.forallb (atom_matches a) g = true ->
  match_rep a (String.length g) (g ++ r) = Some r.
Proof.
  intros F. apply match_rep_spec. exists g. repeat split. exact F.
Qed.

Lemma forallb_hex (g : string) :
  Str.forallb (atom_matches hex) g = Str.forallb is_hex g.
Proof.
  induction g as [|c r IH]; cbn [Str.forallb]; [reflexivity|].
  rewrite hex_class, IH. reflexivity.
Qed.

Lemma hex_group_matches (n : nat) (g : string) :
  hex_group n g <-> String.length g = n /\ Str.forallb (atom_matches hex) g = true.
Proof. unfold hex_group. rewrite forallb_hex. tauto. Qed.

Lemma one_char (a : atom) (g : string) :
  String.length g = 1%nat -> Str.forallb (atom_matches a) g = true ->
  exists c, g = String c EmptyString /\ atom_matches a c = true.
Proof.
  destruct g as [|c [|? ?]]; try discriminate. simpl. intros _ H.
  apply andb_true_iff in H as [H _]. eauto.
Qed.

Lemma one_dash (g : string) :
  String.length g = 1%nat -> Str.forallb (atom_matches dash) g = true -> g = "-".
Proof.
  intros L F. destruct (one_char _ _ L F) as (c & -> & M).
  rewrite dash_class in M. apply Ascii.eqb_eq in M. subst c. reflexivity.
Qed.

Lemma match_rep_group (a : atom) (n : nat) (g r : string) :
  String.length g = n -> Str.forallb (atom_matches a) g = true ->
  match_rep a n (g ++ r) = Some r.
Proof. intros <-. apply match_rep_app. Qed.

Lemma match_one (a : atom) (c : ascii) (r : string) :
  atom_matches a c = true -> match_rep a 1 (String c r) = Some r.
Proof. intros H. cbn [match_rep]. rewrite H. reflexivity. Qed.

Lemma append_nil_r (s : string) : s ++ EmptyString = s.
Proof. induction s as [|c r IH]; simpl; [reflexivity | rewrite IH; reflexivity]. Qed.

(** The pattern the sources write accepts exactly the grammar the spec
    describes. *)
Lemma uuidRegex_canonical (s : string) :
  test uuidRegex s = true <-> canonical_uuid s.
Proof.
  unfold test, uuidRegex, canonical_uuid, first_in. cbn [match_seq]. split.
  - intros H.
    repeat match type of H with
           | context [match match_rep ?a ?n ?x with _ => _ end] =>
               let E := fresh "E" in
               destruct (match_rep a n x) eqn:E; [|discriminate]
           end.
    match type of H with
    | (match ?x with _ => _ end) = true => destruct x; [|discriminate]
    end.
    repeat match goal with
           | E : match_rep _ _ _ = Some _ |- _ =>
               apply match_rep_spec in E; destruct E as (? & ? & ? & ?)
           end.
    subst.
    repeat match goal with
           | L : String.length ?g = 1%nat,
             F : Str.forallb (atom_matches dash) ?g = true |- _ =>
               pose proof (one_dash g L F); subst g; clear L F
           end.
    repeat match goal with
           | L : String.length ?g = 1%nat,
             F : Str.forallb (atom_matches _) ?g = true |- _ =>
               let c := fresh "c" in let M := fresh "M" in
               destruct (one_char _ g L F) as (c & -> & M); clear L F
           end.
    rewrite version_class in *. rewrite variant_class in *.
    match goal with
    | |- context [?g1 ++ "-" ++ ?g2 ++ "-" ++ String ?v EmptyString ++ ?g3
                  ++ "-" ++ String ?w EmptyString ++ ?g4 ++ "-" ++ ?g5 ++ EmptyString] =>
        exists g1, g2, (String v g3), (String w g4), g5
    end.
    rewrite append_nil_r.
    repeat match goal with
           | |- _ /\ _ => split
           end;
      try reflexivity;
      try (apply hex_group_matches; split; assumption);
      try (eexists _, _; split; [reflexivity | assumption]).
    + split; [simpl; congruence|]. simpl.
      match goal with
      | V : Str.includes _ "12345" = true |- _ => rewrite (version_is_hex _ V)
      end.
      rewrite <- forallb_hex. assumption.
    + split; [simpl; congruence|]. simpl.
      match goal with
      | W : Str.includes _ "89abAB" = true |- _ => rewrite (variant_is_hex _ W)
      end.
      rewrite <- forallb_hex. assumption.
  - intros (g1 & g2 & g3 & g4 & g5 & -> & H1 & H2 & H3 & H4 & H5 & V & W).
    destruct V as (v & g3' & -> & V). destruct W as (w & g4' & -> & W).
    apply hex_group_matches in H1 as [L1 F1]. apply hex_group_matches in H2 as [L2 F2].
    apply hex_group_matches in H3 as [L3 F3]. apply hex_group_matches in H4 as [L4 F4].
    apply hex_group_matches in H5 as [L5 F5].
    simpl in L3, L4. injection L3 as L3. injection L4 as L4.
    cbn [Str.forallb] in F3, F4.
    apply andb_true_iff in F3 as [_ F3]. apply andb_true_iff in F4 as [_ F4].
    assert (D : atom_matches dash "-" = true) by reflexivity.
    rewrite <- version_class in V. rewrite <- variant_class in W.
    cbn [append].
    rewrite (match_rep_group hex 8 g1 _ L1 F1), (match_one _ _ _ D).
    rewrite (match_rep_group hex 4 g2 _ L2 F2), (match_one _ _ _ D).
    rewrite (match_one _ _ _ V).
    rewrite (match_rep_group hex 3 g3' _ L3 F3), (match_one _ _ _ D).
    rewrite (match_one _ _ _ W).
    rewrite (match_rep_group hex 3 g4' _ L4 F4), (match_one _ _ _ D).
    rewrite <- (append_nil_r g5) at 1.
    rewrite (match_rep_group hex 12 g5 _ L5 F5). reflexivity.
Qed.

End UuidGrammar.

(** ** C2: tenant resolution *)

(** C2, as stated, fails: for a tenant id written with upper-case hexadecimal
    digits the middleware accepts the id and derives the namespace from it as
    it is, without lowering the case. *)
Lemma C2_namespace_keeps_case :
  Uuid.canonical_uuid "550E8400-E29B-41D4-A716-446655440000"
  /\ exists t,
       TenantIsolation.middleware TenantIsolation.default_config
         (Some "550E8400-E29B-41D4-A716-446655440000") = TenantIsolation.Next t
       /\ TenantIsolation.schema t = "tenant_550E8400_E29B_41D4_A716_446655440000"
       /\ TenantIsolation.schema t
          <> "tenant_" ++ TenantIsolation.dashes_to_underscores
                            (Str.toLowerCase "550E8400-E29B-41D4-A716-446655440000").
Proof.
  split; [apply uuidRegex_canonical; reflexivity|].
  eexists. split; [reflexivity|]. split; [reflexivity|]. vm_compute. discriminate.
Qed.

(** C2, amended: with a required tenant, resolution of a string succeeds if
    and only if the string matches the canonical UUID grammar, and on
    success the namespace is [tenant_] followed by the string as given, each
    [-] replaced by [_]; it is the lower-case form exactly when the given
    string is already lower case, as for
    [550e8400-e29b-41d4-a716-446655440000].  The lower-case id is what
    [validateTenantId] returns, which accepts the same strings. *)
Theorem C2_tenant_resolution (cfg : TenantIsolation.config) (s : string) :
  TenantIsolation.requireTenantId cfg = true ->
  ((exists t, TenantIsolation.middleware cfg (Some s) = TenantIsolation.Next t)
   <-> Uuid.canonical_uuid s)
  /\ (forall t,
        TenantIsolation.middleware cfg (Some s) = TenantIsolation.Next t ->
        TenantIsolation.id t = Some s
        /\ TenantIsolation.isolated t = true
        /\ TenantIsolation.schema t
           = "tenant_" ++ TenantIsolation.dashes_to_underscores s
        /\ (Str.toLowerCase s = s ->
            TenantIsolation.schema t
            = "tenant_" ++ TenantIsolation.dashes_to_underscores (Str.toLowerCase s)))
  /\ (Validation.t_valid (Validation.validateTenantId (VStr s)) = true
      <-> Uuid.canonical_uuid s)
  /\ (Uuid.canonical_uuid s ->
      Validation.t_tenantId (Validation.validateTenantId (VStr s))
      = Some (Str.toLowerCase s))
  /\ TenantIsolation.middleware cfg (Some "550e8400-e29b-41d4-a716-446655440000")
     = TenantIsolation.Next
         {| TenantIsolation.id := Some "550e8400-e29b-41d4-a716-446655440000";
            TenantIsolation.schema := "tenant_550e8400_e29b_41d4_a716_446655440000";
            TenantIsolation.isolated := true |}
  /\ (exists e m, TenantIsolation.middleware cfg None = TenantIsolation.Json 400 e m).
Proof.
  intros R.
  assert (N : Uuid.test Uuid.uuidRegex EmptyString = false) by reflexivity.
  assert (M : TenantIsolation.middleware cfg (Some s)
              = if Uuid.test Uuid.uuidRegex s
                then TenantIsolation.Next
                       {| TenantIsolation.id := Some s;
                          TenantIsolation.schema :=
                            "tenant_" ++ TenantIsolation.dashes_to_underscores s;
                          TenantIsolation.isolated := true |}
                else if String.eqb s EmptyString
                     then TenantIsolation.Json 400 "Tenant ID required"
                            ("Header " ++ TenantIsolation.tenantHeader cfg
                             ++ " is required for multi-tenant access")
                     else TenantIsolation.Json 400 "Invalid tenant ID format"
                            "Tenant ID must be a valid UUID").
  { unfold TenantIsolation.middleware, Uuid.uuidValidate. rewrite R. simpl.
    destruct (String.eqb s EmptyString) eqn:E.
    - apply String.eqb_eq in E. subst s. rewrite N. reflexivity.
    - simpl. destruct (Uuid.test Uuid.uuidRegex s); reflexivity. }
  assert (V : Validation.validateTenantId (VStr s)
              = if Uuid.test Uuid.uuidRegex s
                then {| Validation.t_valid := true;
                        Validation.t_error := None;
                        Validation.t_tenantId := Some (Str.toLowerCase s) |}
                else {| Validation.t_valid := false;
                        Validation.t_error :=
                          Some (if String.eqb s EmptyString
                                then "Tenant ID is required for multi-tenant isolation"
                                else "Tenant ID must be a valid UUID format");
                        Validation.t_tenantId := None |}).
  { unfold Validation.validateTenantId, Uuid.uuidValidate. simpl.
    destruct (String.eqb s EmptyString) eqn:E.
    - apply String.eqb_eq in E. subst s. rewrite N. reflexivity.
    - simpl. destruct (Uuid.test Uuid.uuidRegex s); reflexivity. }
  split; [|split; [|split; [|split; [|split]]]].
  - rewrite M, <- uuidRegex_canonical.
    destruct (Uuid.test Uuid.uuidRegex s); split; intros H; eauto; try discriminate.
    destruct H as [t H]. destruct (String.eqb s EmptyString); discriminate.
  - intros t H. rewrite M in H.
    destruct (Uuid.test Uuid.uuidRegex s).
    + injection H as <-. simpl. repeat split. intros L. rewrite L. reflexivity.
    + destruct (String.eqb s EmptyString); discriminate.
  - rewrite V, <- uuidRegex_canonical.
    destruct (Uuid.test Uuid.uuidRegex s); simpl; tauto.
  - intros C. apply uuidRegex_canonical in C. rewrite V, C. reflexivity.
  - unfold TenantIsolation.middleware. rewrite R. reflexivity.
  - unfold TenantIsolation.middleware. rewrite R. simpl. eauto.
Qed.

Lemma C2_tenant_resolution_witness :
  TenantIsolation.requireTenantId TenantIsolation.default_config = true
  /\ ((exists t,
         TenantIsolation.middleware TenantIsolation.default_config (Some Sample.uuid)
         = TenantIsolation.Next t)
      <-> Uuid.canonical_uuid Sample.uuid).
Proof.
  split; [reflexivity|].
  exact (proj1 (C2_tenant_resolution TenantIsolation.default_config Sample.uuid eq_refl)).
Defined.

(** ** sanitizeInput *)

Section KeyOrder.

Lemma goes_before_trans (a b c : string) :
  goes_before a b = true -> goes_before b c = true -> goes_before a c = true.
Proof.
  unfold goes_before.
  destruct (array_index a) as [n|]; [|discriminate].
  destruct (array_index b) as [m|]; [|discriminate].
  destruct (array_index c) as [p|]; [|reflexivity].
  rewrite !N.ltb_lt. apply N.lt_trans.
Qed.

Lemma goes_before_asym (a b : string) :
  goes_before a b = true -> goes_before b a = false.
Proof.
  unfold goes_before.
  destruct (array_index a) as [n|]; [|discriminate].
  destruct (array_index b) as [m|]; [|reflexivity].
  rewrite N.ltb_lt, N.ltb_ge. apply N.lt_le_incl.
Qed.

Lemma keys_replace_value (k : string) (v : value) (ps : props_t) :
  List.map fst (replace_value k v ps) = List.map fst ps.
Proof.
  induction ps as [|[k' v'] r IH]; simpl; [reflexivity|].
  destruct (String.eqb k k'); simpl; [reflexivity | rewrite IH; reflexivity].
Qed.

Lemma in_replace_value (k : string) (v : value) (ps : props_t) (kv : string * value) :
  In kv (replace_value k v ps) -> kv = (k, v) \/ In kv ps.
Proof.
  induction ps as [|[k' v'] r IH]; simpl; [tauto|].
  destruct (String.eqb k k') eqn:E; simpl.
  - apply String.eqb_eq in E. subst k'. intuition.
  - intuition.
Qed.

Lemma in_insert_new (k : string) (v : value) (ps : props_t) (kv : string * value) :
  In kv (insert_new k v ps) <-> kv = (k, v) \/ In kv ps.
Proof.
  induction ps as [|[k' v'] r IH]; simpl.
  - intuition.
  - destruct (goes_before k k'); simpl; [intuition|]. rewrite IH. intuition.
Qed.

Lemma keys_insert_new (k : string) (v : value) (ps : props_t) (x : string) :
  In x (List.map fst (insert_new k v ps)) <-> x = k \/ In x (List.map fst ps).
Proof.
  induction ps as [|[k' v'] r IH]; simpl.
  - intuition.
  - destruct (goes_before k k'); simpl; [intuition|]. rewrite IH. intuition.
Qed.

Lemma settled_insert_new (k : string) (v : value) (ps : props_t) :
  ~ In k (List.map fst ps) ->
  settled (List.map fst ps) ->
  settled (List.map fst (insert_new k v ps)).
Proof.
  induction ps as [|[k' v'] r IH]; simpl; intros Hk Hs.
  - split; [constructor | exact I].
  - destruct Hs as [Hr Hs]. destruct (goes_before k k') eqn:G; simpl.
    + split; [|split; assumption].
      constructor.
      * split; [intuition congruence | apply goes_before_asym, G].
      * rewrite Forall_forall in *. intros x Hx.
        destruct (Hr x Hx) as [Hne Hg]. split.
        -- intros ->. apply Hk. right. exact Hx.
        -- destruct (goes_before x k) eqn:Gx; [|reflexivity].
           rewrite (goes_before_trans _ _ _ Gx G) in Hg. discriminate.
    + split; [|apply IH; [tauto | assumption]].
      rewrite Forall_forall in *. intros x Hx.
      apply keys_insert_new in Hx as [-> | Hx].
      * split; [intuition congruence | exact G].
      * apply Hr, Hx.
Qed.

Lemma settled_before (l1 l2 : list string) (k : string) :
  settled (l1 ++ k :: l2)%list ->
  Forall (fun k' => k <> k' /\ goes_before k k' = false) l1.
Proof.
  induction l1 as [|a l1 IH]; simpl; intros H.
  - constructor.
  - destruct H as [Ha Hs]. constructor; [|apply IH, Hs].
    rewrite Forall_forall in Ha. apply Ha. apply in_or_app. right. left. reflexivity.
Qed.

Lemma insert_new_last (k : string) (v : value) (ps : props_t) :
  Forall (fun k' => k <> k' /\ goes_before k k' = false) (List.map fst ps) ->
  has_key k ps = false /\ insert_new k v ps = (ps ++ [(k, v)])%list.
Proof.
  induction ps as [|[k' v'] r IH]; simpl; intros H.
  - split; reflexivity.
  - inversion H as [|? ? [Hne Hg] Hr]; subst.
    destruct (IH Hr) as [Hk Hi]. rewrite Hg, Hi, Hk.
    split; [|reflexivity]. rewrite orb_false_r. apply String.eqb_neq. exact Hne.
Qed.

End KeyOrder.

Section SanitizeIdempotent.

Lemma strip_idempotent (s : string) : strip (strip s) = strip s.
Proof.
  unfold strip. induction s as [|c r IH]; simpl; [reflexivity|].
  destruct (negb (dangerous c)) eqn:E; simpl; [rewrite E, IH|]; auto.
Qed.

Lemma digits_of_uint (u : Decimal.uint) :
  Str.forallb Str.is_digit (NilEmpty.string_of_uint u) = true.
Proof. induction u; simpl; auto. Qed.

Lemma filter_keeps_forallb (p f : ascii -> bool) (s : string) :
  Str.forallb p s = true -> Str.forallb p (Str.filter f s) = true.
Proof.
  induction s as [|c r IH]; simpl; [reflexivity|].
  intros H. apply andb_true_iff in H as [Hc Hr].
  destruct (f c); simpl; [rewrite Hc|]; auto.
Qed.

(** An array index never becomes [__proto__]. *)
Lemma index_key_not_proto (i : nat) : strip (Str.of_nat i) <> "__proto__".
Proof.
  intros E.
  assert (D : Str.forallb Str.is_digit (strip (Str.of_nat i)) = true).
  { apply filter_keeps_forallb, digits_of_uint. }
  rewrite E in D. discriminate.
Qed.

Lemma set_prop_plain (k : string) (v : value) (ps : list (string * value)) :
  k <> "__proto__" ->
  set_prop k v (ObjectPrototype, ps) = (ObjectPrototype, define_prop k v ps).
Proof.
  intros H. unfold set_prop, define_prop.
  destruct (has_key k ps); [reflexivity|].
  apply String.eqb_neq in H. rewrite H. reflexivity.
Qed.

(** Assigning settled entries to an object whose keys they extend leaves
    them in place. *)
Lemma assign_settled (es acc : list (string * value)) :
  settled (List.map fst (acc ++ es)%list) ->
  Forall (fun kv => fst kv <> "__proto__") es ->
  fold_left (fun o kv => set_prop (fst kv) (snd kv) o) es (ObjectPrototype, acc)
  = (ObjectPrototype, (acc ++ es)%list).
Proof.
  revert acc. induction es as [|[k v] r IH]; intros acc Hs Hp;
    cbn [fold_left fst snd].
  - rewrite app_nil_r. reflexivity.
  - inversion Hp as [|? ? Hk Hr]; subst. simpl in Hk.
    rewrite set_prop_plain by assumption.
    rewrite map_app in Hs. simpl in Hs.
    destruct (insert_new_last k v acc (settled_before _ _ _ Hs)) as [Hn Hi].
    unfold define_prop. rewrite Hn, Hi.
    rewrite IH.
    + rewrite <- app_assoc. reflexivity.
    + rewrite <- app_assoc, map_app. exact Hs.
    + exact Hr.
Qed.

(** Assigning any entries without a [__proto__] key yields a plain,
    settled object holding only values that were assigned. *)
Lemma assign_all_settled (es acc : list (string * value)) :
  settled (List.map fst acc) ->
  Forall (fun kv => fst kv <> "__proto__") es ->
  exists ps,
    fold_left (fun o kv => set_prop (fst kv) (snd kv) o) es (ObjectPrototype, acc)
    = (ObjectPrototype, ps)
    /\ settled (List.map fst ps)
    /\ (forall kv, In kv ps -> In kv acc \/ In kv es).
Proof.
  revert acc. induction es as [|[k v] r IH]; intros acc Hs Hp;
    cbn [fold_left fst snd].
  - exists acc. repeat split; auto.
  - inversion Hp as [|? ? Hk Hr]; subst. simpl in Hk.
    rewrite set_prop_plain by assumption.
    assert (S' : settled (List.map fst (define_prop k v acc))).
    { unfold define_prop. destruct (has_key k acc) eqn:E.
      - rewrite keys_replace_value. exact Hs.
      - apply settled_insert_new; [|exact Hs].
        intros Hin. apply has_key_in in Hin. congruence. }
    destruct (IH _ S' Hr) as (ps & E & Sps & I).
    exists ps. split; [exact E|]. split; [exact Sps|].
    intros kv Hin. destruct (I kv Hin) as [H|H]; [|right; right; exact H].
    unfold define_prop in H. destruct (has_key k acc).
    + apply in_replace_value in H as [-> | H]; [right; left; reflexivity | tauto].
    + apply in_insert_new in H as [-> | H]; [right; left; reflexivity | tauto].
Qed.

Lemma clean_fixed (v : value) : clean v -> sanitizeInput v = v.
Proof.
  induction v as [| | | | s | b | elems IH | proto ps IH] using value_induction;
    intros C; inversion C; subst; cbn [sanitizeInput]; try reflexivity.
  - f_equal. assumption.
  - match goal with
    | H : Forall _ ps |- _ => rename H into F
    end.
    assert (M : List.map (fun kv => (strip (fst kv), sanitizeInput (snd kv))) ps = ps).
    { clear -IH F. induction ps as [|[k x] r IHr]; simpl; [reflexivity|].
      inversion IH as [|? ? Hx Hr]; inversion F as [|? ? (Hk & _ & Cx) Fr]; subst.
      simpl in *. rewrite Hk, (Hx Cx), (IHr Hr Fr). reflexivity. }
    rewrite M. unfold assign_all, empty_object.
    rewrite (assign_settled ps []).
    + reflexivity.
    + assumption.
    + eapply Forall_impl; [|exact F]. simpl. tauto.
Qed.

Lemma sanitized_is_clean (v : value) : proto_free v = true -> clean (sanitizeInput v).
Proof.
  induction v as [| | | | s | b | elems IH | proto ps IH] using value_induction;
    intros H; cbn [sanitizeInput]; try constructor.
  - apply strip_idempotent.
  - destruct b; constructor; simpl; [exact I | constructor].
  - simpl in H. rewrite forallb_forall in H. rewrite Forall_forall in IH.
    destruct (assign_all_settled
                (combine
                   (List.map (fun i => strip (Str.of_nat i)) (seq 0 (length elems)))
                   (List.map sanitizeInput elems)) [])
      as (ps & E & S & I).
    + exact I.
    + apply Forall_forall. intros [k x] Hin. simpl.
      apply in_combine_l in Hin. apply in_map_iff in Hin as (i & <- & _).
      apply index_key_not_proto.
    + unfold assign_all, empty_object. rewrite E. simpl. constructor; [exact S|].
      apply Forall_forall. intros [k x] Hin.
      destruct (I _ Hin) as [[]|Hc]. simpl.
      pose proof (in_combine_l _ _ _ _ Hc) as Hk.
      pose proof (in_combine_r _ _ _ _ Hc) as Hx.
      apply in_map_iff in Hk as (i & <- & _).
      apply in_map_iff in Hx as (y & <- & Hy).
      split; [apply strip_idempotent|]. split; [apply index_key_not_proto|].
      apply IH; [exact Hy | apply H, Hy].
  - simpl in H. rewrite forallb_forall in H. rewrite Forall_forall in IH.
    destruct (assign_all_settled
                (List.map (fun kv => (strip (fst kv), sanitizeInput (snd kv))) ps) [])
      as (qs & E & S & I).
    + exact I.
    + apply Forall_forall. intros [k x] Hin. simpl.
      apply in_map_iff in Hin as ([k0 x0] & [= <- <-] & Hin).
      specialize (H _ Hin). simpl in H. apply andb_true_iff in H as [H _].
      apply negb_true_iff, String.eqb_neq in H. exact H.
    + unfold assign_all, empty_object. rewrite E. simpl. constructor; [exact S|].
      apply Forall_forall. intros [k x] Hin.
      destruct (I _ Hin) as [[]|Hc]. simpl.
      apply in_map_iff in Hc as ([k0 x0] & [= <- <-] & Hc).
      pose proof (H _ Hc) as Hp. simpl in Hp. apply andb_true_iff in Hp as [Hk Hx].
      apply negb_true_iff, String.eqb_neq in Hk.
      split; [apply strip_idempotent|]. split; [exact Hk|].
      apply (IH _ Hc). exact Hx.
Qed.

End SanitizeIdempotent.

(** ** C10: is sanitizeInput idempotent? *)

(** C10, as stated, fails.  On [proto_twice] the first assignment,
    [sanitized['__proto__'] = null], removes the prototype of the result; the
    second key is stripped to [__proto__] as well and, with the setter no
    longer inherited, becomes an own property.  Sanitizing that result again
    starts from a fresh object, whose setter ignores the number 1: the own
    property is gone. *)
Lemma C10_not_idempotent_on_proto_keys :
  sanitizeInput proto_twice = VObj NullPrototype [ ("__proto__", VNum 1) ]
  /\ sanitizeInput (sanitizeInput proto_twice) = VObj ObjectPrototype []
  /\ sanitizeInput (sanitizeInput proto_twice) <> sanitizeInput proto_twice.
Proof. split; [reflexivity|]. split; [reflexivity|]. discriminate. Qed.

(** C10, amended: sanitizeInput is idempotent on every string, on every
    value that is neither an object nor an array, and on every object or
    array in which no key, at any depth, is [__proto__] after the blacklisted
    characters are deleted. *)
Theorem C10_sanitize_idempotent (v : value) :
  proto_free v = true ->
  sanitizeInput (sanitizeInput v) = sanitizeInput v.
Proof. intros H. apply clean_fixed, sanitized_is_clean, H. Qed.

Lemma C10_sanitize_idempotent_witness :
  proto_free nested_sample = true
  /\ sanitizeInput (sanitizeInput nested_sample) = sanitizeInput nested_sample.
Proof.
  split; [reflexivity|]. exact (C10_sanitize_idempotent nested_sample eq_refl).
Defined.

(* ================================================================== *)
(** * Further properties of the validators *)

Section ValidatorFacts.
Import Validation.
Variable rt : runtime.

Lemma fail_coherent (msgs : list string) (r : results) :
  msgs <> [] -> coherent (fail msgs r).
Proof.
  intros H. unfold coherent, fail. simpl. split; [discriminate|].
  intros E. apply app_eq_nil in E as [_ E]. contradiction.
Qed.

Lemma tenant_error_reported (v : value) :
  t_valid (validateTenantId v) = false -> exists e, t_error (validateTenantId v) = Some e.
Proof.
  unfold validateTenantId.
  destruct (negb (truthy v)); [intros _; eexists; reflexivity|].
  destruct v as [| | | | s | | |]; try (intros _; eexists; reflexivity).
  destruct (negb (Uuid.uuidValidate s)); simpl;
    [intros _; eexists; reflexivity | discriminate].
Qed.

Lemma tenant_id_only_when_valid (v : value) :
  t_valid (validateTenantId v) = false -> t_tenantId (validateTenantId v) = None.
Proof.
  unfold validateTenantId. destruct (negb (truthy v)); [reflexivity|].
  destruct v as [| | | | s | | |]; simpl; try reflexivity.
  destruct (negb (Uuid.uuidValidate s)); simpl; [reflexivity | discriminate].
Qed.

Lemma json_error_reported (text : option string) (fieldName : string) (required : bool) :
  j_valid (validateJsonConfig rt text fieldName required) = false ->
  exists e, j_error (validateJsonConfig rt text fieldName required) = Some e.
Proof.
  unfold validateJsonConfig.
  destruct (negb (present text) || blank (str_or text EmptyString)).
  - destruct required; simpl; [intros _; eexists; reflexivity | discriminate].
  - destruct (JSON_parse rt (str_or text EmptyString)); simpl;
      [intros _; eexists; reflexivity | discriminate].
Qed.

Lemma check_json_coherent (text : option string) (fieldName : string)
                          (required : bool) (r : results) :
  coherent r -> coherent (check_json rt text fieldName required r).
Proof.
  intros C. unfold check_json.
  destruct (j_valid (validateJsonConfig rt text fieldName required)) eqn:V; simpl;
    [exact C|].
  destruct (json_error_reported _ _ _ V) as [e ->].
  apply fail_coherent. discriminate.
Qed.

Lemma check_json_keeps (text : option string) (fieldName : string)
                       (required : bool) (r : results) (e : string) :
  In e (errors r) -> In e (errors (check_json rt text fieldName required r)).
Proof.
  intros H. unfold check_json.
  destruct (negb (j_valid _)); [|exact H].
  unfold fail. simpl. apply in_or_app. left. exact H.
Qed.

Lemma check_json_tenant (text : option string) (fieldName : string)
                        (required : bool) (r : results) :
  sanitized_tenantId (check_json rt text fieldName required r) = sanitized_tenantId r.
Proof. unfold check_json. destruct (negb (j_valid _)); reflexivity. Qed.

Lemma after_common_coherent (inputs : node_inputs) : coherent (after_common rt inputs).
Proof.
  unfold after_common.
  destruct (validateApiConfig rt (apiUrl inputs) (apiKey inputs)) as [|a l].
  - destruct (t_valid (validateTenantId (tenantId inputs))) eqn:V; simpl.
    + unfold coherent. simpl. tauto.
    + destruct (tenant_error_reported _ V) as [e ->]. apply fail_coherent. discriminate.
  - apply fail_coherent. discriminate.
Qed.

Lemma after_common_errors (inputs : node_inputs) :
  errors (after_common rt inputs)
  = ((if t_valid (validateTenantId (tenantId inputs)) then []
      else match t_error (validateTenantId (tenantId inputs)) with
           | Some e => [e]
           | None => []
           end)
     ++ validateApiConfig rt (apiUrl inputs) (apiKey inputs))%list.
Proof.
  unfold after_common.
  destruct (validateApiConfig rt (apiUrl inputs) (apiKey inputs)) as [|a l];
    destruct (t_valid (validateTenantId (tenantId inputs))); simpl;
    rewrite ?app_nil_r; reflexivity.
Qed.

Lemma after_common_tenant (inputs : node_inputs) :
  sanitized_tenantId (after_common rt inputs)
  = t_tenantId (validateTenantId (tenantId inputs)).
Proof.
  unfold after_common.
  destruct (validateApiConfig rt (apiUrl inputs) (apiKey inputs)) as [|a l];
    destruct (t_valid (validateTenantId (tenantId inputs))) eqn:V; simpl;
    try reflexivity; symmetry; apply tenant_id_only_when_valid, V.
Qed.

Lemma extends_refl (r : results) : extends r r.
Proof. split; [|split]; auto. Qed.

Lemma extends_check_json (text : option string) (fieldName : string)
                         (required : bool) (r0 r : results) :
  extends r0 r -> extends r0 (check_json rt text fieldName required r).
Proof.
  intros (H1 & H2 & H3). split; [|split].
  - intros e He. apply check_json_keeps, H1, He.
  - rewrite check_json_tenant. exact H2.
  - intros C. apply check_json_coherent, H3, C.
Qed.

Lemma extends_fail (msgs : list string) (r0 r : results) :
  msgs <> [] -> extends r0 r -> extends r0 (fail msgs r).
Proof.
  intros Hm (H1 & H2 & H3). split; [|split].
  - intros e He. unfold fail. simpl. apply in_or_app. left. apply H1, He.
  - exact H2.
  - intros _. apply fail_coherent, Hm.
Qed.

Lemma node_checks_extend (inputs : node_inputs) (nodeType : string) :
  validateNodeInputs rt inputs nodeType
  = (if String.eqb nodeType "automator"
     then validateAutomatorInputs rt inputs (after_common rt inputs)
     else if String.eqb nodeType "mentor"
     then validateMentorInputs rt inputs (after_common rt inputs)
     else if String.eqb nodeType "supervisor"
     then validateSupervisorInputs inputs (after_common rt inputs)
     else if String.eqb nodeType "african_integrations"
     then validateAfricanIntegrationsInputs rt inputs (after_common rt inputs)
     else after_common rt inputs)
  /\ extends (after_common rt inputs) (validateNodeInputs rt inputs nodeType).
Proof.
  assert (E : validateNodeInputs rt inputs nodeType
              = (if String.eqb nodeType "automator"
                 then validateAutomatorInputs rt inputs (after_common rt inputs)
                 else if String.eqb nodeType "mentor"
                 then validateMentorInputs rt inputs (after_common rt inputs)
                 else if String.eqb nodeType "supervisor"
                 then validateSupervisorInputs inputs (after_common rt inputs)
                 else if String.eqb nodeType "african_integrations"
                 then validateAfricanIntegrationsInputs rt inputs (after_common rt inputs)
                 else after_common rt inputs)).
  { unfold validateNodeInputs, after_common.
    destruct (validateApiConfig rt (apiUrl inputs) (apiKey inputs)); reflexivity. }
  split; [exact E|]. rewrite E.
  destruct (String.eqb nodeType "automator").
  { unfold validateAutomatorInputs. do 2 apply extends_check_json. apply extends_refl. }
  destruct (String.eqb nodeType "mentor").
  { unfold validateMentorInputs. apply extends_check_json.
    destruct (negb (present (question inputs)) || blank _);
      [apply extends_fail; [discriminate|]|]; apply extends_refl. }
  destruct (String.eqb nodeType "supervisor").
  { unfold validateSupervisorInputs.
    destruct (negb (truthy (workflowConfig inputs)) && _);
      [apply extends_fail; [discriminate|]|]; apply extends_refl. }
  destruct (String.eqb nodeType "african_integrations").
  { unfold validateAfricanIntegrationsInputs. apply extends_check_json, extends_refl. }
  apply extends_refl.
Qed.

End ValidatorFacts.


Section ValidatorProperties.
Import Validation.

Lemma tenant_error_means_invalid (v : value) (e : string) :
  t_error (validateTenantId v) = Some e -> t_valid (validateTenantId v) = false.
Proof.
  unfold validateTenantId. destruct (negb (truthy v)); [reflexivity|].
  destruct v as [| | | | s | | |]; try reflexivity.
  destruct (negb (Uuid.uuidValidate s)); simpl; [reflexivity | discriminate].
Qed.

Lemma node_results_coherent
    (rt : runtime) (inputs : node_inputs) (nodeType : string) :
  coherent (validateNodeInputs rt inputs nodeType).
Proof.
  destruct (node_checks_extend rt inputs nodeType) as (_ & _ & _ & C).
  apply C, after_common_coherent.
Qed.

Lemma invalid_when_error
    (rt : runtime) (inputs : node_inputs) (nodeType e : string) :
  In e (errors (validateNodeInputs rt inputs nodeType)) ->
  valid (validateNodeInputs rt inputs nodeType) = false.
Proof.
  intros I.
  destruct (valid (validateNodeInputs rt inputs nodeType)) eqn:V; [|reflexivity].
  apply node_results_coherent in V. rewrite V in I. destruct I.
Qed.

(** X1: whatever the node type and the inputs, the result of
    [validateNodeInputs] has [valid] true exactly when its list of errors is
    empty. *)
Theorem validation_valid_iff_no_errors
    (rt : runtime) (inputs : node_inputs) (nodeType : string) :
  valid (validateNodeInputs rt inputs nodeType) = true
  <-> errors (validateNodeInputs rt inputs nodeType) = [].
Proof. exact (node_results_coherent rt inputs nodeType). Qed.

Lemma validation_valid_iff_no_errors_witness :
  errors (validateNodeInputs (Sample.host Sample.flaky)
            (automator_inputs "{}") "automator") = [].
Proof.
  exact (proj1 (validation_valid_iff_no_errors (Sample.host Sample.flaky)
                  (automator_inputs "{}") "automator") eq_refl).
Defined.

(** X2: the checks do not short-circuit.  The error of the tenant check and
    every error of the API check are in the result whatever the later checks
    find, and the lower-cased tenant id is reported whenever the tenant id is
    a canonical UUID, even when other checks fail. *)
Theorem validation_collects_errors
    (rt : runtime) (inputs : node_inputs) (nodeType : string) :
  (forall e, t_error (validateTenantId (tenantId inputs)) = Some e ->
             In e (errors (validateNodeInputs rt inputs nodeType)))
  /\ (forall e, In e (validateApiConfig rt (apiUrl inputs) (apiKey inputs)) ->
                In e (errors (validateNodeInputs rt inputs nodeType)))
  /\ (forall s, tenantId inputs = VStr s -> Uuid.canonical_uuid s ->
                sanitized_tenantId (validateNodeInputs rt inputs nodeType)
                = Some (Str.toLowerCase s))
  /\ (t_valid (validateTenantId (tenantId inputs)) = false ->
      sanitized_tenantId (validateNodeInputs rt inputs nodeType) = None).
Proof.
  destruct (node_checks_extend rt inputs nodeType) as (_ & K & T & _).
  split; [|split; [|split]].
  - intros e He. apply K. rewrite after_common_errors.
    rewrite (tenant_error_means_invalid _ _ He), He. left. reflexivity.
  - intros e He. apply K. rewrite after_common_errors. apply in_or_app. right. exact He.
  - intros s Hs C. rewrite T, after_common_tenant, Hs.
    apply uuidRegex_canonical in C. unfold validateTenantId, Uuid.uuidValidate.
    assert (N : truthy (VStr s) = true).
    { simpl. destruct (String.eqb s EmptyString) eqn:E; [|reflexivity].
      apply String.eqb_eq in E. subst s. discriminate. }
    rewrite N, C. reflexivity.
  - intros V. rewrite T, after_common_tenant. apply tenant_id_only_when_valid, V.
Qed.

Lemma validation_collects_errors_witness :
  sanitized_tenantId
    (validateNodeInputs (Sample.host Sample.flaky) Sample.supervisor_inputs "supervisor")
  = Some (Str.toLowerCase Sample.uuid).
Proof.
  destruct (validation_collects_errors (Sample.host Sample.flaky)
              Sample.supervisor_inputs "supervisor") as (_ & _ & S & _).
  apply (S Sample.uuid eq_refl). apply uuidRegex_canonical. reflexivity.
Defined.

(** X3: a mentor node whose question is missing, empty or made of white
    space only is invalid, and the errors name the question. *)
Theorem mentor_validation_needs_question (rt : runtime) (inputs : node_inputs) :
  negb (present (question inputs)) || blank (str_or (question inputs) EmptyString) = true ->
  valid (validateNodeInputs rt inputs "mentor") = false
  /\ In "Question or challenge is required for mentor guidance"
        (errors (validateNodeInputs rt inputs "mentor")).
Proof.
  intros H.
  assert (I : In "Question or challenge is required for mentor guidance"
                 (errors (validateNodeInputs rt inputs "mentor"))).
  { destruct (node_checks_extend rt inputs "mentor") as (E & _). rewrite E.
    simpl String.eqb. cbv iota. unfold validateMentorInputs. rewrite H.
    apply check_json_keeps. unfold fail. simpl. apply in_or_app. right. left.
    reflexivity. }
  split; [exact (invalid_when_error _ _ _ _ I) | exact I].
Qed.

Lemma mentor_validation_needs_question_witness :
  valid (validateNodeInputs (Sample.host Sample.flaky) blank_question_inputs "mentor")
  = false
  /\ In "Question or challenge is required for mentor guidance"
        (errors (validateNodeInputs (Sample.host Sample.flaky)
                   blank_question_inputs "mentor")).
Proof.
  exact (mentor_validation_needs_question (Sample.host Sample.flaky)
           blank_question_inputs eq_refl).
Defined.

Lemma visible_not_blank (text : string) :
  visible text = true -> negb (present (Some text)) || blank text = false.
Proof.
  assert (W : forall s, Str.forallb is_space s = true ->
              Str.forallb (fun c => is_space c || negb (is_ascii c)) s = true).
  { induction s as [|a s IH]; simpl; [reflexivity|].
    intros B. apply andb_true_iff in B as [Ba Bs]. rewrite Ba, (IH Bs). reflexivity. }
  unfold visible, blank. intros V. apply negb_true_iff in V.
  destruct text as [|c r]; [discriminate|]. cbn [present String.eqb negb orb].
  destruct (Str.forallb is_space (String c r)) eqn:B; [|reflexivity].
  rewrite (W _ B) in V. discriminate.
Qed.

(** X4: an automator node needs a task configuration that parses, and
    tolerates missing input data.  A missing or blank task configuration is
    reported as required; one with a visible character that does not parse
    is reported with the name of the field and the message of the parser;
    with a canonical tenant id, no API error and a task configuration that
    parses, missing input data leaves the result valid. *)
Theorem automator_validation_of_json (rt : runtime) (inputs : node_inputs) :
  (negb (present (taskConfig inputs))
   || blank (str_or (taskConfig inputs) EmptyString) = true ->
   valid (validateNodeInputs rt inputs "automator") = false
   /\ In "Task Configuration is required"
         (errors (validateNodeInputs rt inputs "automator")))
  /\ (forall text msg,
        taskConfig inputs = Some text ->
        visible text = true ->
        JSON_parse rt text = inl msg ->
        valid (validateNodeInputs rt inputs "automator") = false
        /\ In ("Invalid JSON format in Task Configuration: " ++ msg)
              (errors (validateNodeInputs rt inputs "automator")))
  /\ (forall text parsed,
        t_valid (validateTenantId (tenantId inputs)) = true ->
        validateApiConfig rt (apiUrl inputs) (apiKey inputs) = [] ->
        (forall key, apiKey inputs = Some key -> ascii_text key = true) ->
        taskConfig inputs = Some text ->
        visible text = true ->
        JSON_parse rt text = inr parsed ->
        inputData inputs = None ->
        valid (validateNodeInputs rt inputs "automator") = true
        /\ errors (validateNodeInputs rt inputs "automator") = []).
Proof.
  destruct (node_checks_extend rt inputs "automator") as (E & _).
  simpl String.eqb in E. cbv iota in E. unfold validateAutomatorInputs in E.
  split; [|split].
  - intros H.
    assert (I : In "Task Configuration is required"
                   (errors (validateNodeInputs rt inputs "automator"))).
    { rewrite E. apply check_json_keeps. unfold check_json, validateJsonConfig.
      rewrite H. simpl. apply in_or_app. right. left. reflexivity. }
    split; [exact (invalid_when_error _ _ _ _ I) | exact I].
  - intros text msg Ht Hv Hp. pose proof (visible_not_blank text Hv) as Hb.
    assert (S : str_or (Some text) EmptyString = text).
    { simpl. simpl in Hb. destruct (String.eqb text EmptyString); [discriminate|].
      reflexivity. }
    assert (I : In ("Invalid JSON format in Task Configuration: " ++ msg)
                   (errors (validateNodeInputs rt inputs "automator"))).
    { rewrite E. apply check_json_keeps. unfold check_json, validateJsonConfig.
      rewrite Ht, S, Hb, Hp. simpl. apply in_or_app. right. left. reflexivity. }
    split; [exact (invalid_when_error _ _ _ _ I) | exact I].
  - intros text parsed Tv Av _ Ht Hv Hp Hi. pose proof (visible_not_blank text Hv) as Hb.
    assert (S : str_or (Some text) EmptyString = text).
    { simpl. simpl in Hb. destruct (String.eqb text EmptyString); [discriminate|].
      reflexivity. }
    assert (R : errors (validateNodeInputs rt inputs "automator") = []).
    { rewrite E. unfold check_json, validateJsonConfig.
      rewrite Ht, S, Hb, Hp, Hi. simpl.
      rewrite after_common_errors, Tv, Av. reflexivity. }
    split; [apply node_results_coherent, R | exact R].
Qed.

Lemma automator_validation_of_json_witness :
  (valid (validateNodeInputs (Sample.host Sample.flaky)
            (automator_inputs "{not json") "automator") = false
   /\ In ("Invalid JSON format in Task Configuration: "
          ++ "Unexpected token in JSON: {not json")
         (errors (validateNodeInputs (Sample.host Sample.flaky)
                    (automator_inputs "{not json") "automator")))
  /\ (valid (validateNodeInputs (Sample.host Sample.flaky)
               (automator_inputs "{}") "automator") = true
      /\ errors (validateNodeInputs (Sample.host Sample.flaky)
                   (automator_inputs "{}") "automator") = []).
Proof.
  split.
  - exact (proj1 (proj2 (automator_validation_of_json (Sample.host Sample.flaky)
                           (automator_inputs "{not json")))
             "{not json" _ eq_refl eq_refl eq_refl).
  - exact (proj2 (proj2 (automator_validation_of_json (Sample.host Sample.flaky)
                           (automator_inputs "{}")))
             "{}" (obj []) eq_refl eq_refl ltac:(discriminate) eq_refl eq_refl
             eq_refl eq_refl).
Defined.

End ValidatorProperties.


(* ================================================================== *)
(** * Further properties of tenant resolution *)

Section TenantIds.
Import Uuid.

Ltac by_char c :=
  destruct c as [[] [] [] [] [] [] [] []]; vm_compute; try reflexivity;
  try discriminate; try tauto.

Lemma length_append (s t : string) :
  String.length (s ++ t) = (String.length s + String.length t)%nat.
Proof. induction s as [|c r IH]; simpl; [reflexivity | rewrite IH; reflexivity]. Qed.

Lemma forallb_weaken (p q : ascii -> bool) (s : string) :
  (forall c, p c = true -> q c = true) ->
  Str.forallb p s = true -> Str.forallb q s = true.
Proof.
  intros H. induction s as [|c r IH]; simpl; [reflexivity|].
  intros F. apply andb_true_iff in F as [Fc Fr]. rewrite (H c Fc), (IH Fr). reflexivity.
Qed.

Lemma hex_is_id_char (c : ascii) : is_hex c = true -> id_char c = true.
Proof. unfold id_char. intros ->. reflexivity. Qed.

(** An accepted tenant id has 36 characters, all hexadecimal digits or
    dashes. *)
Lemma canonical_shape (s : string) :
  canonical_uuid s -> String.length s = 36%nat /\ Str.forallb id_char s = true.
Proof.
  intros (g1 & g2 & g3 & g4 & g5 & -> & [L1 F1] & [L2 F2] & [L3 F3] & [L4 F4]
          & [L5 F5] & _).
  split.
  - rewrite !length_append, L1, L2, L3, L4, L5. reflexivity.
  - rewrite !forallb_app.
    rewrite (forallb_weaken _ _ g1 hex_is_id_char F1),
            (forallb_weaken _ _ g2 hex_is_id_char F2),
            (forallb_weaken _ _ g3 hex_is_id_char F3),
            (forallb_weaken _ _ g4 hex_is_id_char F4),
            (forallb_weaken _ _ g5 hex_is_id_char F5).
    reflexivity.
Qed.

Lemma id_char_plain (c : ascii) :
  id_char c = true ->
  not_dollar c = true /\ Ascii.eqb c "'" = false /\ Ascii.eqb c "_" = false
  /\ identifier_char (if Ascii.eqb c "-" then "_"%char else c) = true.
Proof. by_char c. Qed.

Lemma lower_char_idempotent (c : ascii) :
  Str.lower_char (Str.lower_char c) = Str.lower_char c.
Proof. by_char c. Qed.

Lemma upper_of_lower (c : ascii) :
  Str.upper_char (Str.lower_char c) = Str.upper_char c.
Proof. by_char c. Qed.

Lemma atom_matches_lower (a : atom) (c : ascii) :
  atom_matches a (Str.lower_char c) = atom_matches a c.
Proof.
  destruct a as [ranges|l]; unfold atom_matches.
  - rewrite lower_char_idempotent, upper_of_lower. reflexivity.
  - rewrite lower_char_idempotent. reflexivity.
Qed.

Lemma match_rep_lower (a : atom) (n : nat) (s : string) :
  match_rep a n (Str.toLowerCase s)
  = option_map Str.toLowerCase (match_rep a n s).
Proof.
  revert s. induction n as [|n IH]; intros s; simpl; [reflexivity|].
  destruct s as [|c r]; simpl; [reflexivity|].
  rewrite atom_matches_lower. destruct (atom_matches a c); [apply IH | reflexivity].
Qed.

Lemma match_seq_lower (p : pattern) (s : string) :
  match_seq p (Str.toLowerCase s) = option_map Str.toLowerCase (match_seq p s).
Proof.
  revert s. induction p as [|[a n] p IH]; intros s; simpl; [reflexivity|].
  rewrite match_rep_lower. destruct (match_rep a n s) as [r|]; simpl;
    [apply IH | reflexivity].
Qed.

(** The pattern, matched with the ignore-case flag, does not see the case of
    its input. *)
Lemma test_lower (p : pattern) (s : string) :
  test p (Str.toLowerCase s) = test p s.
Proof.
  unfold test. rewrite match_seq_lower.
  destruct (match_seq p s) as [[|c r]|]; reflexivity.
Qed.

Lemma toLowerCase_idempotent (s : string) :
  Str.toLowerCase (Str.toLowerCase s) = Str.toLowerCase s.
Proof.
  unfold Str.toLowerCase. induction s as [|c r IH]; simpl; [reflexivity|].
  rewrite lower_char_idempotent, IH. reflexivity.
Qed.

Lemma dashes_injective (s1 s2 : string) :
  Str.forallb id_char s1 = true -> Str.forallb id_char s2 = true ->
  TenantIsolation.dashes_to_underscores s1 = TenantIsolation.dashes_to_underscores s2 ->
  s1 = s2.
Proof.
  unfold TenantIsolation.dashes_to_underscores.
  revert s2. induction s1 as [|c1 r1 IH]; intros [|c2 r2]; simpl;
    try discriminate; [reflexivity|].
  intros F1 F2 E.
  apply andb_true_iff in F1 as [C1 F1]. apply andb_true_iff in F2 as [C2 F2].
  injection E as Ec Er. rewrite (IH r2 F1 F2 Er). f_equal.
  destruct (id_char_plain c1 C1) as (_ & _ & U1 & _).
  destruct (id_char_plain c2 C2) as (_ & _ & U2 & _).
  destruct (Ascii.eqb c1 "-") eqn:D1; destruct (Ascii.eqb c2 "-") eqn:D2.
  - apply Ascii.eqb_eq in D1, D2. congruence.
  - subst c2. discriminate.
  - subst c1. discriminate.
  - exact Ec.
Qed.

Lemma dashes_identifier (s : string) :
  Str.forallb id_char s = true ->
  Str.forallb identifier_char (TenantIsolation.dashes_to_underscores s) = true
  /\ String.length (TenantIsolation.dashes_to_underscores s) = String.length s.
Proof.
  unfold TenantIsolation.dashes_to_underscores.
  induction s as [|c r IH]; simpl; [split; reflexivity|].
  intros F. apply andb_true_iff in F as [C F]. destruct (IH F) as [I L].
  destruct (id_char_plain c C) as (_ & _ & _ & X). rewrite X, I, L. split; reflexivity.
Qed.

Lemma match_rep_weaken (a b : atom) (n : nat) (s r : string) :
  (forall c, atom_matches a c = true -> atom_matches b c = true) ->
  match_rep a n s = Some r -> match_rep b n s = Some r.
Proof.
  intros W. revert s. induction n as [|n IH]; intros s; simpl; [tauto|].
  destruct s as [|c t]; [discriminate|].
  destruct (atom_matches a c) eqn:A; [|discriminate].
  rewrite (W c A). apply IH.
Qed.

Lemma match_rep_cons (a : atom) (n : nat) (s r t : string) :
  match_rep a 1 s = Some r -> match_rep a n r = Some t ->
  match_rep a (S n) s = Some t.
Proof.
  simpl. destruct s as [|c u]; [discriminate|].
  destruct (atom_matches a c); [|discriminate]. intros [= ->]. tauto.
Qed.

Lemma digit_class_is_hex (ranges : list (ascii * ascii)) (c : ascii) :
  atom_matches (Class ranges) c = true ->
  (ranges = [("1", "5")]%char
   \/ ranges = [("8", "8"); ("9", "9"); ("a", "a"); ("b", "b")]%char) ->
  atom_matches hex c = true.
Proof.
  intros M [-> | ->]; revert M; by_char c.
Qed.

(** Every id the pattern accepts has the layout of a UUID. *)
Lemma accepted_is_laid_out (s : string) :
  test uuidRegex s = true -> laid_out s = true.
Proof.
  unfold laid_out, test, uuidRegex, uuid_layout. cbn [match_seq].
  destruct (match_rep hex 8 s) as [r1|]; [|discriminate].
  destruct (match_rep dash 1 r1) as [r2|]; [|discriminate].
  destruct (match_rep hex 4 r2) as [r3|]; [|discriminate].
  destruct (match_rep dash 1 r3) as [r4|]; [|discriminate].
  destruct (match_rep (Class [("1", "5")]%char) 1 r4) as [r5|] eqn:V; [|discriminate].
  destruct (match_rep hex 3 r5) as [r6|] eqn:H3; [|discriminate].
  rewrite (match_rep_cons hex 3 r4 r5 r6
             (match_rep_weaken _ hex 1 r4 r5
                (fun c M => digit_class_is_hex _ c M (or_introl eq_refl)) V) H3).
  destruct (match_rep dash 1 r6) as [r7|]; [|discriminate].
  destruct (match_rep (Class [("8", "8"); ("9", "9"); ("a", "a"); ("b", "b")]%char)
              1 r7) as [r8|] eqn:W; [|discriminate].
  destruct (match_rep hex 3 r8) as [r9|] eqn:H4; [|discriminate].
  rewrite (match_rep_cons hex 3 r7 r8 r9
             (match_rep_weaken _ hex 1 r7 r8
                (fun c M => digit_class_is_hex _ c M (or_intror eq_refl)) W) H4).
  tauto.
Qed.

(** What the middleware does with a non-empty header. *)
Lemma middleware_nonempty (cfg : TenantIsolation.config) (s : string) :
  s <> EmptyString ->
  TenantIsolation.middleware cfg (Some s)
  = if test uuidRegex s
    then TenantIsolation.Next
           {| TenantIsolation.id := Some s;
              TenantIsolation.schema :=
                "tenant_" ++ TenantIsolation.dashes_to_underscores s;
              TenantIsolation.isolated := true |}
    else TenantIsolation.Json 400 "Invalid tenant ID format"
           "Tenant ID must be a valid UUID".
Proof.
  intros H. apply String.eqb_neq in H.
  unfold TenantIsolation.middleware, uuidValidate. simpl. rewrite H. simpl.
  destruct (test uuidRegex s); reflexivity.
Qed.

(** An isolated tenant context comes from a canonical id. *)
Lemma isolated_tenant (cfg : TenantIsolation.config) (h : option string)
                      (t : TenantIsolation.tenant) :
  TenantIsolation.middleware cfg h = TenantIsolation.Next t ->
  TenantIsolation.isolated t = true ->
  exists s, h = Some s /\ canonical_uuid s
            /\ TenantIsolation.id t = Some s
            /\ TenantIsolation.schema t
               = "tenant_" ++ TenantIsolation.dashes_to_underscores s.
Proof.
  intros M I. destruct h as [s|].
  - destruct (String.eqb s EmptyString) eqn:E.
    + apply String.eqb_eq in E. subst s. unfold TenantIsolation.middleware in M.
      simpl in M. destruct (TenantIsolation.requireTenantId cfg); [discriminate|].
      injection M as <-. discriminate.
    + apply String.eqb_neq in E. rewrite (middleware_nonempty cfg s E) in M.
      destruct (test uuidRegex s) eqn:T; [|discriminate].
      injection M as <-. exists s. repeat split. apply uuidRegex_canonical, T.
  - unfold TenantIsolation.middleware in M. simpl in M.
    destruct (TenantIsolation.requireTenantId cfg); [discriminate|].
    injection M as <-. discriminate.
Qed.

End TenantIds.


Section TenantProperties.
Import Uuid TenantIsolation.

Lemma present_nonempty (s : string) : s <> EmptyString -> present (Some s) = true.
Proof. intros H. apply String.eqb_neq in H. simpl. rewrite H. reflexivity. Qed.

Lemma str_or_nonempty (s d : string) : s <> EmptyString -> str_or (Some s) d = s.
Proof. intros H. apply String.eqb_neq in H. simpl. rewrite H. reflexivity. Qed.

(** The filter on a query that contains the keyword, for an id free of
    dollar signs. *)
Lemma filter_at_where (sql tid : string) (i : nat) :
  tid <> EmptyString -> Str.forallb not_dollar tid = true ->
  Str.indexOf "where" (Str.toLowerCase sql) = Some i ->
  addTenantFilter sql (Some tid)
  = Str.take i sql ++ "WHERE tenant_id = '" ++ tid ++ "' AND" ++ Str.drop (i + 5) sql.
Proof.
  intros Hne Hd I. unfold addTenantFilter.
  rewrite (present_nonempty tid Hne), (str_or_nonempty tid _ Hne). simpl negb. cbv iota.
  assert (W : Str.includes "where" (Str.toLowerCase sql) = true)
    by (apply includes_indexOf; eexists; exact I).
  rewrite W. unfold replace_where. rewrite I, substitution_plain.
  - rewrite !append_assoc. reflexivity.
  - rewrite !forallb_app, Hd. reflexivity.
Qed.

Lemma filter_appended (sql tid : string) :
  tid <> EmptyString ->
  Str.includes "where" (Str.toLowerCase sql) = false ->
  Str.includes "select" (Str.toLowerCase sql) = true ->
  Str.includes "from" (Str.toLowerCase sql) = true ->
  addTenantFilter sql (Some tid) = sql ++ " WHERE tenant_id = '" ++ tid ++ "'".
Proof.
  intros Hne W S F. unfold addTenantFilter.
  rewrite (present_nonempty tid Hne), (str_or_nonempty tid _ Hne). simpl negb. cbv iota.
  rewrite W, S. destruct (proj1 (includes_indexOf _ _) F) as [i I]. rewrite I.
  rewrite <- append_assoc, take_drop. reflexivity.
Qed.

Lemma id_chars_plain (s : string) :
  Str.forallb id_char s = true ->
  Str.forallb not_dollar s = true
  /\ Str.forallb (fun c => negb (Ascii.eqb c "'")) s = true.
Proof.
  intros F. split; refine (forallb_weaken _ _ s _ F); intros c C;
    destruct (id_char_plain c C) as (D & Q & _); [exact D | rewrite Q; reflexivity].
Qed.

(** X5: the tenant-id pattern ignores letter case, so lower-casing an id
    never changes whether it is accepted; the id [validateTenantId] hands
    back for an accepted id is in lower case, is accepted in turn and is
    handed back unchanged. *)
Theorem tenant_id_normal_form (s : string) :
  test uuidRegex (Str.toLowerCase s) = test uuidRegex s
  /\ (Validation.t_valid (Validation.validateTenantId (VStr s)) = true ->
      Validation.t_tenantId (Validation.validateTenantId (VStr s))
      = Some (Str.toLowerCase s)
      /\ Validation.validateTenantId (VStr (Str.toLowerCase s))
         = {| Validation.t_valid := true;
              Validation.t_error := None;
              Validation.t_tenantId := Some (Str.toLowerCase s) |}).
Proof.
  split; [apply test_lower|].
  unfold Validation.validateTenantId, uuidValidate. simpl truthy.
  destruct (String.eqb s EmptyString) eqn:E; simpl negb; cbv iota; [discriminate|].
  destruct (test uuidRegex s) eqn:T; simpl; [|discriminate].
  intros _. split; [reflexivity|].
  assert (N : String.eqb (Str.toLowerCase s) EmptyString = false).
  { destruct s; [discriminate | reflexivity]. }
  rewrite N, test_lower, T, toLowerCase_idempotent. reflexivity.
Qed.

Lemma tenant_id_normal_form_witness :
  Validation.t_tenantId
    (Validation.validateTenantId (VStr "550E8400-E29B-41D4-A716-446655440000"))
  = Some Sample.uuid
  /\ Validation.validateTenantId (VStr Sample.uuid)
     = {| Validation.t_valid := true;
          Validation.t_error := None;
          Validation.t_tenantId := Some Sample.uuid |}.
Proof.
  exact (proj2 (tenant_id_normal_form "550E8400-E29B-41D4-A716-446655440000") eq_refl).
Defined.

(** X6: when the middleware attaches an isolated tenant context, the
    namespace is [tenant_] followed by 36 characters that are letters,
    digits or underscores, and the id holds no quote and no dollar sign; two
    requests with different accepted ids get different namespaces. *)
Theorem namespace_of_accepted_id (cfg : config) (h1 h2 : option string)
                                 (t1 t2 : tenant) :
  middleware cfg h1 = Next t1 -> isolated t1 = true ->
  (exists s d,
      id t1 = Some s /\ h1 = Some s
      /\ schema t1 = "tenant_" ++ d
      /\ String.length d = 36%nat
      /\ Str.forallb identifier_char d = true
      /\ Str.forallb (fun c => negb (Ascii.eqb c "'")) s = true
      /\ Str.forallb not_dollar s = true)
  /\ (middleware cfg h2 = Next t2 -> isolated t2 = true ->
      schema t1 = schema t2 -> id t1 = id t2).
Proof.
  intros M1 I1.
  destruct (isolated_tenant cfg h1 t1 M1 I1) as (s1 & -> & C1 & Id1 & S1).
  destruct (canonical_shape s1 C1) as [L1 F1].
  destruct (dashes_identifier s1 F1) as [D1 DL1].
  destruct (id_chars_plain s1 F1) as [ND NQ].
  split.
  - exists s1, (dashes_to_underscores s1).
    repeat split; try assumption. rewrite DL1. exact L1.
  - intros M2 I2 E.
    destruct (isolated_tenant cfg h2 t2 M2 I2) as (s2 & -> & C2 & Id2 & S2).
    destruct (canonical_shape s2 C2) as [L2 F2].
    rewrite S1, S2 in E. injection E as E.
    rewrite Id1, Id2, (dashes_injective s1 s2 F1 F2 E). reflexivity.
Qed.

Lemma namespace_of_accepted_id_witness :
  exists s d,
    id sample_tenant = Some s /\ Some Sample.uuid = Some s
    /\ schema sample_tenant = "tenant_" ++ d
    /\ String.length d = 36%nat
    /\ Str.forallb identifier_char d = true
    /\ Str.forallb (fun c => negb (Ascii.eqb c "'")) s = true
    /\ Str.forallb not_dollar s = true.
Proof.
  exact (proj1 (namespace_of_accepted_id default_config (Some Sample.uuid)
                  (Some Sample.uuid) sample_tenant sample_tenant eq_refl eq_refl)).
Defined.

(** X7: a non-empty header value that does not have the layout of a UUID
    (five groups of 8, 4, 4, 4 and 12 hexadecimal digits joined by dashes) is
    answered with status 400 whatever the configuration, the validator
    accepting only ids of that layout; when the header is optional, a request
    without the header or with an empty one is handed on with the default
    schema and without isolation. *)
Theorem middleware_optional_header (cfg : config) (s : string) :
  (s <> EmptyString -> laid_out s = false ->
   middleware cfg (Some s)
   = Json 400 "Invalid tenant ID format" "Tenant ID must be a valid UUID")
  /\ (requireTenantId cfg = false ->
      middleware cfg None
      = Next {| id := None; schema := defaultSchema cfg; isolated := false |}
      /\ middleware cfg (Some EmptyString)
         = Next {| id := Some EmptyString; schema := defaultSchema cfg;
                   isolated := false |}).
Proof.
  split.
  - intros Hne NL. rewrite (middleware_nonempty cfg s Hne).
    destruct (test uuidRegex s) eqn:T; [|reflexivity].
    apply accepted_is_laid_out in T. congruence.
  - intros R. unfold middleware. simpl. rewrite R. split; reflexivity.
Qed.

Lemma middleware_optional_header_witness :
  middleware optional_tenant_config (Some "not-a-uuid")
  = Json 400 "Invalid tenant ID format" "Tenant ID must be a valid UUID"
  /\ middleware optional_tenant_config None
     = Next {| id := None; schema := "public"; isolated := false |}.
Proof.
  destruct (middleware_optional_header optional_tenant_config "not-a-uuid") as [A B].
  split.
  - apply A; [discriminate | reflexivity].
  - exact (proj1 (B eq_refl)).
Defined.

(** X8: a query run through the connection of a request the middleware
    handed on.  Without isolation the statement is executed as written.
    With an isolated tenant the accepted id is interpolated as it is: at the
    first [where] of the statement, or at its end when it has no [where] but
    has [select] and [from].  The parameters are always passed on
    unchanged. *)
Theorem query_through_connection (cfg : config) (h : option string) (t : tenant)
                                 (sql : string) (params : value) :
  middleware cfg h = Next t ->
  field (TenantConnection.query t sql params) "params" = Some params
  /\ (isolated t = false ->
      field (TenantConnection.query t sql params) "query" = Some (VStr sql))
  /\ (isolated t = true ->
      exists s,
        h = Some s
        /\ (forall i, Str.indexOf "where" (Str.toLowerCase sql) = Some i ->
            field (TenantConnection.query t sql params) "query"
            = Some (VStr (Str.take i sql ++ "WHERE tenant_id = '" ++ s ++ "' AND"
                          ++ Str.drop (i + 5) sql)))
        /\ (Str.includes "where" (Str.toLowerCase sql) = false ->
            Str.includes "select" (Str.toLowerCase sql) = true ->
            Str.includes "from" (Str.toLowerCase sql) = true ->
            field (TenantConnection.query t sql params) "query"
            = Some (VStr (sql ++ " WHERE tenant_id = '" ++ s ++ "'")))).
Proof.
  intros M. split; [reflexivity|]. split.
  - intros I. unfold TenantConnection.query, TenantConnection.executeQuery.
    assert (P : present (id t) = false).
    { unfold middleware in M.
      destruct (negb (present h) && requireTenantId cfg); [discriminate|].
      destruct (present h && negb (uuidValidate (str_or h EmptyString)));
        [discriminate|].
      injection M as <-. exact I. }
    unfold addTenantFilter. rewrite P. reflexivity.
  - intros I.
    destruct (isolated_tenant cfg h t M I) as (s & -> & C & Id & _).
    destruct (canonical_shape s C) as [L F].
    destruct (id_chars_plain s F) as [ND _].
    assert (Hne : s <> EmptyString) by (intros ->; discriminate).
    exists s. split; [reflexivity|].
    unfold TenantConnection.query, TenantConnection.executeQuery. rewrite Id.
    split.
    + intros i W. rewrite (filter_at_where sql s i Hne ND W). reflexivity.
    + intros W S Fr. rewrite (filter_appended sql s Hne W S Fr). reflexivity.
Qed.

Lemma query_through_connection_witness :
  field (TenantConnection.query sample_tenant "SELECT * FROM orders" (VArr [])) "params"
  = Some (VArr [])
  /\ field (TenantConnection.query sample_tenant "SELECT * FROM orders" (VArr []))
       "query"
     = Some (VStr "SELECT * FROM orders WHERE tenant_id = '550e8400-e29b-41d4-a716-446655440000'").
Proof.
  destruct (query_through_connection default_config (Some Sample.uuid) sample_tenant
              "SELECT * FROM orders" (VArr []) eq_refl) as (P & _ & Q).
  split; [exact P|].
  destruct (Q eq_refl) as (s & E & _ & A). injection E as <-.
  exact (A eq_refl eq_refl eq_refl).
Defined.

End TenantProperties.


Section FilterTwice.
Import TenantIsolation.

Lemma map_app (f : ascii -> ascii) (s t : string) :
  Str.map f (s ++ t) = Str.map f s ++ Str.map f t.
Proof. induction s as [|c r IH]; simpl; [reflexivity | rewrite IH; reflexivity]. Qed.

Lemma map_length (f : ascii -> ascii) (s : string) :
  String.length (Str.map f s) = String.length s.
Proof. induction s as [|c r IH]; simpl; [reflexivity | rewrite IH; reflexivity]. Qed.

Lemma startsWith_length (p s : string) :
  Str.startsWith p s = true -> (String.length p <= String.length s)%nat.
Proof.
  revert s. induction p as [|a p IH]; intros [|b s]; simpl; intros H;
    try discriminate; try lia.
  apply andb_true_iff in H as [_ H]. specialize (IH s H). lia.
Qed.

Lemma startsWith_self (p rest : string) : Str.startsWith p (p ++ rest) = true.
Proof.
  induction p as [|a p IH]; simpl; [reflexivity|].
  rewrite Ascii.eqb_refl, IH. reflexivity.
Qed.

(** Only the first characters of a text decide whether it starts with a
    pattern. *)
Lemma startsWith_take_app (p s rest : string) (n : nat) :
  (String.length p <= n)%nat -> (n <= String.length s)%nat ->
  Str.startsWith p (Str.take n s ++ rest) = Str.startsWith p s.
Proof.
  revert s n. induction p as [|a p IH]; intros s n Lp Ls; [reflexivity|].
  destruct n as [|n]; simpl in Lp; [lia|].
  destruct s as [|b s]; simpl in Ls; [lia|]. simpl.
  rewrite (IH s n); [reflexivity | lia | lia].
Qed.

Lemma indexOf_bound (p s : string) (i : nat) :
  Str.indexOf p s = Some i -> (i + String.length p <= String.length s)%nat.
Proof.
  revert i. induction s as [|c r IH]; intros i; simpl.
  - destruct (Str.startsWith p EmptyString) eqn:E; [|discriminate].
    intros [= <-]. apply startsWith_length in E. simpl in *. lia.
  - destruct (Str.startsWith p (String c r)) eqn:E.
    + intros [= <-]. apply startsWith_length in E. simpl in *. lia.
    + destruct (Str.indexOf p r) as [j|]; [|discriminate].
      intros [= <-]. specialize (IH j eq_refl). lia.
Qed.

(** The first occurrence of a pattern stays the first one whatever follows
    it. *)
Lemma indexOf_prefix (p s rest : string) (i : nat) :
  Str.indexOf p s = Some i ->
  Str.indexOf p (Str.take (i + String.length p) s ++ rest) = Some i.
Proof.
  revert i. induction s as [|c r IH]; intros i H.
  - pose proof (indexOf_bound _ _ _ H) as B. simpl in B.
    assert (i = 0%nat) by lia. assert (String.length p = 0%nat) by lia.
    subst i. destruct p; [|discriminate]. destruct rest; reflexivity.
  - pose proof (indexOf_bound _ _ _ H) as B.
    cbn [Str.indexOf] in H.
    destruct (Str.startsWith p (String c r)) eqn:E.
    + injection H as <-. cbn [Nat.add].
      rewrite (startsWith_take p _ E).
      destruct p as [|a p]; [destruct rest; reflexivity|].
      cbn [append Str.indexOf]. change (String a (p ++ rest)) with (String a p ++ rest).
      rewrite startsWith_self. reflexivity.
    + destruct (Str.indexOf p r) as [j|] eqn:J; [|discriminate].
      injection H as <-. cbn [Nat.add Str.take append Str.indexOf].
      change (String c (Str.take (j + String.length p) r ++ rest))
        with (Str.take (S (j + String.length p)) (String c r) ++ rest).
      rewrite startsWith_take_app, E; [|lia|exact B].
      cbn [Str.take append]. rewrite (IH j eq_refl). reflexivity.
Qed.

Lemma take_add (i j : nat) (s : string) :
  Str.take i s ++ Str.take j (Str.drop i s) = Str.take (i + j) s.
Proof.
  revert s. induction i as [|i IH]; intros s; [reflexivity|].
  destruct s as [|c r]; simpl.
  - destruct j; reflexivity.
  - rewrite IH. reflexivity.
Qed.

Lemma length_take (i : nat) (s : string) :
  (i <= String.length s)%nat -> String.length (Str.take i s) = i.
Proof.
  revert s. induction i as [|i IH]; intros [|c r]; simpl; intros L;
    try reflexivity; try lia.
  rewrite IH; [reflexivity | lia].
Qed.

Lemma take_app_exact (x y : string) : Str.take (String.length x) (x ++ y) = x.
Proof. induction x as [|c r IH]; simpl; [reflexivity | rewrite IH; reflexivity]. Qed.

Lemma drop_app_exact (x y : string) (n : nat) :
  Str.drop (String.length x + n) (x ++ y) = Str.drop n y.
Proof. induction x as [|c r IH]; simpl; [reflexivity | exact IH]. Qed.

(** X9: the filter is not idempotent.  Filtering an already filtered query
    that held [where] puts the tenant predicate in a second time, at the
    same place. *)
Theorem filter_twice_repeats_predicate (sql tid : string) (i : nat) :
  tid <> EmptyString ->
  Str.forallb not_dollar tid = true ->
  Str.indexOf "where" (Str.toLowerCase sql) = Some i ->
  addTenantFilter (addTenantFilter sql (Some tid)) (Some tid)
  = Str.take i sql ++ "WHERE tenant_id = '" ++ tid ++ "' AND tenant_id = '" ++ tid
    ++ "' AND" ++ Str.drop (i + 5) sql
  /\ addTenantFilter (addTenantFilter sql (Some tid)) (Some tid)
     <> addTenantFilter sql (Some tid).
Proof.
  intros Hne Hd I.
  pose proof (indexOf_bound _ _ _ I) as B.
  unfold Str.toLowerCase in B. rewrite map_length in B. simpl in B.
  assert (Li : String.length (Str.take i sql) = i) by (apply length_take; lia).
  rewrite (filter_at_where sql tid i Hne Hd I).
  set (rest := " tenant_id = '" ++ tid ++ "' AND" ++ Str.drop (i + 5) sql).
  assert (Out : Str.take i sql ++ "WHERE tenant_id = '" ++ tid ++ "' AND"
                ++ Str.drop (i + 5) sql
                = Str.take i sql ++ "WHERE" ++ rest) by reflexivity.
  rewrite Out.
  assert (I2 : Str.indexOf "where" (Str.toLowerCase (Str.take i sql ++ "WHERE" ++ rest))
               = Some i).
  { unfold Str.toLowerCase in *. rewrite !map_app, map_take.
    change (Str.map Str.lower_char "WHERE") with "where".
    pose proof (startsWith_take "where" _ (indexOf_startsWith _ _ _ I)) as W5.
    pose proof (take_add i 5 (Str.map Str.lower_char sql)) as TA.
    simpl String.length in W5. rewrite W5 in TA.
    rewrite <- append_assoc, TA.
    exact (indexOf_prefix "where" _ _ i I). }
  rewrite (filter_at_where _ tid i Hne Hd I2).
  assert (T : Str.take i (Str.take i sql ++ "WHERE" ++ rest) = Str.take i sql).
  { rewrite <- Li at 1. apply take_app_exact. }
  assert (D : Str.drop (i + 5) (Str.take i sql ++ "WHERE" ++ rest) = rest).
  { rewrite <- Li at 1. rewrite drop_app_exact. reflexivity. }
  rewrite T, D. unfold rest.
  split.
  - reflexivity.
  - intros X.
    assert (Lx := f_equal String.length X).
    repeat (progress (rewrite ?length_append in Lx; cbn [String.length] in Lx)).
    lia.
Qed.

Lemma filter_twice_repeats_predicate_witness :
  addTenantFilter
    (addTenantFilter "SELECT * FROM orders WHERE status = 'open'" (Some Sample.uuid))
    (Some Sample.uuid)
  = "SELECT * FROM orders WHERE tenant_id = '550e8400-e29b-41d4-a716-446655440000' AND tenant_id = '550e8400-e29b-41d4-a716-446655440000' AND status = 'open'".
Proof.
  exact (proj1 (filter_twice_repeats_predicate
                  "SELECT * FROM orders WHERE status = 'open'" Sample.uuid 21
                  ltac:(discriminate) eq_refl eq_refl)).
Defined.

End FilterTwice.


(* ================================================================== *)
(** * Further properties of the tenant service calls *)

Section TenantService.
Import TenantConnection.

Lemma ok_range (status : Z) :
  ok status = true <-> (200 <= status < 300)%Z.
Proof. unfold ok. rewrite andb_true_iff, Z.leb_le, Z.ltb_lt. tauto. Qed.

(** X10: access is granted only on positive evidence.  The check answers
    [true] exactly when the tenant service replied to the validation request
    with a 2xx status and a JSON body whose [valid] is the boolean [true];
    no reply, another status, an unreadable body and any other value of
    [valid] all give [false]. *)
Theorem tenant_access_fail_closed (fetch : fetch_request -> fetched)
                                  (tenantId : string) (resource action : value) :
  validateTenantAccess fetch tenantId resource action = true
  <-> exists status text result,
        fetch (access_request tenantId resource action)
        = Response status text (inr result)
        /\ (200 <= status < 300)%Z
        /\ get result "valid" = VBool true.
Proof.
  unfold validateTenantAccess.
  change (fetch _) with (fetch (access_request tenantId resource action)) at 1.
  fold (access_request tenantId resource action).
  destruct (fetch (access_request tenantId resource action))
    as [reason | status text [msg | result]].
  - split; [discriminate | intros (? & ? & ? & E & _); discriminate].
  - destruct (ok status); simpl;
      (split; [discriminate | intros (? & ? & ? & E & _); discriminate]).
  - destruct (ok status) eqn:O; simpl.
    + apply ok_range in O. split.
      * intros H. exists status, text, result. split; [reflexivity|]. split; [exact O|].
        destruct result; try discriminate;
          (destruct (get _ "valid") as [| | [] | | | | |]; try discriminate; reflexivity).
      * intros (st & tx & r & E & _ & V). injection E as <- <- <-.
        destruct result; try (vm_compute in V; discriminate); rewrite V; reflexivity.
    + split; [discriminate|].
      intros (st & tx & r & E & R & _). injection E as <- <- <-.
      apply ok_range in R. congruence.
Qed.

Lemma tenant_access_fail_closed_witness :
  validateTenantAccess granting_service Sample.uuid (VStr "workflows") VUndefined = true
  /\ validateTenantAccess kenyan_service Sample.uuid (VStr "workflows") VUndefined
     = false.
Proof.
  split.
  - apply (proj2 (tenant_access_fail_closed granting_service Sample.uuid
                    (VStr "workflows") VUndefined)).
    exists 200%Z, "OK", (obj [ Field "valid" (VBool true) ]).
    split; [reflexivity|]. split; [lia | reflexivity].
  - destruct (validateTenantAccess kenyan_service Sample.uuid (VStr "workflows")
                VUndefined) eqn:E; [|reflexivity].
    apply (proj1 (tenant_access_fail_closed kenyan_service Sample.uuid
                    (VStr "workflows") VUndefined)) in E.
    destruct E as (st & tx & r & E & _ & V). injection E as <- <- <-. discriminate V.
Defined.

(** X11: the configuration of a tenant is [null] when the service does not
    reply, replies with a status outside 2xx or with an unreadable body.
    Otherwise it is an object whose id and name are the ones of the reply and
    whose region, currency, timezone, languages, subscription tier and limits
    are never missing or empty: each is the value of the reply when that is
    truthy and the built-in default when it is not. *)
Theorem tenant_config_defaults (fetch : fetch_request -> fetched)
                               (tenantId : string) :
  (forall reason, fetch (config_request tenantId) = Unreachable reason ->
     getTenantConfig fetch tenantId = VNull)
  /\ (forall status text json,
        fetch (config_request tenantId) = Response status text json ->
        ~ (200 <= status < 300)%Z ->
        getTenantConfig fetch tenantId = VNull)
  /\ (forall status text msg,
        fetch (config_request tenantId) = Response status text (inl msg) ->
        getTenantConfig fetch tenantId = VNull)
  /\ (forall status text,
        fetch (config_request tenantId) = Response status text (inr VNull) ->
        getTenantConfig fetch tenantId = VNull)
  /\ (forall status text tenant,
        fetch (config_request tenantId) = Response status text (inr tenant) ->
        (200 <= status < 300)%Z ->
        tenant <> VNull -> tenant <> VUndefined ->
        let r := getTenantConfig fetch tenantId in
        get r "id" = get tenant "id"
        /\ get r "name" = get tenant "name"
        /\ forall k d, In (k, d) config_defaults ->
             truthy (get r k) = true
             /\ (truthy (get tenant k) = true -> get r k = get tenant k)
             /\ (truthy (get tenant k) = false -> get r k = d)).
Proof.
  unfold getTenantConfig, config_request.
  split; [|split; [|split; [|split]]].
  - intros reason ->. reflexivity.
  - intros status text json -> N.
    destruct (ok status) eqn:O; [apply ok_range in O; contradiction | reflexivity].
  - intros status text msg ->. destruct (ok status); reflexivity.
  - intros status text ->. destruct (ok status); reflexivity.
  - intros status text tenant0 -> R NN NU. apply ok_range in R. rewrite R.
    simpl negb. cbv iota.
    assert (E : forall body : value,
               match tenant0 with VUndefined | VNull => VNull | _ => body end = body)
      by (intros body; destruct tenant0; congruence).
    rewrite E. clear E. set (tenant := tenant0).
    split; [reflexivity|]. split; [reflexivity|].
    intros k d K. simpl in K.
    repeat (destruct K as [K | K]; [injection K as <- <-|]); try contradiction;
      (match goal with
       | |- truthy (get ?o ?key) = true /\ _ /\ (_ -> _ = ?dflt) =>
           change (get o key) with (or (get tenant key) dflt)
       end);
      unfold or; destruct (truthy (get tenant _)) eqn:T.
    all: repeat split; try reflexivity; try discriminate; try exact T.
Qed.

Lemma tenant_config_defaults_witness :
  get (getTenantConfig kenyan_service Sample.uuid) "currency" = VStr "KES"
  /\ get (getTenantConfig kenyan_service Sample.uuid) "region" = VStr "africa-west".
Proof.
  destruct (tenant_config_defaults kenyan_service Sample.uuid) as (_ & _ & _ & _ & H).
  specialize (H 200%Z "OK" _ eq_refl ltac:(lia) ltac:(discriminate)
                ltac:(discriminate)).
  cbv zeta in H.
  destruct H as (_ & _ & H). split.
  - exact (proj1 (proj2 (H "currency" (VStr "NGN") ltac:(simpl; tauto))) eq_refl).
  - exact (proj2 (proj2 (H "region" (VStr "africa-west") ltac:(simpl; tauto))) eq_refl).
Defined.

End TenantService.


(* ================================================================== *)
(** * Further properties of sanitizeInput *)

Section SanitizeFacts.

Lemma of_lu_nat_N (d : Decimal.uint) :
  N.of_nat (DecimalNat.Unsigned.of_lu d) = DecimalPos.Unsigned.of_lu d.
Proof.
  induction d; cbn [DecimalNat.Unsigned.of_lu DecimalPos.Unsigned.of_lu];
    try rewrite <- IHd; lia.
Qed.

Lemma of_uint_of_nat (i : nat) : N.of_uint (Nat.to_uint i) = N.of_nat i.
Proof.
  unfold N.of_uint.
  rewrite DecimalPos.Unsigned.of_uint_alt, <- of_lu_nat_N,
          <- DecimalNat.Unsigned.of_uint_alt, DecimalNat.Unsigned.of_to.
  reflexivity.
Qed.

Lemma to_uint_of_nat (i : nat) : N.to_uint (N.of_nat i) = Nat.to_uint i.
Proof.
  rewrite <- of_uint_of_nat, DecimalN.Unsigned.to_of.
  rewrite <- (DecimalNat.Unsigned.of_to i) at 2.
  rewrite DecimalNat.Unsigned.to_of. reflexivity.
Qed.

(** The decimal text of a number is an array index when the number is below
    2^32 - 1. *)
Lemma array_index_of_nat (i : nat) :
  array_index (Str.of_nat i)
  = if (N.of_nat i <? 4294967295)%N then Some (N.of_nat i) else None.
Proof.
  unfold array_index, Str.of_nat.
  rewrite NilEmpty.usu, of_uint_of_nat, to_uint_of_nat, String.eqb_refl.
  reflexivity.
Qed.

Lemma of_nat_injective (i j : nat) : Str.of_nat i = Str.of_nat j -> i = j.
Proof.
  unfold Str.of_nat. intros E.
  apply (f_equal NilEmpty.uint_of_string) in E. rewrite !NilEmpty.usu in E.
  injection E as E. apply DecimalNat.Unsigned.to_uint_inj, E.
Qed.

Lemma filter_all (f : ascii -> bool) (s : string) :
  Str.forallb f s = true -> Str.filter f s = s.
Proof.
  induction s as [|c r IH]; simpl; [reflexivity|].
  intros H. apply andb_true_iff in H as [Hc Hr]. rewrite Hc, (IH Hr). reflexivity.
Qed.

Lemma filter_forallb (f : ascii -> bool) (s : string) :
  Str.forallb f (Str.filter f s) = true.
Proof.
  induction s as [|c r IH]; simpl; [reflexivity|].
  destruct (f c) eqn:E; simpl; [rewrite E|]; exact IH.
Qed.

Lemma digit_not_dangerous (c : ascii) :
  Str.is_digit c = true -> negb (dangerous c) = true.
Proof.
  destruct c as [[] [] [] [] [] [] [] []]; vm_compute; try reflexivity; discriminate.
Qed.

Lemma strip_of_nat (i : nat) : strip (Str.of_nat i) = Str.of_nat i.
Proof.
  apply filter_all.
  refine (forallb_weaken _ _ _ digit_not_dangerous _). apply digits_of_uint.
Qed.

Lemma indices_settled (n a : nat) : settled (List.map Str.of_nat (seq a n)).
Proof.
  revert a. induction n as [|n IH]; intros a; simpl; [exact I|].
  split; [|apply IH].
  apply Forall_forall. intros k Hk.
  apply in_map_iff in Hk as (j & <- & Hj). apply in_seq in Hj.
  split.
  - intros E. apply of_nat_injective in E. lia.
  - unfold goes_before. rewrite !array_index_of_nat.
    destruct (N.of_nat j <? 4294967295)%N eqn:Bj; [|reflexivity].
    apply N.ltb_lt in Bj.
    assert (Ba : (N.of_nat a <? 4294967295)%N = true) by (apply N.ltb_lt; lia).
    rewrite Ba. apply N.ltb_ge. lia.
Qed.

Lemma fst_combine (A B : Type) (l1 : list A) (l2 : list B) :
  length l1 = length l2 -> List.map fst (combine l1 l2) = l1.
Proof.
  revert l2. induction l1 as [|a l1 IH]; intros [|b l2]; simpl; intros H;
    try reflexivity; try discriminate.
  rewrite IH; [reflexivity | lia].
Qed.

Local Abbreviation safe := (fun c : ascii => negb (dangerous c)).
Local Abbreviation safe_entry :=
  (fun kv : string * value => Str.forallb safe (fst kv) && harmless (snd kv)).

Lemma harmless_replace_value (k : string) (v : value) (ps : list (string * value)) :
  harmless v = true -> forallb safe_entry ps = true ->
  forallb safe_entry (replace_value k v ps) = true.
Proof.
  intros Hv. induction ps as [|[k' v'] r IH]; simpl; [reflexivity|].
  intros H. apply andb_true_iff in H as [H1 H2].
  apply andb_true_iff in H1 as [Hk Hv'].
  destruct (String.eqb k k'); simpl; rewrite Hk.
  - rewrite Hv, H2. reflexivity.
  - rewrite Hv', (IH H2). reflexivity.
Qed.

Lemma harmless_insert_new (k : string) (v : value) (ps : list (string * value)) :
  Str.forallb safe k = true -> harmless v = true ->
  forallb safe_entry ps = true ->
  forallb safe_entry (insert_new k v ps) = true.
Proof.
  intros Hk Hv. induction ps as [|[k' v'] r IH]; simpl.
  - intros _. rewrite Hk, Hv. reflexivity.
  - intros H. destruct (goes_before k k'); simpl.
    + rewrite Hk, Hv. exact H.
    + apply andb_true_iff in H as [H1 H2]. rewrite H1, (IH H2). reflexivity.
Qed.

Lemma harmless_set_prop (k : string) (v : value) (o : object) :
  Str.forallb safe k = true -> harmless v = true ->
  harmless (of_object o) = true ->
  harmless (of_object (set_prop k v o)) = true.
Proof.
  intros Hk Hv. destruct o as [p ps]. unfold of_object, set_prop.
  cbn [fst snd harmless]. intros H. apply andb_true_iff in H as [Hp Hps].
  destruct (has_key k ps).
  - cbn [fst snd harmless]. rewrite Hp, (harmless_replace_value k v ps Hv Hps).
    reflexivity.
  - destruct (String.eqb k "__proto__" && proto_setter_reachable p).
    + destruct v as [| | | | | [|name] | |]; cbn [fst snd harmless] in *;
        rewrite ?Hp, ?Hps, ?Hv; reflexivity.
    + cbn [fst snd harmless].
      rewrite Hp, (harmless_insert_new k v ps Hk Hv Hps). reflexivity.
Qed.

Lemma harmless_assign (es : list (string * value)) (o : object) :
  forallb safe_entry es = true ->
  harmless (of_object o) = true ->
  harmless
    (of_object (fold_left (fun acc kv => set_prop (fst kv) (snd kv) acc) es o)) = true.
Proof.
  revert o. induction es as [|[k v] r IH]; intros o; cbn [fold_left forallb fst snd];
    [intros _ H; exact H|].
  intros H Ho. apply andb_true_iff in H as [H1 H2].
  apply andb_true_iff in H1 as [Hk Hv].
  apply IH; [exact H2|]. apply harmless_set_prop; assumption.
Qed.

Lemma sanitized_harmless (v : value) : harmless (sanitizeInput v) = true.
Proof.
  induction v as [| | | | s | b | elems IH | proto ps IH] using value_induction;
    cbn [sanitizeInput]; try reflexivity.
  - apply filter_forallb.
  - destruct b; reflexivity.
  - apply harmless_assign; [|reflexivity].
    apply forallb_forall. intros [k x] Hin. cbn [fst snd].
    pose proof (in_combine_l _ _ _ _ Hin) as Hk.
    pose proof (in_combine_r _ _ _ _ Hin) as Hx.
    apply in_map_iff in Hk as (i & <- & _).
    apply in_map_iff in Hx as (y & <- & Hy).
    rewrite Forall_forall in IH.
    unfold strip at 1. rewrite filter_forallb, (IH y Hy). reflexivity.
  - apply harmless_assign; [|reflexivity].
    apply forallb_forall. intros [k x] Hin. cbn [fst snd].
    apply in_map_iff in Hin as ([k0 x0] & [= <- <-] & Hin).
    rewrite Forall_forall in IH.
    unfold strip at 1. rewrite filter_forallb. exact (IH _ Hin).
Qed.

Lemma sanitized_array (elems : list value) :
  sanitizeInput (VArr elems)
  = VObj ObjectPrototype
      (combine (List.map Str.of_nat (seq 0 (length elems)))
               (List.map sanitizeInput elems)).
Proof.
  cbn [sanitizeInput]. unfold assign_all, empty_object.
  assert (K : List.map (fun i => strip (Str.of_nat i)) (seq 0 (length elems))
              = List.map Str.of_nat (seq 0 (length elems))).
  { apply map_ext. intros i. apply strip_of_nat. }
  rewrite K.
  rewrite (assign_settled _ []).
  - reflexivity.
  - simpl app. rewrite fst_combine.
    + apply indices_settled.
    + rewrite !length_map, length_seq. reflexivity.
  - apply Forall_forall. intros [k x] Hin. simpl.
    apply in_combine_l in Hin. apply in_map_iff in Hin as (i & <- & _).
    rewrite <- strip_of_nat. apply index_key_not_proto.
Qed.

End SanitizeFacts.

Section SanitizeProperties.

(** X12: whatever the input, the value sanitizeInput returns holds none of
    the blacklisted characters: not in a string, not in a property name, at
    any depth, and not in an object the result inherits from. *)
Theorem sanitize_removes_blacklist (v : value) :
  harmless (sanitizeInput v) = true.
Proof. exact (sanitized_harmless v). Qed.

(** X13: an array does not stay an array.  It comes back as a plain object
    whose keys are the decimal indices, in order, and whose values are the
    sanitized elements; the empty array comes back as the empty object. *)
Theorem sanitize_array_becomes_object (elems : list value) :
  sanitizeInput (VArr elems)
  = VObj ObjectPrototype
      (combine (List.map Str.of_nat (seq 0 (length elems)))
               (List.map sanitizeInput elems))
  /\ (forall i, (i < length elems)%nat ->
      get (sanitizeInput (VArr elems)) (Str.of_nat i)
      = sanitizeInput (nth i elems VUndefined)).
Proof.
  split; [apply sanitized_array|].
  intros i Hi. rewrite sanitized_array. cbn [get].
  assert (L : forall (vs : list value) (a : nat), (i < length vs)%nat ->
              lookup (Str.of_nat (a + i))
                (combine (List.map Str.of_nat (seq a (length vs)))
                         (List.map sanitizeInput vs))
              = Some (sanitizeInput (nth i vs VUndefined))).
  { clear. induction i as [|i IH]; intros [|x r] a H; simpl in H; try lia.
    - simpl. rewrite Nat.add_0_r, String.eqb_refl. reflexivity.
    - cbn [length seq List.map combine lookup nth].
      destruct (String.eqb (Str.of_nat (a + S i)) (Str.of_nat a)) eqn:E.
      + apply String.eqb_eq, of_nat_injective in E. lia.
      + replace (a + S i)%nat with (S a + i)%nat by lia. apply IH. lia. }
  pose proof (L elems 0%nat Hi) as L0. cbn [Nat.add] in L0.
  rewrite L0. reflexivity.
Qed.

Lemma sanitize_array_becomes_object_witness :
  get (sanitizeInput markup_sample) "0" = VStr "scriptalertx/script".
Proof.
  exact (proj2 (sanitize_array_becomes_object
                  [ VStr "<script>alert('x')</script>";
                    VObj ObjectPrototype
                      [ ("on(load)", VStr "a&b"); ("__proto__%", VArr [VStr "50%"]) ] ])
               0%nat ltac:(simpl; lia)).
Defined.

End SanitizeProperties.


(* ================================================================== *)
(** * Further properties of the nodes *)

Section SupervisorNode.
Variable rt : runtime.

Lemma supervisor_failure_fields (nd : Supervisor.node_data) (e : js_error) :
  field (Supervisor.failure rt nd e) "success" = Some (VBool false)
  /\ field (Supervisor.failure rt nd e) "error" = Some (VStr (message e))
  /\ field (Supervisor.failure rt nd e) "error_code" = Some (error_code e)
  /\ field (Supervisor.failure rt nd e) "escalation_required" = Some (VBool true).
Proof. repeat split. Qed.

Lemma supervisor_guard_failure_is_thrown (nd : Supervisor.node_data) (n : nat) :
  supervisor_guards nd = false ->
  exists e, Supervisor.init rt nd n = (Throw e, n)
            /\ name e = "Error" /\ response e = None.
Proof.
  unfold supervisor_guards, Supervisor.init. intros G.
  destruct (present (Supervisor.tenantId nd)); [|eexists; repeat split].
  destruct (present (Supervisor.workflowConfig nd)); [|eexists; repeat split].
  simpl in G. rewrite G. eexists; repeat split.
Qed.

Lemma supervisor_init_returns (nd : Supervisor.node_data) (n : nat) :
  supervisor_guards nd = true ->
  exists env n',
    Supervisor.init rt nd n = (Return env, n') /\ (n' <= S n)%nat
    /\ field env "success" = Some (VBool (supervisor_succeeds rt nd n))
    /\ (supervisor_succeeds rt nd n = false ->
        exists e, env = Supervisor.failure rt nd e)
    /\ (supervisor_succeeds rt nd n = true ->
        n' = S n /\ field env "escalation_required" = None).
Proof.
  unfold supervisor_guards, supervisor_succeeds. intros G.
  apply andb_true_iff in G as [G G3]. apply andb_true_iff in G as [G1 G2].
  unfold Supervisor.init. rewrite G1, G2, G3.
  cbv beta iota zeta delta [negb try_catch bind json_parse ret throw axios_post].
  unfold is_2xx.
  destruct (JSON_parse rt (str_or (Supervisor.workflowConfig nd) "{}")) as [msg|config].
  { do 2 eexists. split; [reflexivity|]. repeat split; eauto; discriminate. }
  destruct (JSON_parse rt (str_or (Supervisor.supervisionContext nd) "{}"))
    as [msg|context].
  { do 2 eexists. split; [reflexivity|]. repeat split; eauto; discriminate. }
  destruct (JSON_parse rt (str_or (Supervisor.qualityThresholds nd) "{}"))
    as [msg|thresholds].
  { do 2 eexists. split; [reflexivity|]. repeat split; eauto; discriminate. }
  destruct (JSON_parse rt (str_or (Supervisor.escalationRules nd) "{}"))
    as [msg|escalation].
  { do 2 eexists. split; [reflexivity|]. repeat split; eauto; discriminate. }
  destruct (JSON_parse rt (str_or (Supervisor.marketConfig nd) "{}")) as [msg|cfg].
  { do 2 eexists. split; [reflexivity|]. repeat split; eauto; discriminate. }
  destruct (backend rt n
              (Supervisor.outbound rt nd config context thresholds escalation cfg))
    as [r|reason].
  2:{ do 2 eexists. split; [reflexivity|]. repeat split; eauto; discriminate. }
  destruct ((200 <=? status r)%Z && (status r <? 300)%Z).
  - destruct (data r) eqn:D; simpl;
      (do 2 eexists; split; [reflexivity|]; repeat split; eauto; discriminate).
  - do 2 eexists. split; [reflexivity|]. repeat split; eauto; discriminate.
Qed.

End SupervisorNode.

Section SupervisorProperties.

(** X14: SMEFlowSupervisor.init raises an Error, without calling out, when a
    guard fails.  Once the guards have passed it always returns an object
    and calls out at most once: [success] is true exactly when the five JSON
    inputs parsed and the backend answered 2xx with a readable body, and
    then no escalation flag is set; in every other case [success] is false,
    [escalation_required] is true and [error_code] is populated. *)
Theorem supervisor_envelope (rt : runtime) (nd : Supervisor.node_data) (n : nat) :
  (supervisor_guards nd = false ->
   exists e, Supervisor.init rt nd n = (Throw e, n) /\ name e = "Error")
  /\ (supervisor_guards nd = true ->
      exists env n',
        Supervisor.init rt nd n = (Return env, n') /\ (n' <= S n)%nat
        /\ field env "success" = Some (VBool (supervisor_succeeds rt nd n))
        /\ (supervisor_succeeds rt nd n = false ->
            field env "escalation_required" = Some (VBool true)
            /\ exists msg code,
                 field env "error" = Some (VStr msg)
                 /\ field env "error_code" = Some code /\ truthy code = true)
        /\ (supervisor_succeeds rt nd n = true ->
            n' = S n /\ field env "escalation_required" = None)).
Proof.
  split.
  - intros G. destruct (supervisor_guard_failure_is_thrown rt nd n G) as (e & E & N & _).
    exists e. split; assumption.
  - intros G.
    destruct (supervisor_init_returns rt nd n G) as (env & n' & E & L & S & F & T).
    exists env, n'. repeat split; auto.
    + destruct (F H) as (e & ->). reflexivity.
    + destruct (F H) as (e & ->). exists (message e), (error_code e).
      repeat split. apply error_code_truthy.
    + apply T, H.
    + apply T, H.
Qed.

Lemma supervisor_envelope_witness :
  exists env n',
    Supervisor.init (Sample.host Sample.flaky) sample_supervisor 0%nat = (Return env, n')
    /\ (n' <= 1)%nat
    /\ field env "success"
       = Some (VBool (supervisor_succeeds (Sample.host Sample.flaky) sample_supervisor 0%nat)).
Proof.
  destruct (proj2 (supervisor_envelope (Sample.host Sample.flaky) sample_supervisor 0%nat)
              eq_refl) as (env & n' & E & L & S & _).
  exists env, n'. repeat split; assumption.
Defined.

(** X15: the validator and the node disagree on supervisor inputs.  With a
    valid tenant id and API URL, inputs that give an agent coordination and
    no workflow configuration pass validateNodeInputs without an error,
    while SMEFlowSupervisor.init on a node configured the same way raises
    the Error that the workflow configuration is required. *)
Theorem supervisor_validator_and_node_disagree
    (rt : runtime) (tenantId apiUrl : string) (agentCoordination : value) (n : nat) :
  Uuid.uuidValidate tenantId = true ->
  apiUrl <> EmptyString -> URL_valid rt apiUrl = true ->
  truthy agentCoordination = true ->
  Validation.validateNodeInputs rt
    (coordination_inputs tenantId apiUrl agentCoordination) "supervisor"
  = {| Validation.valid := true;
       Validation.errors := [];
       Validation.warnings := [];
       Validation.sanitized_tenantId := Some (Str.toLowerCase tenantId) |}
  /\ Supervisor.init rt (coordination_node tenantId apiUrl) n
     = (Throw (error "Error" "Workflow Configuration is required for supervision"), n).
Proof.
  intros V Hu U C.
  assert (Ht : String.eqb tenantId EmptyString = false).
  { destruct tenantId; [discriminate V | reflexivity]. }
  apply String.eqb_neq in Hu.
  split.
  - unfold Validation.validateNodeInputs, Validation.validateSupervisorInputs,
      Validation.validateTenantId, Validation.validateApiConfig, coordination_inputs.
    simpl. rewrite Ht, V, Hu, U, C. reflexivity.
  - unfold Supervisor.init, coordination_node. simpl. rewrite Ht. reflexivity.
Qed.

Lemma supervisor_validator_and_node_disagree_witness :
  Validation.valid
    (Validation.validateNodeInputs (Sample.host Sample.flaky)
       (coordination_inputs Sample.uuid "http://smeflow:8000" (VStr "round_robin"))
       "supervisor") = true
  /\ Supervisor.init (Sample.host Sample.flaky)
       (coordination_node Sample.uuid "http://smeflow:8000") 0%nat
     = (Throw (error "Error" "Workflow Configuration is required for supervision"), 0%nat).
Proof.
  destruct (supervisor_validator_and_node_disagree (Sample.host Sample.flaky)
              Sample.uuid "http://smeflow:8000" (VStr "round_robin") 0%nat
              eq_refl ltac:(discriminate) eq_refl eq_refl) as [A B].
  split; [rewrite A; reflexivity | exact B].
Defined.

End SupervisorProperties.


Section ExecutorProperties.



(** X17: where the workflow executor sends its request.  The type [custom]
    goes to [/flowise/execute]; each of the eight template types goes to its
    template path, and a missing type counts as [consulting]; any other type
    that is not the name of a member of Object.prototype goes to
    [/langgraph/workflows].  The base is the configured API URL or
    [http://smeflow:8000]. *)
Theorem executor_endpoint_routing
    (rt : runtime) (nd : WorkflowExecutor.node_data)
    (tenantId pin pctx fcfg prules : value) :
  let req := WorkflowExecutor.outbound rt nd tenantId pin pctx fcfg prules in
  let base := str_or (WorkflowExecutor.apiUrl nd) "http://smeflow:8000" in
  (WorkflowExecutor.workflowType nd = Some "custom" ->
   url req = base ++ "/flowise/execute")
  /\ (forall wt path,
        In (wt, path) known_endpoints ->
        WorkflowExecutor.workflowType nd = Some wt ->
        url req = base ++ path)
  /\ (present (WorkflowExecutor.workflowType nd) = false ->
      url req = base ++ "/langgraph/templates/consulting")
  /\ (forall wt,
        WorkflowExecutor.workflowType nd = Some wt ->
        wt <> EmptyString -> wt <> "custom" ->
        mem_string wt (List.map fst known_endpoints) = false ->
        mem_string wt object_prototype_members = false ->
        url req = base ++ "/langgraph/workflows").
Proof.
  intros req base. unfold req, base, WorkflowExecutor.outbound. cbn [url].
  split; [|split; [|split]].
  - intros ->. reflexivity.
  - intros wt path K ->. simpl in K.
    repeat (destruct K as [K | K]; [injection K as <- <-; reflexivity|]).
    contradiction.
  - intros P. destruct (WorkflowExecutor.workflowType nd) as [wt|]; [|reflexivity].
    simpl in P. apply negb_false_iff, String.eqb_eq in P. subst wt. reflexivity.
  - intros wt -> Hne Hc K P.
    apply String.eqb_neq in Hne. apply String.eqb_neq in Hc.
    cbn [str_or]. rewrite Hne, Hc. f_equal.
    unfold mem_string, known_endpoints, object_prototype_members in K, P.
    simpl existsb in K, P.
    repeat (apply orb_false_iff in K; destruct K as [? K]).
    repeat (apply orb_false_iff in P; destruct P as [? P]).
    unfold WorkflowExecutor.endpoint_path.
    let em := eval vm_compute in WorkflowExecutor.endpointMap in
    change WorkflowExecutor.endpointMap with em.
    unfold get at 1.
    cbv beta iota delta [lookup inherited mem_string object_prototype_members
                         existsb proto_setter_reachable].
    repeat match goal with H : String.eqb wt _ = false |- _ => rewrite H; clear H end.
    reflexivity.
Qed.

Lemma executor_endpoint_routing_witness :
  url (WorkflowExecutor.outbound (Sample.host Sample.flaky) Sample.executor
         (VStr Sample.uuid) (obj []) (obj []) (obj []) (obj []))
  = "http://smeflow:8000/langgraph/templates/salon-spa"
  /\ url (WorkflowExecutor.outbound (Sample.host Sample.flaky)
            (with_workflow_type "payroll")
            (VStr Sample.uuid) (obj []) (obj []) (obj []) (obj []))
     = "http://smeflow:8000/langgraph/workflows".
Proof.
  split.
  - refine (proj1 (proj2 (executor_endpoint_routing (Sample.host Sample.flaky)
                            Sample.executor (VStr Sample.uuid) (obj []) (obj [])
                            (obj []) (obj [])))
              "salon_spa" "/langgraph/templates/salon-spa" _ eq_refl).
    simpl. tauto.
  - refine (proj2 (proj2 (proj2 (executor_endpoint_routing (Sample.host Sample.flaky)
                                   (with_workflow_type "payroll") (VStr Sample.uuid)
                                   (obj []) (obj []) (obj []) (obj []))))
              "payroll" eq_refl _ _ eq_refl eq_refl); discriminate.
Defined.

End ExecutorProperties.


Section ChainedNodes.

(** X18: a failure of the tenant manager does not stop the chain.  The
    object SMEFlowTenantManager.init returns has [success: false] and still
    carries the tenant id; an automator or a workflow executor wired to it
    takes that id, whatever its own tenant input says, and the automator then
    returns its own result, [success: true] when its JSON inputs parse. *)
Theorem manager_failure_still_supplies_tenant
    (rt : runtime) (nd : TenantManager.node_data) (input : value) (n : nat) :
  present (TenantManager.tenantId nd) = true ->
  Uuid.test Uuid.uuidRegex (str_or (TenantManager.tenantId nd) EmptyString) = true ->
  exists out,
    TenantManager.init rt nd n = (Return out, n)
    /\ get out "success" = VBool false
    /\ (forall a : Automator.node_data,
          Automator.tenantManager a = out ->
          automator_tenant a input = of_opt (TenantManager.tenantId nd)
          /\ exists env,
               Automator.init rt a input n = (Return env, n)
               /\ field env "success" = Some (VBool (automator_parses rt a)))
    /\ (forall x : WorkflowExecutor.node_data,
          WorkflowExecutor.tenantManager x = out ->
          executor_tenant x input = of_opt (TenantManager.tenantId nd)).
Proof.
  intros G1 G2.
  assert (T : truthy (of_opt (TenantManager.tenantId nd)) = true).
  { destruct (TenantManager.tenantId nd) as [s|]; [exact G1 | discriminate]. }
  assert (R : forall e own,
            Automator.resolve_tenant
              (or (TenantManager.failure rt nd e) input) input own
            = of_opt (TenantManager.tenantId nd)).
  { intros e own. unfold Automator.resolve_tenant.
    change (or (TenantManager.failure rt nd e) input)
      with (TenantManager.failure rt nd e).
    change (get (TenantManager.failure rt nd e) "tenant_id")
      with (of_opt (TenantManager.tenantId nd)).
    rewrite T. reflexivity. }
  assert (F : exists e, TenantManager.init rt nd n
                        = (Return (TenantManager.failure rt nd e), n)).
  { unfold TenantManager.init. rewrite G1, G2.
    cbv beta iota zeta delta [negb try_catch bind json_parse ret throw unbound].
    destruct (JSON_parse rt (str_or (TenantManager.tenantConfig nd) "{}"));
      eexists; reflexivity. }
  destruct F as (e & F). exists (TenantManager.failure rt nd e).
  split; [exact F|]. split; [reflexivity|]. split.
  - intros a Ha.
    assert (Ta : automator_tenant a input = of_opt (TenantManager.tenantId nd)).
    { unfold automator_tenant. rewrite Ha. apply R. }
    split; [exact Ta|].
    destruct (automator_init_returns rt a input n) as (env & E & S & _).
    + rewrite Ta. exact T.
    + exists env. split; assumption.
  - intros x Hx. unfold executor_tenant. rewrite Hx. apply R.
Qed.

Lemma manager_failure_still_supplies_tenant_witness :
  exists out,
    TenantManager.init (Sample.host Sample.flaky) Sample.tenant_manager 0%nat
    = (Return out, 0%nat)
    /\ get out "success" = VBool false
    /\ automator_tenant (chained_automator out) VUndefined = VStr Sample.uuid.
Proof.
  destruct (manager_failure_still_supplies_tenant (Sample.host Sample.flaky)
              Sample.tenant_manager VUndefined 0%nat eq_refl eq_refl)
    as (out & E & S & A & _).
  exists out. split; [exact E|]. split; [exact S|].
  exact (proj1 (A (chained_automator out) eq_refl)).
Defined.

End ChainedNodes.


Section Requests.
Variable rt : runtime.



(** The headers of a request: the tenant header is always there, the
    authorization header only for a non-empty key. *)
Lemma request_headers (apiKey : option string) (tenantId : value) :
  let hs := with_authorization apiKey
              (obj [ Field "Content-Type" (VStr "application/json");
                     Field "X-Tenant-ID" tenantId ]) in
  field hs "X-Tenant-ID" = Some tenantId
  /\ field hs "Content-Type" = Some (VStr "application/json")
  /\ field hs "Authorization"
     = if present apiKey then Some (VStr ("Bearer " ++ str_or apiKey EmptyString))
       else None.
Proof.
  unfold with_authorization. destruct (present apiKey); repeat split.
Qed.

End Requests.

Section RequestProperties.

(** X19: every request a node builds carries the tenant id twice, as the
    header [X-Tenant-ID] and as [tenant_id] of the body, and the two are the
    same value; the [Authorization] header is present exactly when an API
    key was given, as [Bearer] followed by the key.  This holds for the
    mentor, the supervisor and the workflow executor. *)
Theorem requests_carry_tenant
    (rt : runtime) (m : Mentor.node_data) (s : Supervisor.node_data)
    (x : WorkflowExecutor.node_data)
    (ctx cfg config context thresholds escalation tenantId pin pctx fcfg prules : value) :
  let rm := Mentor.outbound rt m ctx cfg in
  let rs := Supervisor.outbound rt s config context thresholds escalation cfg in
  let rx := WorkflowExecutor.outbound rt x tenantId pin pctx fcfg prules in
  (field (headers rm) "X-Tenant-ID" = Some (of_opt (Mentor.tenantId m))
   /\ field (body rm) "tenant_id" = Some (of_opt (Mentor.tenantId m))
   /\ field (headers rm) "Authorization"
      = if present (Mentor.apiKey m)
        then Some (VStr ("Bearer " ++ str_or (Mentor.apiKey m) EmptyString))
        else None)
  /\ (field (headers rs) "X-Tenant-ID" = Some (of_opt (Supervisor.tenantId s))
      /\ field (body rs) "tenant_id" = Some (of_opt (Supervisor.tenantId s))
      /\ field (headers rs) "Authorization"
         = if present (Supervisor.apiKey s)
           then Some (VStr ("Bearer " ++ str_or (Supervisor.apiKey s) EmptyString))
           else None)
  /\ (field (headers rx) "X-Tenant-ID" = Some tenantId
      /\ field (body rx) "tenant_id" = Some tenantId
      /\ field (headers rx) "Authorization"
         = if present (WorkflowExecutor.apiKey x)
           then Some (VStr ("Bearer " ++ str_or (WorkflowExecutor.apiKey x) EmptyString))
           else None).
Proof.
  cbv zeta.
  unfold Mentor.outbound, Supervisor.outbound, WorkflowExecutor.outbound.
  cbn [headers body].
  destruct (request_headers (Mentor.apiKey m) (of_opt (Mentor.tenantId m)))
    as (M1 & _ & M3).
  destruct (request_headers (Supervisor.apiKey s) (of_opt (Supervisor.tenantId s)))
    as (S1 & _ & S3).
  destruct (request_headers (WorkflowExecutor.apiKey x) tenantId) as (X1 & _ & X3).
  repeat split; assumption || reflexivity.
Qed.



End RequestProperties.


Section IntegrationsProperties.
Import AfricanIntegrations.

(** X21: what SMEFlowAfricanIntegrations.init reports when the call does not
    go through.  After the guards and with JSON inputs that parse, one call
    is made.  A reply outside 2xx comes back as [success: false] with the
    status as [error_code] and the [provider_error] of the reply body handed
    on; no reply at all comes back as [success: false] with [error_code]
    UNKNOWN and no provider error. *)
Theorem integrations_failure_report
    (rt : runtime) (nd : node_data) (n : nat)
    (config data_ localization compliance : value) :
  integrations_guards nd = true ->
  JSON_parse rt (str_or (integrationConfig nd) "{}") = inr config ->
  JSON_parse rt (str_or (requestData nd) "{}") = inr data_ ->
  JSON_parse rt (str_or (marketLocalization nd) "{}") = inr localization ->
  JSON_parse rt (str_or (complianceSettings nd) "{}") = inr compliance ->
  (forall r,
     backend rt n (integrations_request rt nd config data_ localization compliance)
     = Responded r ->
     is_2xx r = false -> status r <> 0%Z ->
     exists env,
       init rt nd n = (Return env, S n)
       /\ field env "success" = Some (VBool false)
       /\ field env "error_code" = Some (VNum (inject_Z (status r)))
       /\ field env "provider_error"
          = Some (if usable (data r) then get (data r) "provider_error"
                  else VUndefined))
  /\ (forall reason,
        backend rt n (integrations_request rt nd config data_ localization compliance)
        = NoResponse reason ->
        exists env,
          init rt nd n = (Return env, S n)
          /\ field env "success" = Some (VBool false)
          /\ field env "error" = Some (VStr reason)
          /\ field env "error_code" = Some (VStr "UNKNOWN")
          /\ field env "provider_error" = Some VUndefined).
Proof.
  unfold integrations_guards. intros G P1 P2 P3 P4.
  apply andb_true_iff in G as [G G4]. apply andb_true_iff in G as [G G3].
  apply andb_true_iff in G as [G1 G2].
  unfold init. rewrite G1, G2, G3, G4.
  cbv beta iota zeta delta [negb try_catch bind json_parse ret throw axios_post].
  rewrite P1, P2, P3, P4.
  fold (integrations_request rt nd config data_ localization compliance).
  split.
  - intros r B X Hs. rewrite B. unfold is_2xx in X. rewrite X.
    eexists. split; [reflexivity|]. split; [reflexivity|]. split.
    + cbn. f_equal.
      apply (error_code_of_status
               {| name := "AxiosError";
                  message := "Request failed with status code " ++ Str.of_Z (status r);
                  response := Some r |} r eq_refl Hs).
    + cbn. destruct (data r); reflexivity.
  - intros reason B. rewrite B.
    eexists. split; [reflexivity|]. repeat split.
Qed.

Lemma integrations_failure_report_witness :
  exists env,
    init (Sample.host declining) sample_integration 0%nat = (Return env, 1%nat)
    /\ field env "success" = Some (VBool false)
    /\ field env "error_code" = Some (VNum 402)
    /\ field env "provider_error" = Some (VStr "insufficient funds").
Proof.
  destruct (integrations_failure_report (Sample.host declining) sample_integration
              0%nat (obj []) (obj []) (obj []) (obj [])
              eq_refl eq_refl eq_refl eq_refl eq_refl) as [A _].
  exact (A _ eq_refl eq_refl ltac:(discriminate)).
Defined.

(** X22: which tenant id the integrations node works for.  A connected
    tenant manager that reports success replaces the node's own tenant id,
    even with nothing: if it carries no tenant id and no agent is connected,
    SMEFlowAfricanIntegrations.init raises the Error that the tenant id is
    required, whatever tenant id the node was given.  A tenant manager that
    does not report success is ignored, and a connected agent never replaces
    a tenant id that is already there. *)
Theorem integrations_tenant_precedence (rt : runtime) (nd : node_data) (n : nat) :
  (connected_ok (tenantManager nd) = true ->
   present (connected_tenant (tenantManager nd)) = false ->
   connected_ok (smeflowAgent nd) = false ->
   init rt nd n
   = (Throw (error "Error" "Tenant ID is required for multi-tenant isolation"), n))
  /\ (connected_ok (tenantManager nd) = true ->
      present (connected_tenant (tenantManager nd)) = true ->
      resolve_tenant nd = connected_tenant (tenantManager nd))
  /\ (connected_ok (tenantManager nd) = false ->
      present (tenantId nd) = true ->
      resolve_tenant nd = tenantId nd).
Proof.
  split; [|split].
  - intros M T A. unfold init, resolve_tenant. rewrite M, A, T. reflexivity.
  - intros M T. unfold resolve_tenant. rewrite M, T.
    destruct (connected_ok (smeflowAgent nd)); reflexivity.
  - intros M T. unfold resolve_tenant. rewrite M, T.
    destruct (connected_ok (smeflowAgent nd)); reflexivity.
Qed.

Lemma integrations_tenant_precedence_witness :
  tenantId wired_without_tenant = Some Sample.uuid
  /\ init (Sample.host Sample.flaky) wired_without_tenant 0%nat
     = (Throw (error "Error" "Tenant ID is required for multi-tenant isolation"), 0%nat).
Proof.
  split; [reflexivity|].
  exact (proj1 (integrations_tenant_precedence (Sample.host Sample.flaky)
                  wired_without_tenant 0%nat) eq_refl eq_refl eq_refl).
Defined.

End IntegrationsProperties.


Section AgentProperties.

(** X23: in the request of the generic agent node the tenant id of the node
    cannot be displaced by the configuration: [config.tenant_id] of the
    request is the node's tenant id whatever the parsed configuration holds,
    and it equals the [X-Tenant-ID] header.  Region, currency, timezone and
    languages are the configuration's when truthy and the defaults
    otherwise. *)
Theorem agent_request_pins_tenant
    (rt : runtime) (nd : Agent.node_data) (config : value) :
  exists c,
    field (body (agent_request rt nd config)) "config" = Some c
    /\ field c "tenant_id" = Some (of_opt (Agent.tenantId nd))
    /\ field (headers (agent_request rt nd config)) "X-Tenant-ID"
       = Some (of_opt (Agent.tenantId nd))
    /\ (forall k d, In (k, d) agent_defaults ->
        exists x, field c k = Some x /\ truthy x = true
                  /\ (truthy (get config k) = true -> x = get config k)
                  /\ (truthy (get config k) = false -> x = d)).
Proof.
  unfold agent_request, Agent.outbound. cbn [body headers].
  eexists. split; [reflexivity|].
  split; [|split].
  - unfold obj at 1. unfold field. cbn [fold_left add_member].
    rewrite !lookup_define_prop. reflexivity.
  - exact (proj1 (request_headers (Agent.apiKey nd) (of_opt (Agent.tenantId nd)))).
  - intros k d K. simpl in K.
    repeat (destruct K as [K | K];
            [injection K as <- <-; eexists; split;
             [unfold obj at 1; unfold field; cbn [fold_left add_member];
              rewrite !lookup_define_prop; reflexivity
             | unfold or; destruct (truthy (get config _)) eqn:T;
               repeat split; try reflexivity; try discriminate; try exact T ]|]).
    contradiction.
Qed.

Lemma agent_request_pins_tenant_witness :
  exists c,
    field (body (agent_request (Sample.host Sample.flaky) sample_agent foreign_config))
      "config" = Some c
    /\ field c "tenant_id" = Some (VStr "acme")
    /\ field c "currency" = Some (VStr "KES")
    /\ field c "region" = Some (VStr "africa-west").
Proof.
  destruct (agent_request_pins_tenant (Sample.host Sample.flaky) sample_agent
              foreign_config) as (c & B & T & _ & D).
  exists c. split; [exact B|]. split; [exact T|]. split.
  - destruct (D "currency" (VStr "NGN") ltac:(simpl; tauto)) as (x & X & _ & Y & _).
    rewrite X, (Y eq_refl). reflexivity.
  - destruct (D "region" (VStr "africa-west") ltac:(simpl; tauto)) as (x & X & _ & _ & Y).
    rewrite X, (Y eq_refl). reflexivity.
Defined.

(** X24: SMEFlowAgent.init asks only for a tenant id that is not empty; it
    does not check its format.  Without one it raises an Error and makes no
    call.  With one it always returns an object: when the configuration does
    not parse, or parses to null, no call is made and the object has
    [success: false] with the error message and no [error_code]; otherwise
    exactly one call is made, and [success] is true exactly when the backend
    answered 2xx with a readable body. *)
Theorem agent_envelope (rt : runtime) (nd : Agent.node_data) (n : nat) :
  (present (Agent.tenantId nd) = false ->
   Agent.init rt nd n
   = (Throw (error "Error" "Tenant ID is required for multi-tenant isolation"), n))
  /\ (present (Agent.tenantId nd) = true ->
      (forall msg,
         JSON_parse rt (str_or (Agent.agentConfig nd) "{}") = inl msg ->
         Agent.init rt nd n
         = (Return (Agent.failure rt nd (error "SyntaxError" msg)), n))
      /\ (forall config,
            JSON_parse rt (str_or (Agent.agentConfig nd) "{}") = inr config ->
            usable config = false ->
            exists e,
              Agent.init rt nd n = (Return (Agent.failure rt nd e), n)
              /\ name e = "TypeError"
              /\ field (Agent.failure rt nd e) "error_code" = None)
      /\ (forall config,
            JSON_parse rt (str_or (Agent.agentConfig nd) "{}") = inr config ->
            usable config = true ->
            exists env,
              Agent.init rt nd n = (Return env, S n)
              /\ field env "success"
                 = Some (VBool
                           match backend rt n (agent_request rt nd config) with
                           | Responded r => is_2xx r && usable (data r)
                           | NoResponse _ => false
                           end)
              /\ field env "tenant_id" = Some (of_opt (Agent.tenantId nd)))).
Proof.
  split.
  - intros G. unfold Agent.init. rewrite G. reflexivity.
  - intros G. unfold Agent.init. rewrite G.
    cbv beta iota zeta delta [negb try_catch bind json_parse ret throw axios_post].
    split; [|split].
    + intros msg ->. reflexivity.
    + intros config -> U. destruct config; try discriminate U;
        (eexists; split; [reflexivity|]; split; reflexivity).
    + intros config -> U. unfold agent_request, is_2xx.
      assert (E : forall k, member_of config k n = (Return (get config k), n)).
      { intros k. destruct config; try discriminate U; reflexivity. }
      rewrite !E.
      destruct (backend rt n _) as [r|reason].
      * destruct ((200 <=? status r)%Z && (status r <? 300)%Z).
        -- destruct (data r); simpl; (eexists; split; [reflexivity|]; split; reflexivity).
        -- eexists; split; [reflexivity|]; split; reflexivity.
      * eexists; split; [reflexivity|]; split; reflexivity.
Qed.

Lemma agent_envelope_witness :
  exists e,
    Agent.init null_host sample_agent 0%nat
    = (Return (Agent.failure null_host sample_agent e), 0%nat)
    /\ name e = "TypeError".
Proof.
  destruct (proj1 (proj2 (proj2 (agent_envelope null_host sample_agent 0%nat) eq_refl))
              VNull eq_refl eq_refl) as (e & E & N & _).
  exists e. split; assumption.
Defined.

End AgentProperties.
